(** * Branch synchronisation of tyz-actions: a shallow embedding

    The development follows [updateSGCOnParentPush] of
    [src/processes/update-sgc-on-parent-push.ts] (parent branch to its
    [sgc-] branch) and [updateReleaseOnStagingPush] (rebase of [release]
    onto [staging]).

    - JavaScript strings are [string]; [startsWith], [endsWith], [includes]
      and [slice(0, n)] are written out.
    - [Map] and [Set] keep insertion order, so they are association lists
      and lists, with the update-in-place behaviour of [Map.prototype.set].
    - The remote store is a record [Octokit] of answers, one function per
      endpoint: what a request returns depends on the request only. A run is
      a value of the monad [M]: the result (or the thrown error) together
      with the sequence of requests issued, in order.
    - Console output is not part of the model. *)

From Stdlib Require Import List String Ascii Bool PeanoNat Lia DecimalString.
Import ListNotations.
Open Scope string_scope.
Open Scope list_scope.

Set Implicit Arguments.

(** ** JavaScript string operations *)

Module Js.

Definition startsWith (s p : string) : bool := String.prefix p s.

Definition endsWith (s suffix : string) : bool :=
  Nat.leb (String.length suffix) (String.length s) &&
  String.eqb
    (substring (String.length s - String.length suffix)
               (String.length suffix) s)
    suffix.

Fixpoint includes (s needle : string) : bool :=
  String.prefix needle s ||
  match s with
  | EmptyString => false
  | String _ rest => includes rest needle
  end.

(** [s.slice(0, n)] *)
Definition slice0 (n : nat) (s : string) : string := substring 0 n s.

(** Template interpolation of a non-negative counter. *)
Definition ofNat (n : nat) : string := NilZero.string_of_uint (Nat.to_uint n).

(** [parts.join(sep)] *)
Definition join (sep : string) (parts : list string) : string :=
  String.concat sep parts.

(** *** [Map<string, V>]: insertion ordered, [set] on a present key
    replaces the value and keeps the key's position. *)
Section MapOps.
Variable V : Type.

Definition Map := list (string * V).

Fixpoint map_set (k : string) (v : V) (m : Map) : Map :=
  match m with
  | [] => [(k, v)]
  | (k', v') :: rest =>
      if String.eqb k' k then (k, v) :: rest
      else (k', v') :: map_set k v rest
  end.

Fixpoint map_get (k : string) (m : Map) : option V :=
  match m with
  | [] => None
  | (k', v') :: rest => if String.eqb k' k then Some v' else map_get k rest
  end.

Definition map_has (k : string) (m : Map) : bool :=
  match map_get k m with Some _ => true | None => false end.

Definition map_keys (m : Map) : list string := map fst m.
End MapOps.

(** *** [Set<string>] *)
Definition StrSet := list string.

Definition set_has (x : string) (s : StrSet) : bool :=
  existsb (String.eqb x) s.

Definition set_add (x : string) (s : StrSet) : StrSet :=
  if set_has x s then s else s ++ [x].

End Js.

(** ** Tree listings and tree updates *)

(** One item of a recursive tree listing ([GET .../git/trees/{sha}]). *)
Record TreeItem := mkItem {
  path : string;
  mode : string;
  type : string;
  sha  : string
}.

(** One entry of the [tree] array sent to [POST .../git/trees];
    [u_sha = None] is JavaScript's [sha: null], which deletes the path. *)
Record TreeUpdate := mkUpdate {
  u_path : string;
  u_mode : string;
  u_type : string;
  u_sha  : option string
}.

Definition putEntry (p m s : string) : TreeUpdate := mkUpdate p m "blob" (Some s).
Definition deleteEntry (p : string) : TreeUpdate := mkUpdate p "100644" "blob" None.

Definition isPut (u : TreeUpdate) : bool :=
  match u_sha u with Some _ => true | None => false end.
Definition isDelete (u : TreeUpdate) : bool := negb (isPut u).

Definition isBlob (item : TreeItem) : bool := String.eqb (type item) "blob".

(** The [parent] argument: the TypeScript union
    ["staging" | "production" | "release"]. *)
Inductive Parent := Staging | Production | Release.

Definition parentName (p : Parent) : string :=
  match p with
  | Staging => "staging"
  | Production => "production"
  | Release => "release"
  end.

(** ** The planning passes of [updateSGCOnParentPush] *)

Definition shopifyFolders : list string :=
  ["assets"; "blocks"; "config"; "layout"; "locales"; "sections"; "snippets";
   "templates"].

(** [shopifyFolders.some(folder => p.startsWith(folder + '/') || p === folder)] *)
Definition isInShopifyFolder (p : string) : bool :=
  existsb (fun folder => Js.startsWith p (folder ++ "/")%string || String.eqb p folder)
          shopifyFolders.

(** Line 329. *)
Definition shouldIncludeJsonOf (includeJsonFiles : bool) (parent : Parent) : bool :=
  includeJsonFiles ||
  String.eqb (parentName parent) "staging" ||
  String.eqb (parentName parent) "release".

Definition isSettingsSchema (p : string) : bool :=
  String.eqb p "config/settings_schema.json".

(** Line 384: [isNotJson]. *)
Definition isNotJson (shouldIncludeJson : bool) (p : string) : bool :=
  shouldIncludeJson || negb (Js.endsWith p ".json") || isSettingsSchema p.

(** Lines 371-387: the predicate of [parentTree.data.tree.filter]. *)
Definition shopifyFilter (shouldIncludeJson : bool) (item : TreeItem) : bool :=
  if negb (isBlob item) then false
  else isInShopifyFolder (path item) && isNotJson shouldIncludeJson (path item).

(** Lines 522-524: [shouldExcludeJson] of the deletion pass. *)
Definition shouldExcludeJson (shouldIncludeJson : bool) (filePath : string) : bool :=
  negb shouldIncludeJson && Js.endsWith filePath ".json" &&
  negb (isSettingsSchema filePath).

(** The local variables the passes mutate. *)
Record Locals := mkLocals {
  treeUpdates    : list TreeUpdate;
  filesUpdated   : nat;
  filesAdded     : nat;
  filesDeleted   : nat;
  filesCleanedUp : nat;
  blobsToFetch   : Js.Map TreeItem
}.

Definition initLocals : Locals := mkLocals [] 0 0 0 0 [].

Definition pushUpdate (u : TreeUpdate) (st : Locals) : Locals :=
  mkLocals (treeUpdates st ++ [u]) (filesUpdated st) (filesAdded st)
           (filesDeleted st) (filesCleanedUp st) (blobsToFetch st).

(** [if (sgcFiles.has(path)) filesUpdated++ else filesAdded++] *)
Definition countPut (sgcFiles : Js.Map string) (p : string) (st : Locals) : Locals :=
  if Js.map_has p sgcFiles
  then mkLocals (treeUpdates st) (S (filesUpdated st)) (filesAdded st)
                (filesDeleted st) (filesCleanedUp st) (blobsToFetch st)
  else mkLocals (treeUpdates st) (filesUpdated st) (S (filesAdded st))
                (filesDeleted st) (filesCleanedUp st) (blobsToFetch st).

Definition setBlobToFetch (k : string) (f : TreeItem) (st : Locals) : Locals :=
  mkLocals (treeUpdates st) (filesUpdated st) (filesAdded st)
           (filesDeleted st) (filesCleanedUp st)
           (Js.map_set k f (blobsToFetch st)).

Definition countDeleted (st : Locals) : Locals :=
  mkLocals (treeUpdates st) (filesUpdated st) (filesAdded st)
           (S (filesDeleted st)) (filesCleanedUp st) (blobsToFetch st).

Definition countCleanedUp (st : Locals) : Locals :=
  mkLocals (treeUpdates st) (filesUpdated st) (filesAdded st)
           (filesDeleted st) (S (filesCleanedUp st)) (blobsToFetch st).

(** Lines 408-416: [sgcFiles] and [sgcBlobShas]. *)
Definition sgcFilesOf (sgcTree : list TreeItem) : Js.Map string :=
  fold_left
    (fun m item => if isBlob item then Js.map_set (path item) (sha item) m else m)
    sgcTree [].

Definition sgcBlobShasOf (sgcTree : list TreeItem) : Js.StrSet :=
  fold_left
    (fun s item => if isBlob item then Js.set_add (sha item) s else s)
    sgcTree [].

(** Line 419: [new Set(shopifyFiles.map(f => f.path))]. *)
Definition parentFilePathsOf (shopifyFiles : list TreeItem) : Js.StrSet :=
  fold_left (fun s p => Js.set_add p s) (map path shopifyFiles) [].

(** Lines 430-437: the file exists in [sgc-parent] with the same sha. *)
Definition upToDate (sgcFiles : Js.Map string) (shopifyFile : TreeItem) : bool :=
  match Js.map_get (path shopifyFile) sgcFiles with
  | Some sgcFileSha => String.eqb sgcFileSha (sha shopifyFile)
  | None => false
  end.

(** Lines 428-461: one iteration of the loop over [shopifyFiles]. *)
Definition diffStep (sgcFiles : Js.Map string) (sgcBlobShas : Js.StrSet)
           (st : Locals) (shopifyFile : TreeItem) : Locals :=
  if upToDate sgcFiles shopifyFile then st
  else if Js.set_has (sha shopifyFile) sgcBlobShas then
    countPut sgcFiles (path shopifyFile)
      (pushUpdate (putEntry (path shopifyFile) (mode shopifyFile) (sha shopifyFile)) st)
  else setBlobToFetch (sha shopifyFile) shopifyFile st.

Definition diffPass (sgcFiles : Js.Map string) (sgcBlobShas : Js.StrSet)
           (shopifyFiles : list TreeItem) (st : Locals) : Locals :=
  fold_left (diffStep sgcFiles sgcBlobShas) shopifyFiles st.

(** Lines 490-504: what the batch worker does with the sha of the blob it
    created. *)
Definition recordCopied (sgcFiles : Js.Map string) (shopifyFile : TreeItem)
           (newBlobSha : string) (st : Locals) : Locals :=
  countPut sgcFiles (path shopifyFile)
    (pushUpdate (putEntry (path shopifyFile) (mode shopifyFile) newBlobSha) st).

(** Lines 509-541: one iteration of the deletion loop over [sgcFiles.entries()]. *)
Definition deletionStep (shouldIncludeJson : bool) (parentFilePaths : Js.StrSet)
           (st : Locals) (entry : string * string) : Locals :=
  let filePath := fst entry in
  if negb (isInShopifyFolder filePath) then st
  else if shouldExcludeJson shouldIncludeJson filePath then st
  else if negb (Js.set_has filePath parentFilePaths)
       then countDeleted (pushUpdate (deleteEntry filePath) st)
       else st.

Definition deletionPass (shouldIncludeJson : bool) (parentFilePaths : Js.StrSet)
           (sgcFiles : Js.Map string) (st : Locals) : Locals :=
  fold_left (deletionStep shouldIncludeJson parentFilePaths) sgcFiles st.

(** Lines 543-566: one iteration of the cleanup loop. *)
Definition cleanupStep (st : Locals) (entry : string * string) : Locals :=
  let filePath := fst entry in
  if negb (isInShopifyFolder filePath) then
    let alreadyInUpdates :=
      existsb (fun update => String.eqb (u_path update) filePath) (treeUpdates st) in
    if negb alreadyInUpdates
    then countCleanedUp (pushUpdate (deleteEntry filePath) st)
    else st
  else st.

Definition cleanupPass (sgcFiles : Js.Map string) (st : Locals) : Locals :=
  fold_left cleanupStep sgcFiles st.

(** ** Remote calls *)

(** The errors the remote client throws: [error.status] (absent for a
    transport failure) and [error.message]. *)
Record ApiError := mkError {
  status  : option nat;
  message : string
}.

(** The requests the processes issue through [octokit.request]. *)
Inductive Call :=
| GetRef (branch : string)
| GetTree (tree_sha : string)
| GetCommit (commit_sha : string)
| GetBlob (file_sha : string)
| PostBlob (content encoding : string)
| PostTree (base_tree : string) (tree : list TreeUpdate)
| PostCommit (msg : string) (tree : string) (parents : list string)
| PatchRef (branch : string) (new_sha : string) (force : bool)
| PostMerges (base head commit_message : string).

Inductive Result (A : Type) :=
| Ok (a : A)
| Throw (e : ApiError).
Arguments Ok {A} a.
Arguments Throw {A} e.

Record BlobData := mkBlob {
  content  : string;
  encoding : string
}.

(** What the remote store answers to each request: the part of the response
    the code reads ([data.object.sha], [data.tree], [data.tree.sha],
    [data.content] and [data.encoding], [data.sha]) or the error thrown. *)
Record Octokit := mkOctokit {
  get_ref     : string -> Result string;
  get_tree    : string -> Result (list TreeItem);
  get_commit  : string -> Result string;
  get_blob    : string -> Result BlobData;
  post_blob   : string -> string -> Result string;
  post_tree   : string -> list TreeUpdate -> Result string;
  post_commit : string -> string -> list string -> Result string;
  patch_ref   : string -> string -> bool -> Result unit;
  post_merges : string -> string -> string -> Result unit
}.

(** A computation: its outcome and the calls it issued, in order. *)
Definition M (A : Type) : Type := (Result A * list Call)%type.

Definition ret {A} (a : A) : M A := (Ok a, []).
Definition throw {A} (e : ApiError) : M A := (Throw e, []).

Definition bind {A B} (m : M A) (k : A -> M B) : M B :=
  match m with
  | (Ok a, calls) => let (r, calls') := k a in (r, calls ++ calls')
  | (Throw e, calls) => (Throw e, calls)
  end.

(** [try { m } catch (error) { handler(error) }] *)
Definition tryCatch {A} (m : M A) (handler : ApiError -> M A) : M A :=
  match m with
  | (Ok a, calls) => (Ok a, calls)
  | (Throw e, calls) => let (r, calls') := handler e in (r, calls ++ calls')
  end.

Declare Scope sync_scope.
Delimit Scope sync_scope with sync.
Notation "x <- m ;; k" := (bind m (fun x => k))
  (at level 61, m at next level, right associativity) : sync_scope.
Notation "m ;;; k" := (bind m (fun _ => k))
  (at level 61, right associativity) : sync_scope.
Open Scope sync_scope.

Definition outcome {A} (m : M A) : Result A := fst m.
Definition calls {A} (m : M A) : list Call := snd m.

Section Processes.

Variable octokit : Octokit.

(** [() => octokit.request(...)] for each endpoint. *)
Definition requestGetRef (branch : string) : M string :=
  (get_ref octokit branch, [GetRef branch]).
Definition requestGetTree (tree_sha : string) : M (list TreeItem) :=
  (get_tree octokit tree_sha, [GetTree tree_sha]).
Definition requestGetCommit (commit_sha : string) : M string :=
  (get_commit octokit commit_sha, [GetCommit commit_sha]).
Definition requestGetBlob (file_sha : string) : M BlobData :=
  (get_blob octokit file_sha, [GetBlob file_sha]).
Definition requestPostBlob (c e : string) : M string :=
  (post_blob octokit c e, [PostBlob c e]).
Definition requestPostTree (base_tree : string) (tree : list TreeUpdate) : M string :=
  (post_tree octokit base_tree tree, [PostTree base_tree tree]).
Definition requestPostCommit (m tree : string) (parents : list string) : M string :=
  (post_commit octokit m tree parents, [PostCommit m tree parents]).
Definition requestPatchRef (branch new_sha : string) (force : bool) : M unit :=
  (patch_ref octokit branch new_sha force, [PatchRef branch new_sha force]).
Definition requestPostMerges (base head m : string) : M unit :=
  (post_merges octokit base head m, [PostMerges base head m]).

(** Modelled from the spec: [rateLimitedRequest] of
    [utils/rate-limited-request.ts] is the Rate-Limited Call Executor
    (section 4.1): it paces and retries the call and returns its response,
    or propagates the call's own error once the retries are exhausted. The
    model keeps one logical call with its final outcome; pacing and the
    retried attempts are not represented. *)
Definition rateLimitedRequest {A} (call : M A) : M A := call.

(** Modelled from the spec: [batchProcess] of
    [utils/rate-limited-request.ts] is the Batch Scheduler (section 4.2):
    the worker is invoked for each item of the sequence; an item's
    unrecoverable failure propagates and aborts the remaining schedule.
    Batch size and delays only affect timing. The worker's writes to the
    enclosing function's variables are threaded as [S]. *)
Fixpoint batchProcess {T S} (items : list T) (worker : T -> S -> M S) (st : S) : M S :=
  match items with
  | [] => ret st
  | item :: rest => st' <- worker item st ;; batchProcess rest worker st'
  end.

(** Lines 468-505: the batch worker. *)
Definition copyBlob (sgcFiles : Js.Map string) (entry : string * TreeItem)
           (st : Locals) : M Locals :=
  let (blobSha, shopifyFile) := entry in
  blob <- rateLimitedRequest (requestGetBlob blobSha) ;;
  newBlob <- rateLimitedRequest (requestPostBlob (content blob) (encoding blob)) ;;
  ret (recordCopied sgcFiles shopifyFile newBlob st).

(** Lines 585-598 (and 622-634): the parts of the summary. *)
Definition countParts (st : Locals) : list string :=
  (if Nat.ltb 0 (filesAdded st) then [Js.ofNat (filesAdded st) ++ " added"]%string else []) ++
  (if Nat.ltb 0 (filesUpdated st) then [Js.ofNat (filesUpdated st) ++ " updated"]%string else []) ++
  (if Nat.ltb 0 (filesDeleted st) then [Js.ofNat (filesDeleted st) ++ " deleted"]%string else []) ++
  (if Nat.ltb 0 (filesCleanedUp st) then [Js.ofNat (filesCleanedUp st) ++ " cleaned up"]%string else []).

Definition commitMessageOf (parent : Parent) (st : Locals) : string :=
  ("Sync Shopify files from " ++ parentName parent ++ " (" ++
   Js.join ", " (countParts st) ++ ")")%string.

Definition sgcBranch (parent : Parent) : string :=
  ("sgc-" ++ parentName parent)%string.

(** Lines 568-620: tree, commit and ref update for the collected updates. *)
Definition commitUpdates (parent : Parent) (sgcSha : string) (st : Locals) : M unit :=
  if Nat.eqb (List.length (treeUpdates st)) 0 then ret tt
  else
    newTree <- rateLimitedRequest (requestPostTree sgcSha (treeUpdates st)) ;;
    newCommit <- rateLimitedRequest
                   (requestPostCommit (commitMessageOf parent st) newTree [sgcSha]) ;;
    rateLimitedRequest (requestPatchRef (sgcBranch parent) newCommit false).

(** Lines 407-566: the updates for a non-empty list of files to sync. *)
Definition collectUpdates (shouldIncludeJson : bool)
           (shopifyFiles sgcTree : list TreeItem) : M Locals :=
  let sgcFiles := sgcFilesOf sgcTree in
  let sgcBlobShas := sgcBlobShasOf sgcTree in
  let parentFilePaths := parentFilePathsOf shopifyFiles in
  let st := diffPass sgcFiles sgcBlobShas shopifyFiles initLocals in
  st <- batchProcess (blobsToFetch st) (copyBlob sgcFiles) st ;;
  let st := deletionPass shouldIncludeJson parentFilePaths sgcFiles st in
  ret (cleanupPass sgcFiles st).

(** Lines 327-636: the [try] block of [updateSGCOnParentPush]. *)
Definition updateSGCOnParentPush_try (includeJsonFiles : bool) (parent : Parent)
  : M unit :=
  let shouldIncludeJson := shouldIncludeJsonOf includeJsonFiles parent in
  parentSha <- rateLimitedRequest (requestGetRef (parentName parent)) ;;
  sgcSha <- rateLimitedRequest (requestGetRef (sgcBranch parent)) ;;
  parentTree <- rateLimitedRequest (requestGetTree parentSha) ;;
  let shopifyFiles := filter (shopifyFilter shouldIncludeJson) parentTree in
  if Nat.eqb (List.length shopifyFiles) 0 then ret tt
  else
    sgcTree <- rateLimitedRequest (requestGetTree sgcSha) ;;
    st <- collectUpdates shouldIncludeJson shopifyFiles sgcTree ;;
    commitUpdates parent sgcSha st.

(** Line 642. *)
Definition isConflict (error : ApiError) : bool :=
  match status error with
  | Some code => Nat.eqb code 422
  | None => false
  end || Js.includes (message error) "conflict".

Definition fallbackMessage (parent : Parent) : string :=
  ("Merge " ++ parentName parent ++ " into " ++ sgcBranch parent ++
   " (fallback from Shopify sync)")%string.

(** Lines 638-659: the [catch] block. *)
Definition updateSGCOnParentPush_catch (parent : Parent) (error : ApiError) : M unit :=
  if isConflict error then
    tryCatch
      (rateLimitedRequest
         (requestPostMerges (sgcBranch parent) (parentName parent)
                            (fallbackMessage parent)))
      (fun mergeError => ret tt)
  else ret tt.

Definition updateSGCOnParentPush (includeJsonFiles : bool) (parent : Parent) : M unit :=
  tryCatch (updateSGCOnParentPush_try includeJsonFiles parent)
           (updateSGCOnParentPush_catch parent).

(** *** [updateReleaseOnStagingPush] *)

Definition rebaseMessage (stagingSha : string) : string :=
  ("Rebase release onto staging (" ++ Js.slice0 7 stagingSha ++ ")")%string.

(** The inner [try]/[catch] of the existence check: [None] is the
    [return] taken on a 404, [Some b] continues with [releaseExists = b]. *)
Definition checkReleaseBranch : M (option bool) :=
  tryCatch
    (rateLimitedRequest (requestGetRef "release") ;;; ret (Some true))
    (fun error =>
       match status error with
       | Some 404 => ret None
       | _ => throw error
       end).

Definition updateReleaseOnStagingPush_try : M unit :=
  checked <- checkReleaseBranch ;;
  match checked with
  | None => ret tt
  | Some releaseExists =>
      if negb releaseExists then ret tt
      else
        stagingSha <- rateLimitedRequest (requestGetRef "staging") ;;
        releaseSha <- rateLimitedRequest (requestGetRef "release") ;;
        if String.eqb releaseSha stagingSha then ret tt
        else
          stagingTree <- rateLimitedRequest (requestGetCommit stagingSha) ;;
          rebaseCommit <- rateLimitedRequest
                            (requestPostCommit (rebaseMessage stagingSha)
                                               stagingTree [stagingSha]) ;;
          rateLimitedRequest (requestPatchRef "release" rebaseCommit true)
  end.

Definition updateReleaseOnStagingPush : M unit :=
  tryCatch updateReleaseOnStagingPush_try (fun error => throw error).

End Processes.

(** ** The plan as a function of the two listings

    The tree updates [updateSGCOnParentPush] has collected when it reaches
    line 568, for the parent listing [parentTree] and the [sgc-] listing
    [sgcTree]; [newBlobSha] gives, for the sha of a copied blob, the sha
    the store answered for the new blob. When nothing passes the filter
    the function returns at line 393 with no update. *)

Definition copyStep (newBlobSha : string -> string) (sgcFiles : Js.Map string)
           (st : Locals) (entry : string * TreeItem) : Locals :=
  recordCopied sgcFiles (snd entry) (newBlobSha (fst entry)) st.

Definition syncLocals (shouldIncludeJson : bool) (shopifyFiles sgcTree : list TreeItem)
           (newBlobSha : string -> string) : Locals :=
  let sgcFiles := sgcFilesOf sgcTree in
  let sgcBlobShas := sgcBlobShasOf sgcTree in
  let parentFilePaths := parentFilePathsOf shopifyFiles in
  let st := diffPass sgcFiles sgcBlobShas shopifyFiles initLocals in
  let st := fold_left (copyStep newBlobSha sgcFiles) (blobsToFetch st) st in
  let st := deletionPass shouldIncludeJson parentFilePaths sgcFiles st in
  cleanupPass sgcFiles st.

Definition syncPlan (shouldIncludeJson : bool) (parentTree sgcTree : list TreeItem)
           (newBlobSha : string -> string) : list TreeUpdate :=
  let shopifyFiles := filter (shopifyFilter shouldIncludeJson) parentTree in
  if Nat.eqb (List.length shopifyFiles) 0 then []
  else treeUpdates (syncLocals shouldIncludeJson shopifyFiles sgcTree newBlobSha).

(** ** Vocabulary of the statements *)

(** Paths and shas of the files of a listing. *)
Definition blobPaths (tree : list TreeItem) : list string :=
  map path (filter isBlob tree).
Definition blobShas (tree : list TreeItem) : list string :=
  map sha (filter isBlob tree).

(** The two ways the loop of lines 428-461 treats a file that is not up to
    date. *)
Definition reusable (sgcFiles : Js.Map string) (sgcBlobShas : Js.StrSet)
           (f : TreeItem) : bool :=
  negb (upToDate sgcFiles f) && Js.set_has (sha f) sgcBlobShas.
Definition toCopy (sgcFiles : Js.Map string) (sgcBlobShas : Js.StrSet)
           (f : TreeItem) : bool :=
  negb (upToDate sgcFiles f) && negb (Js.set_has (sha f) sgcBlobShas).

Definition fetchMapOf (files : list TreeItem) (m : Js.Map TreeItem) : Js.Map TreeItem :=
  fold_left (fun m f => Js.map_set (sha f) f m) files m.

Definition putOfFile (f : TreeItem) : TreeUpdate :=
  putEntry (path f) (mode f) (sha f).
Definition putOfCopy (newBlobSha : string -> string) (entry : string * TreeItem)
  : TreeUpdate :=
  putEntry (path (snd entry)) (mode (snd entry)) (newBlobSha (fst entry)).

Definition deletable (shouldIncludeJson : bool) (parentFilePaths : Js.StrSet)
           (p : string) : bool :=
  isInShopifyFolder p && negb (shouldExcludeJson shouldIncludeJson p) &&
  negb (Js.set_has p parentFilePaths).
Definition outOfScope (p : string) : bool := negb (isInShopifyFolder p).

(** ** The four blocks of the plan *)

Definition reusePuts (files sgcTree : list TreeItem) : list TreeUpdate :=
  map putOfFile (filter (reusable (sgcFilesOf sgcTree) (sgcBlobShasOf sgcTree)) files).

Definition blobEntriesOf (files sgcTree : list TreeItem) : Js.Map TreeItem :=
  fetchMapOf (filter (toCopy (sgcFilesOf sgcTree) (sgcBlobShasOf sgcTree)) files) [].

Definition copyPuts (files sgcTree : list TreeItem) (newBlobSha : string -> string)
  : list TreeUpdate :=
  map (putOfCopy newBlobSha) (blobEntriesOf files sgcTree).

Definition deletions (inc : bool) (files sgcTree : list TreeItem) : list TreeUpdate :=
  map deleteEntry
      (filter (deletable inc (parentFilePathsOf files))
              (Js.map_keys (sgcFilesOf sgcTree))).

Definition cleanups (sgcTree : list TreeItem) : list TreeUpdate :=
  map deleteEntry (filter outOfScope (Js.map_keys (sgcFilesOf sgcTree))).

(** ** Vocabulary of runs *)

(** The sha the store answers when the blob [k] is copied (lines 470-488). *)
Definition copiedSha (octokit : Octokit) (k : string) : string :=
  match get_blob octokit k with
  | Ok blob =>
      match post_blob octokit (content blob) (encoding blob) with
      | Ok newSha => newSha
      | Throw _ => k
      end
  | Throw _ => k
  end.

Definition copyable (octokit : Octokit) (k : string) : Prop :=
  exists blob newSha,
    get_blob octokit k = Ok blob /\
    post_blob octokit (content blob) (encoding blob) = Ok newSha.

(** A blob read of a key of [entries], or the creation of the blob read. *)
Definition blobCallFor (octokit : Octokit) (entries : Js.Map TreeItem) (c : Call)
  : Prop :=
  exists k f, In (k, f) entries /\
    (c = GetBlob k \/
     exists blob, get_blob octokit k = Ok blob /\
                  c = PostBlob (content blob) (encoding blob)).

Definition isMerge (c : Call) : bool :=
  match c with PostMerges _ _ _ => true | _ => false end.

Definition isRead (c : Call) : bool :=
  match c with GetRef _ | GetTree _ => true | _ => false end.

(** Every call of a computation satisfies [P]. *)
Definition allCalls {A} (P : Call -> Prop) (m : M A) : Prop :=
  forall c, In c (calls m) -> P c.

Arguments copyBlob : simpl never.

(** ** The remote store's tree overlay

    [POST .../git/trees] with [base_tree] builds the new tree from the base
    listing and the entries: an entry with a sha writes or replaces the path,
    an entry with [sha: null] removes it (line 536: "Setting sha to null
    deletes the file"). This is the remote service's behaviour, used only to
    describe the listing a later run reads. *)
Definition applyUpdate (tree : list TreeItem) (u : TreeUpdate) : list TreeItem :=
  let others := filter (fun item => negb (String.eqb (path item) (u_path u))) tree in
  match u_sha u with
  | None => others
  | Some s => others ++ [mkItem (u_path u) (u_mode u) (u_type u) s]
  end.

Definition applyTreeUpdates (tree : list TreeItem) (updates : list TreeUpdate)
  : list TreeItem :=
  fold_left applyUpdate updates tree.

Definition entriesAt (p : string) (tree : list TreeItem) : list TreeItem :=
  filter (fun item => String.eqb (path item) p) tree.

(** ** Concrete listings and stores used by the examples *)

Definition file (p s : string) : TreeItem := mkItem p "100644" "blob" s.

(** A store whose [production] branch lists [parentTree] and whose
    [sgc-production] branch lists [sgcTree]; blobs are content addressed
    (the new blob gets the sha of the blob it copies); tree creation answers
    [treeAnswer] and the fallback merge answers [mergeAnswer]. *)
Definition storeWith (parentTree sgcTree : list TreeItem)
           (treeAnswer : Result string) (mergeAnswer : Result unit) : Octokit :=
  mkOctokit
    (fun branch =>
       if String.eqb branch "production" then Ok "c-production"
       else if String.eqb branch "sgc-production" then Ok "c-sgc-production"
       else Throw (mkError (Some 404) "Not Found"))
    (fun tree_sha =>
       if String.eqb tree_sha "c-production" then Ok parentTree else Ok sgcTree)
    (fun commit_sha => Ok ("tree-of-" ++ commit_sha)%string)
    (fun file_sha => Ok (mkBlob file_sha "base64"))
    (fun c e => Ok c)
    (fun base_tree tree => treeAnswer)
    (fun m tree parents => Ok "c-new")
    (fun branch new_sha force => Ok tt)
    (fun base head m => mergeAnswer).

Definition store (parentTree sgcTree : list TreeItem) : Octokit :=
  storeWith parentTree sgcTree (Ok "t-new") (Ok tt).

Definition sameSha (s : string) : string := s.

(** Inputs of the examples. *)
Definition staleTarget : list TreeItem :=
  [file "assets/a.css" "id1"; file "config/settings_data.json" "id_old";
   file "extra/file.txt" "id4"].
Definition fullSource : list TreeItem :=
  [file "assets/a.css" "id1"; file "config/settings_data.json" "id2";
   file "notes/readme.md" "id3"].
Definition docsOnlySource : list TreeItem := [file "README.md" "r1"].

Definition sharedBlobSource : list TreeItem :=
  [file "assets/theme.css" "t1"; file "snippets/a.liquid" "x1";
   file "snippets/b.liquid" "x1"].
Definition sharedBlobTarget : list TreeItem := [file "assets/theme.css" "t1"].

Definition reuseSource : list TreeItem :=
  [file "assets/a.css" "id1"; file "assets/copy-of-a.css" "id1";
   file "snippets/new.liquid" "n1"].
Definition reuseTarget : list TreeItem := [file "assets/a.css" "id1"].

Definition schemaSource : list TreeItem :=
  [file "assets/theme.css" "t1"; file "config/settings_schema.json" "x1";
   file "snippets/schema.liquid" "x1"].
Definition schemaTarget : list TreeItem := [file "assets/theme.css" "t1"].

Definition unprocessable : ApiError := mkError (Some 422) "Unprocessable Entity".
Definition mergeConflict : ApiError := mkError (Some 409) "Merge conflict".

(** A store that rejects the tree write and then the fallback merge. *)
Definition rejectingStore : Octokit :=
  storeWith fullSource staleTarget (Throw unprocessable) (Throw mergeConflict).

(** A store for [updateReleaseOnStagingPush]: the tips of [staging] and
    [release], every commit's tree named after the commit. *)
Definition releaseStore (stagingTip releaseTip : string) : Octokit :=
  mkOctokit
    (fun branch =>
       if String.eqb branch "staging" then Ok stagingTip
       else if String.eqb branch "release" then Ok releaseTip
       else Throw (mkError (Some 404) "Not Found"))
    (fun tree_sha => Ok [])
    (fun commit_sha => Ok ("tree-of-" ++ commit_sha)%string)
    (fun file_sha => Ok (mkBlob file_sha "base64"))
    (fun c e => Ok c)
    (fun base_tree tree => Ok "t-new")
    (fun m tree parents => Ok "c-rebased")
    (fun branch new_sha force => Ok tt)
    (fun base head m => Ok tt).

(** ** The four kinds of tree entries the summary counts

    An entry with a sha is an addition when [sgc-parent] has no file at its
    path and an update otherwise (lines 449-455 and 498-504); an entry with
    [sha: null] is a deletion inside the eight folders (lines 532-538) and a
    cleanup outside them (lines 556-562). *)
Definition isAddition (sgcFiles : Js.Map string) (u : TreeUpdate) : bool :=
  isPut u && negb (Js.map_has (u_path u) sgcFiles).
Definition isUpdate (sgcFiles : Js.Map string) (u : TreeUpdate) : bool :=
  isPut u && Js.map_has (u_path u) sgcFiles.
Definition isDeletion (u : TreeUpdate) : bool :=
  isDelete u && isInShopifyFolder (u_path u).
Definition isCleanup (u : TreeUpdate) : bool :=
  isDelete u && negb (isInShopifyFolder (u_path u)).

(** The counters agree with the entries collected so far. *)
Definition counted (sgcFiles : Js.Map string) (st : Locals) : Prop :=
  filesAdded st = List.length (filter (isAddition sgcFiles) (treeUpdates st)) /\
  filesUpdated st = List.length (filter (isUpdate sgcFiles) (treeUpdates st)) /\
  filesDeleted st = List.length (filter isDeletion (treeUpdates st)) /\
  filesCleanedUp st = List.length (filter isCleanup (treeUpdates st)).

(** ** [syncToOneWayBranch]

    Lines 10-324 of [update-sgc-on-parent-push.ts]. The loop over the files
    to sync (lines 102-135), the batch worker (lines 141-178) and the
    cleanup loop (lines 209-230) are those of [updateSGCOnParentPush] with
    [targetFiles] and [targetBlobShas] for [sgcFiles] and [sgcBlobShas]:
    [diffPass], [copyBlob] and [cleanupPass] embed them. *)

(** Lines 52-61: the predicate of [sourceTree.data.tree.filter]. *)
Definition oneWayFilter (item : TreeItem) : bool :=
  if negb (isBlob item) then false
  else isInShopifyFolder (path item).

(** Lines 184-205: one iteration of the deletion loop. *)
Definition oneWayDeletionStep (sourceFilePaths : Js.StrSet)
           (st : Locals) (entry : string * string) : Locals :=
  let filePath := fst entry in
  if negb (isInShopifyFolder filePath) then st
  else if negb (Js.set_has filePath sourceFilePaths)
       then countDeleted (pushUpdate (deleteEntry filePath) st)
       else st.

Definition oneWayDeletionPass (sourceFilePaths : Js.StrSet)
           (targetFiles : Js.Map string) (st : Locals) : Locals :=
  fold_left (oneWayDeletionStep sourceFilePaths) targetFiles st.

(** Lines 249-262. *)
Definition oneWayCommitMessage (sourceBranch : string) (st : Locals) : string :=
  ("Sync Shopify files from " ++ sourceBranch ++ " (" ++
   Js.join ", " (countParts st) ++ ")")%string.

Definition oneWayFallbackMessage (sourceBranch targetBranch : string) : string :=
  ("Merge " ++ sourceBranch ++ " into " ++ targetBranch ++
   " (fallback from Shopify sync)")%string.

(** Lines 81-230: the updates for a non-empty list of files to sync. *)
Definition collectOneWayUpdates (octokit : Octokit)
           (shopifyFiles targetTree : list TreeItem) : M Locals :=
  let targetFiles := sgcFilesOf targetTree in
  let targetBlobShas := sgcBlobShasOf targetTree in
  let sourceFilePaths := parentFilePathsOf shopifyFiles in
  let st := diffPass targetFiles targetBlobShas shopifyFiles initLocals in
  st <- batchProcess (blobsToFetch st) (copyBlob octokit targetFiles) st ;;
  let st := oneWayDeletionPass sourceFilePaths targetFiles st in
  ret (cleanupPass targetFiles st).

(** Lines 232-284: tree, commit and ref update. *)
Definition commitOneWayUpdates (octokit : Octokit)
           (sourceBranch targetBranch targetSha : string) (st : Locals) : M unit :=
  if Nat.eqb (List.length (treeUpdates st)) 0 then ret tt
  else
    newTree <- rateLimitedRequest
                 (requestPostTree octokit targetSha (treeUpdates st)) ;;
    newCommit <- rateLimitedRequest
                   (requestPostCommit octokit (oneWayCommitMessage sourceBranch st)
                                      newTree [targetSha]) ;;
    rateLimitedRequest (requestPatchRef octokit targetBranch newCommit false).

(** Lines 11-300: the [try] block. *)
Definition syncToOneWayBranch_try (octokit : Octokit)
           (sourceBranch targetBranch : string) : M unit :=
  sourceSha <- rateLimitedRequest (requestGetRef octokit sourceBranch) ;;
  targetSha <- rateLimitedRequest (requestGetRef octokit targetBranch) ;;
  sourceTree <- rateLimitedRequest (requestGetTree octokit sourceSha) ;;
  let shopifyFiles := filter oneWayFilter sourceTree in
  if Nat.eqb (List.length shopifyFiles) 0 then ret tt
  else
    targetTree <- rateLimitedRequest (requestGetTree octokit targetSha) ;;
    st <- collectOneWayUpdates octokit shopifyFiles targetTree ;;
    commitOneWayUpdates octokit sourceBranch targetBranch targetSha st.

(** Lines 302-323: the [catch] block. *)
Definition syncToOneWayBranch_catch (octokit : Octokit)
           (sourceBranch targetBranch : string) (error : ApiError) : M unit :=
  if isConflict error then
    tryCatch
      (rateLimitedRequest
         (requestPostMerges octokit targetBranch sourceBranch
                            (oneWayFallbackMessage sourceBranch targetBranch)))
      (fun mergeError => ret tt)
  else ret tt.

Definition syncToOneWayBranch (octokit : Octokit)
           (sourceBranch targetBranch : string) : M unit :=
  tryCatch (syncToOneWayBranch_try octokit sourceBranch targetBranch)
           (syncToOneWayBranch_catch octokit sourceBranch targetBranch).

(** A store whose [production] branch lists [sourceTree] and whose
    [sgc-production-one-way] branch lists [targetTree], otherwise as
    [store]. *)
Definition oneWayStore (sourceTree targetTree : list TreeItem) : Octokit :=
  mkOctokit
    (fun branch =>
       if String.eqb branch "production" then Ok "c-production"
       else if String.eqb branch "sgc-production-one-way" then Ok "c-one-way"
       else Throw (mkError (Some 404) "Not Found"))
    (fun tree_sha =>
       if String.eqb tree_sha "c-production" then Ok sourceTree else Ok targetTree)
    (fun commit_sha => Ok ("tree-of-" ++ commit_sha)%string)
    (fun file_sha => Ok (mkBlob file_sha "base64"))
    (fun c e => Ok c)
    (fun base_tree tree => Ok "t-new")
    (fun m tree parents => Ok "c-new")
    (fun branch new_sha force => Ok tt)
    (fun base head m => Ok tt).

(** ** The push webhook of [api/server.ts]

    The handlers call [octokit.request] directly for the branch checks and
    for the repository variable, an endpoint the processes do not use: a
    handler's run lists [ServerCall]s, the calls of the processes wrapped
    in [Api]. [toLowerCase] is written out for ASCII letters; other
    characters are left as they are. *)

Definition lowerChar (c : Ascii.ascii) : Ascii.ascii :=
  let n := Ascii.nat_of_ascii c in
  if Nat.leb 65 n && Nat.leb n 90 then Ascii.ascii_of_nat (n + 32) else c.

Fixpoint toLowerCase (s : string) : string :=
  match s with
  | EmptyString => EmptyString
  | String c rest => String (lowerChar c) (toLowerCase rest)
  end.

Inductive ServerCall :=
| Api (c : Call)
| GetVariable (name : string).

(** The client of an installation: the endpoints of the processes and
    [GET .../actions/variables/{name}] ([data.value]). *)
Record AppOctokit := mkAppOctokit {
  api          : Octokit;
  get_variable : string -> Result string
}.

Definition H (A : Type) : Type := (Result A * list ServerCall)%type.

Definition hret {A} (a : A) : H A := (Ok a, []).
Definition hthrow {A} (e : ApiError) : H A := (Throw e, []).

Definition hbind {A B} (m : H A) (k : A -> H B) : H B :=
  match m with
  | (Ok a, cs) => let (r, cs') := k a in (r, cs ++ cs')
  | (Throw e, cs) => (Throw e, cs)
  end.

Definition htryCatch {A} (m : H A) (handler : ApiError -> H A) : H A :=
  match m with
  | (Ok a, cs) => (Ok a, cs)
  | (Throw e, cs) => let (r, cs') := handler e in (r, cs ++ cs')
  end.

(** A process run from a handler. *)
Definition lift {A} (m : M A) : H A := (fst m, map Api (snd m)).

(** The fields of the push payload the handler reads.
    [push_head_commit_message] is [None] when [head_commit] is null or has
    no message. *)
Record PushPayload := mkPush {
  push_installation_id     : option nat;
  push_deleted             : bool;
  push_head_commit_message : option string;
  push_ref                 : string
}.

(** JavaScript truthiness of an optional number and of an optional string. *)
Definition truthyNumber (n : option nat) : bool :=
  match n with
  | Some (S _) => true
  | _ => false
  end.
Definition truthyString (s : option string) : bool :=
  match s with
  | Some (String _ _) => true
  | _ => false
  end.

(** Lines 41-49. *)
Definition checkInstallationId (payload : PushPayload) : bool :=
  truthyNumber (push_installation_id payload).

(** Lines 68-83: [true] when the ref is read, [false] on a 404, any other
    error is thrown. *)
Definition checkBranchExists (octokit : AppOctokit) (branch : string) : H bool :=
  htryCatch
    (hbind (get_ref (api octokit) branch, [Api (GetRef branch)])
           (fun _ => hret true))
    (fun error =>
       match status error with
       | Some 404 => hret false
       | _ => hthrow error
       end).

(** Lines 51-66. *)
Definition checkSgcProductionBranch (octokit : AppOctokit) : H bool :=
  htryCatch
    (hbind (get_ref (api octokit) "sgc-production", [Api (GetRef "sgc-production")])
           (fun _ => hret true))
    (fun error =>
       match status error with
       | Some 404 => hret false
       | _ => hthrow error
       end).

(** Lines 25-39: the value of a repository variable, [None] for [null]. *)
Definition getRepoVariable (octokit : AppOctokit) (name : string) : H (option string) :=
  htryCatch
    (hbind (get_variable octokit name, [GetVariable name])
           (fun value => hret (Some value)))
    (fun error =>
       match status error with
       | Some 404 => hret None
       | _ => hthrow error
       end).

Section PushWebhook.

(** [app.getInstallationOctokit], taken to answer with the client of the
    installation. *)
Variable getInstallationOctokit : nat -> AppOctokit.

(** The processes of [update-parent-on-sgc-push.ts] and
    [update-staging-on-production-push.ts], whose sources are not at hand:
    any computations. *)
Variable updateParentOnSGCPush : AppOctokit -> string -> bool -> H unit.
Variable updateStagingOnProductionPush : AppOctokit -> H unit.

(** Lines 103-115: the case [refs/heads/sgc-production]. *)
Definition onSgcProductionPush (octokit : AppOctokit) (headCommitMessage : string)
  : H unit :=
  if Js.includes headCommitMessage "update from shopify" then
    hbind (getRepoVariable octokit "DISABLE_SGC_BACK_SYNC")
      (fun disableSgcBackSync =>
         let disabled :=
           match disableSgcBackSync with
           | Some value => String.eqb (toLowerCase value) "true"
           | None => false
           end in
         if disabled then hret tt
         else
           hbind (updateParentOnSGCPush octokit "production" true)
                 (fun _ => updateStagingOnProductionPush octokit))
  else hret tt.

(** Lines 130-160: the case [refs/heads/production]. *)
Definition onProductionPush (octokit : AppOctokit) (headCommitMessage : string)
  : H unit :=
  let horizonUpdate :=
    Js.includes headCommitMessage "merge pull request" &&
    Js.includes headCommitMessage "/sync/horizon" in
  let stagingUpdate :=
    Js.includes headCommitMessage "merge pull request" &&
    Js.includes headCommitMessage "/staging" in
  let sgcUpdate := Js.includes headCommitMessage "sync files from sgc-production" in
  hbind
    (if horizonUpdate || stagingUpdate then updateStagingOnProductionPush octokit
     else if sgcUpdate then updateStagingOnProductionPush octokit
     else hret tt)
    (fun _ =>
       hbind (checkBranchExists octokit "sgc-production-one-way")
         (fun exists_ =>
            if exists_ then
              lift (syncToOneWayBranch (api octokit) "production"
                                       "sgc-production-one-way")
            else hret tt)).

(** Lines 162-170: the case [refs/heads/staging]. *)
Definition onStagingPush (octokit : AppOctokit) : H unit :=
  hbind (lift (updateSGCOnParentPush (api octokit) false Staging))
    (fun _ =>
       hbind (checkBranchExists octokit "sgc-staging-one-way")
         (fun exists_ =>
            if exists_ then
              lift (syncToOneWayBranch (api octokit) "staging" "sgc-staging-one-way")
            else hret tt)).

(** Lines 85-174: [webhooks.on("push", ...)]. *)
Definition onPush (payload : PushPayload) : H unit :=
  match push_installation_id payload with
  | Some installationId =>
      if negb (checkInstallationId payload) then hret tt
      else
        let octokit := getInstallationOctokit installationId in
        hbind (checkSgcProductionBranch octokit)
          (fun hasSgcProductionBranch =>
             if negb hasSgcProductionBranch then hret tt
             else if push_deleted payload ||
                     negb (truthyString (push_head_commit_message payload))
             then hret tt
             else
               match push_head_commit_message payload with
               | None => hret tt
               | Some message_ =>
                   let headCommitMessage := toLowerCase message_ in
                   let ref := push_ref payload in
                   if String.eqb ref "refs/heads/sgc-production" then
                     onSgcProductionPush octokit headCommitMessage
                   else if String.eqb ref "refs/heads/sgc-staging" then hret tt
                   else if String.eqb ref "refs/heads/sgc-production-one-way" ||
                           String.eqb ref "refs/heads/sgc-staging-one-way"
                   then hret tt
                   else if String.eqb ref "refs/heads/production" then
                     onProductionPush octokit headCommitMessage
                   else if String.eqb ref "refs/heads/staging" then
                     onStagingPush octokit
                   else hret tt
               end)
  | None => hret tt
  end.

End PushWebhook.

(** What a push does when no process is run: the check of [sgc-production]
    and nothing else. *)
Definition onlyTheBranchCheck (octokit : AppOctokit) : H unit :=
  hbind (checkSgcProductionBranch octokit) (fun _ => hret tt).

(** The branch a push event names. *)
Definition refOf (branch : string) : string := ("refs/heads/" ++ branch)%string.

(** Decimal digits, the characters of an interpolated counter. *)
Definition isDigit (c : Ascii.ascii) : bool :=
  Nat.leb 48 (Ascii.nat_of_ascii c) && Nat.leb (Ascii.nat_of_ascii c) 57.

Fixpoint allDigits (s : string) : bool :=
  match s with
  | EmptyString => true
  | String c rest => isDigit c && allDigits rest
  end.

(** [mismatch needle s]: [s] and [needle] differ at a position both have;
    [cleanFor needle s]: that holds for every non-empty suffix of [s], so
    no occurrence of [needle] can start inside [s], whatever follows. *)
Fixpoint mismatch (needle s : string) : bool :=
  match needle, s with
  | String a needle', String b s' =>
      if Ascii.eqb a b then mismatch needle' s' else true
  | _, _ => false
  end.

Fixpoint cleanFor (needle s : string) : bool :=
  match s with
  | EmptyString => true
  | String _ rest => mismatch needle s && cleanFor needle rest
  end.

(** ** The pull request webhook of [api/server.ts] *)

(** The fields of the pull request payload the handler reads:
    [pr_label_name] is [payload.label?.name]; [pr_labels] lists [label.name]
    for the labels of the pull request ([None] for a label without a name,
    the empty list when [labels] is absent); [pr_head_ref] is [head.ref]. *)
Record PullRequestPayload := mkPullRequest {
  pr_installation_id : option nat;
  pr_action          : string;
  pr_label_name      : option string;
  pr_labels          : list (option string);
  pr_merged          : bool;
  pr_base_ref        : string;
  pr_head_ref        : option string
}.

(** [value?.toLowerCase() || ''] *)
Definition lowerOrEmpty (value : option string) : string :=
  match value with
  | Some s => toLowerCase s
  | None => EmptyString
  end.

(** [labels?.some((label) => label.name?.toLowerCase() === name)] *)
Definition hasLabel (name : string) (labels : list (option string)) : bool :=
  existsb (fun label =>
             match label with
             | Some labelName => String.eqb (toLowerCase labelName) name
             | None => false
             end) labels.

(** Lines 233-236: [shouldIncludeJson] of a pull request merged into
    [production]. *)
Definition shouldIncludeJsonOfPullRequest (payload : PullRequestPayload) : bool :=
  let prHeadRef := lowerOrEmpty (pr_head_ref payload) in
  hasLabel "sync-settings" (pr_labels payload) ||
  Js.includes prHeadRef "sync/horizon-".

Section PullRequestWebhook.

Variable getInstallationOctokit : nat -> AppOctokit.

(** The processes of [handle-preview-theme.ts], whose source is not at
    hand: any computations. *)
Variable handlePreviewTheme : AppOctokit -> PullRequestPayload -> H unit.
Variable deletePreviewTheme : AppOctokit -> PullRequestPayload -> H unit.

(** Lines 210-243: the case ["closed"]. *)
Definition onPullRequestClosed (octokit : AppOctokit) (payload : PullRequestPayload)
  : H unit :=
  hbind
    (if pr_merged payload then
       if hasLabel "preview" (pr_labels payload)
       then deletePreviewTheme octokit payload
       else hret tt
     else hret tt)
    (fun _ =>
       if negb (pr_merged payload) ||
          negb (String.eqb (pr_base_ref payload) "production")
       then hret tt
       else
         hbind (checkSgcProductionBranch octokit)
           (fun hasSgcProductionBranch =>
              if negb hasSgcProductionBranch then hret tt
              else
                lift (updateSGCOnParentPush (api octokit)
                        (shouldIncludeJsonOfPullRequest payload) Production))).

(** Lines 176-247: [webhooks.on("pull_request", ...)]. *)
Definition onPullRequest (payload : PullRequestPayload) : H unit :=
  match pr_installation_id payload with
  | Some installationId =>
      if negb (truthyNumber (pr_installation_id payload)) then hret tt
      else
        let octokit := getInstallationOctokit installationId in
        let action := pr_action payload in
        if String.eqb action "labeled" then
          let labelName := lowerOrEmpty (pr_label_name payload) in
          if String.eqb labelName "preview"
          then handlePreviewTheme octokit payload
          else hret tt
        else if String.eqb action "synchronize" then
          if hasLabel "preview" (pr_labels payload)
          then handlePreviewTheme octokit payload
          else hret tt
        else if String.eqb action "closed" then
          onPullRequestClosed octokit payload
        else hret tt
  | None => hret tt
  end.

End PullRequestWebhook.

(** A store on which every branch exists, with tip [c-] followed by its
    name: [production] lists [sourceTree], any other branch [targetTree]. *)
Definition storeOfAllBranches (sourceTree targetTree : list TreeItem) : Octokit :=
  mkOctokit
    (fun branch => Ok ("c-" ++ branch)%string)
    (fun tree_sha =>
       if String.eqb tree_sha "c-production" then Ok sourceTree else Ok targetTree)
    (fun commit_sha => Ok ("tree-of-" ++ commit_sha)%string)
    (fun file_sha => Ok (mkBlob file_sha "base64"))
    (fun c e => Ok c)
    (fun base_tree tree => Ok "t-new")
    (fun m tree parents => Ok "c-new")
    (fun branch new_sha force => Ok tt)
    (fun base head m => Ok tt).

(** ** Vocabulary of the blob copies of a run *)

(** The requests of the batch worker (lines 468-505) for one entry of
    [blobsToFetch]: the blob read and, when it answers, the blob creation. *)
Definition copyCalls (octokit : Octokit) (entry : string * TreeItem) : list Call :=
  match get_blob octokit (fst entry) with
  | Ok blob => [GetBlob (fst entry); PostBlob (content blob) (encoding blob)]
  | Throw _ => [GetBlob (fst entry)]
  end.

(** The read of the blob [k]. *)
Definition isBlobReadOf (k : string) (c : Call) : bool :=
  match c with
  | GetBlob s => String.eqb s k
  | _ => false
  end.

(** A blob of the parent listing in one of the eight folders, whatever the
    JSON policy says of it. *)
Definition inShopifyFolders (item : TreeItem) : bool :=
  isBlob item && isInShopifyFolder (path item).

(** A store for a sync of [staging]: [staging] lists [sourceTree] and
    [sgc-staging] lists [targetTree], otherwise as [store]. *)
Definition stagingStore (sourceTree targetTree : list TreeItem) : Octokit :=
  mkOctokit
    (fun branch =>
       if String.eqb branch "staging" then Ok "c-staging"
       else if String.eqb branch "sgc-staging" then Ok "c-sgc-staging"
       else Throw (mkError (Some 404) "Not Found"))
    (fun tree_sha =>
       if String.eqb tree_sha "c-staging" then Ok sourceTree else Ok targetTree)
    (fun commit_sha => Ok ("tree-of-" ++ commit_sha)%string)
    (fun file_sha => Ok (mkBlob file_sha "base64"))
    (fun c e => Ok c)
    (fun base_tree tree => Ok "t-new")
    (fun m tree parents => Ok "c-new")
    (fun branch new_sha force => Ok tt)
    (fun base head m => Ok tt).

(** A parent listing in which the last file of the folders with the sha
    [x1] is a [.json] file. *)
Definition jsonLastSource : list TreeItem :=
  [file "assets/a.css" "x1"; file "templates/index.json" "x1"].

(** ** Facts about the [Map] and [Set] models *)

Section JsFacts.

Lemma set_has_In x s : Js.set_has x s = true <-> In x s.
Proof.
  unfold Js.set_has. rewrite existsb_exists. split.
  - intros [y [Hy Heq]]. apply String.eqb_eq in Heq. now subst.
  - intro H. exists x. split; [assumption | apply String.eqb_refl].
Qed.

Lemma set_has_not_In x s : Js.set_has x s = false <-> ~ In x s.
Proof.
  rewrite <- set_has_In. destruct (Js.set_has x s); split; congruence.
Qed.

Lemma set_add_In x y s : In y (Js.set_add x s) <-> y = x \/ In y s.
Proof.
  unfold Js.set_add. destruct (Js.set_has x s) eqn:E.
  - apply set_has_In in E. split; [now right | intros [-> | H]; assumption].
  - rewrite in_app_iff. simpl. intuition congruence.
Qed.

Lemma fold_set_add_In (xs : list string) : forall s y,
  In y (fold_left (fun s p => Js.set_add p s) xs s) <-> In y xs \/ In y s.
Proof.
  induction xs as [|x xs IH]; intros s y; simpl.
  - tauto.
  - rewrite IH, set_add_In. intuition congruence.
Qed.

Variable V : Type.

Lemma map_get_In k (v : V) m : Js.map_get k m = Some v -> In (k, v) m.
Proof.
  induction m as [|[k' v'] m IH]; simpl; [discriminate|].
  destruct (String.eqb_spec k' k) as [->|Hne].
  - intros [= ->]. now left.
  - intro H. right. now apply IH.
Qed.

Lemma map_get_None k (m : Js.Map V) :
  Js.map_get k m = None <-> ~ In k (Js.map_keys m).
Proof.
  induction m as [|[k' v'] m IH]; simpl; [tauto|].
  destruct (String.eqb_spec k' k) as [->|Hne].
  - split; [discriminate | intro H; exfalso; apply H; now left].
  - rewrite IH. intuition congruence.
Qed.

Lemma map_has_In k (m : Js.Map V) :
  Js.map_has k m = true <-> In k (Js.map_keys m).
Proof.
  unfold Js.map_has. destruct (Js.map_get k m) eqn:E.
  - split; [intros _ | reflexivity].
    apply map_get_In in E. unfold Js.map_keys.
    change k with (fst (k, v)). now apply in_map.
  - apply map_get_None in E. split; [discriminate | contradiction].
Qed.


Lemma map_set_keys k (v : V) m p :
  In p (Js.map_keys (Js.map_set k v m)) <-> p = k \/ In p (Js.map_keys m).
Proof.
  induction m as [|[k' v'] m IH]; simpl.
  - intuition congruence.
  - destruct (String.eqb_spec k' k) as [->|Hne]; simpl.
    + intuition congruence.
    + rewrite IH. intuition congruence.
Qed.

Lemma map_set_NoDup k (v : V) m :
  NoDup (Js.map_keys m) -> NoDup (Js.map_keys (Js.map_set k v m)).
Proof.
  induction m as [|[k' v'] m IH]; simpl; intro Hnd.
  - constructor; [intros [] | constructor].
  - inversion Hnd as [|? ? Hnot Hnd']; subst.
    destruct (String.eqb_spec k' k) as [->|Hne]; simpl.
    + now constructor.
    + constructor; [| now apply IH].
      rewrite map_set_keys. intros [Heq | Hin]; [congruence | contradiction].
Qed.

Lemma map_set_get_same k (v : V) m : Js.map_get k (Js.map_set k v m) = Some v.
Proof.
  induction m as [|[k' v'] m IH]; simpl.
  - now rewrite String.eqb_refl.
  - destruct (String.eqb_spec k' k) as [->|Hne]; simpl.
    + now rewrite String.eqb_refl.
    + destruct (String.eqb_spec k' k); [contradiction | assumption].
Qed.

Lemma map_set_get_other k k0 (v : V) m :
  k0 <> k -> Js.map_get k0 (Js.map_set k v m) = Js.map_get k0 m.
Proof.
  intro Hne. induction m as [|[k' v'] m IH]; simpl.
  - destruct (String.eqb_spec k k0); [congruence | reflexivity].
  - destruct (String.eqb_spec k' k) as [->|Hne']; simpl.
    + destruct (String.eqb_spec k k0); [congruence | reflexivity].
    + destruct (String.eqb_spec k' k0); [reflexivity | assumption].
Qed.

Lemma map_set_In k (v : V) m k0 v0 :
  In (k0, v0) (Js.map_set k v m) -> (k0 = k /\ v0 = v) \/ In (k0, v0) m.
Proof.
  induction m as [|[k' v'] m IH]; simpl.
  - intros [[= <- <-] | []]. now left.
  - destruct (String.eqb_spec k' k) as [->|Hne]; simpl.
    + intros [[= <- <-] | H]; [now left | right; now right].
    + intros [H | H]; [right; now left |].
      destruct (IH H) as [H' | H']; [now left | right; now right].
Qed.

End JsFacts.

(** ** Facts about the listings *)

Section ListingFacts.

Lemma parentFilePaths_has files p :
  Js.set_has p (parentFilePathsOf files) = true <-> In p (map path files).
Proof.
  unfold parentFilePathsOf. rewrite set_has_In, fold_set_add_In.
  simpl. tauto.
Qed.

Lemma sgcBlobShas_fold tree : forall acc s,
  In s (fold_left
          (fun s item => if isBlob item then Js.set_add (sha item) s else s)
          tree acc)
  <-> In s (blobShas tree) \/ In s acc.
Proof.
  unfold blobShas.
  induction tree as [|item tree IH]; intros acc s; simpl.
  - tauto.
  - rewrite IH. destruct (isBlob item); simpl.
    + rewrite set_add_In. intuition congruence.
    + tauto.
Qed.

Lemma sgcBlobShas_has tree s :
  Js.set_has s (sgcBlobShasOf tree) = true <-> In s (blobShas tree).
Proof.
  unfold sgcBlobShasOf. rewrite set_has_In, sgcBlobShas_fold. simpl. tauto.
Qed.

Lemma sgcFiles_fold_keys tree : forall acc p,
  In p (Js.map_keys
          (fold_left
             (fun m item =>
                if isBlob item then Js.map_set (path item) (sha item) m else m)
             tree acc))
  <-> In p (blobPaths tree) \/ In p (Js.map_keys acc).
Proof.
  unfold blobPaths.
  induction tree as [|item tree IH]; intros acc p; simpl.
  - tauto.
  - rewrite IH. destruct (isBlob item); simpl.
    + rewrite map_set_keys. intuition congruence.
    + tauto.
Qed.

Lemma sgcFiles_keys tree p :
  In p (Js.map_keys (sgcFilesOf tree)) <-> In p (blobPaths tree).
Proof.
  unfold sgcFilesOf. rewrite sgcFiles_fold_keys. simpl. tauto.
Qed.

Lemma sgcFiles_fold_NoDup tree : forall acc,
  NoDup (Js.map_keys acc) ->
  NoDup (Js.map_keys
           (fold_left
              (fun m item =>
                 if isBlob item then Js.map_set (path item) (sha item) m else m)
              tree acc)).
Proof.
  induction tree as [|item tree IH]; intros acc Hnd; simpl; [assumption|].
  apply IH. destruct (isBlob item); [now apply map_set_NoDup | assumption].
Qed.

Lemma sgcFiles_NoDup tree : NoDup (Js.map_keys (sgcFilesOf tree)).
Proof. apply sgcFiles_fold_NoDup. constructor. Qed.



(** The two JSON tests of the filter and of the deletion pass agree. *)
Lemma isNotJson_shouldExcludeJson inc p :
  isNotJson inc p = negb (shouldExcludeJson inc p).
Proof.
  unfold isNotJson, shouldExcludeJson.
  destruct inc, (Js.endsWith p ".json"), (isSettingsSchema p); reflexivity.
Qed.

Lemma shopifyFilter_true inc item :
  shopifyFilter inc item = true <->
  isBlob item = true /\ isInShopifyFolder (path item) = true /\
  shouldExcludeJson inc (path item) = false.
Proof.
  unfold shopifyFilter. rewrite isNotJson_shouldExcludeJson.
  destruct (isBlob item), (isInShopifyFolder (path item)),
    (shouldExcludeJson inc (path item)); simpl; intuition congruence.
Qed.


End ListingFacts.

(** ** What each pass appends *)

Section PassFacts.

Variable sgcFiles : Js.Map string.
Variable sgcBlobShas : Js.StrSet.

Lemma countPut_treeUpdates p st :
  treeUpdates (countPut sgcFiles p st) = treeUpdates st.
Proof. unfold countPut. now destruct (Js.map_has p sgcFiles). Qed.

Lemma countPut_blobsToFetch p st :
  blobsToFetch (countPut sgcFiles p st) = blobsToFetch st.
Proof. unfold countPut. now destruct (Js.map_has p sgcFiles). Qed.

Lemma diffPass_treeUpdates files : forall st,
  treeUpdates (diffPass sgcFiles sgcBlobShas files st) =
  treeUpdates st ++ map putOfFile (filter (reusable sgcFiles sgcBlobShas) files).
Proof.
  unfold diffPass, reusable.
  induction files as [|f files IH]; intro st; simpl.
  - now rewrite app_nil_r.
  - rewrite IH. unfold diffStep.
    destruct (upToDate sgcFiles f); simpl; [reflexivity|].
    destruct (Js.set_has (sha f) sgcBlobShas); simpl; [| reflexivity].
    rewrite countPut_treeUpdates. simpl. now rewrite <- app_assoc.
Qed.

Lemma diffPass_blobsToFetch files : forall st,
  blobsToFetch (diffPass sgcFiles sgcBlobShas files st) =
  fetchMapOf (filter (toCopy sgcFiles sgcBlobShas) files) (blobsToFetch st).
Proof.
  unfold diffPass, toCopy, fetchMapOf.
  induction files as [|f files IH]; intro st; simpl; [reflexivity|].
  rewrite IH. unfold diffStep.
  destruct (upToDate sgcFiles f); simpl; [reflexivity|].
  destruct (Js.set_has (sha f) sgcBlobShas); simpl; [| reflexivity].
  now rewrite countPut_blobsToFetch.
Qed.

Lemma copyFold_treeUpdates newBlobSha entries : forall st,
  treeUpdates (fold_left (copyStep newBlobSha sgcFiles) entries st) =
  treeUpdates st ++ map (putOfCopy newBlobSha) entries.
Proof.
  induction entries as [|e entries IH]; intro st; simpl.
  - now rewrite app_nil_r.
  - rewrite IH. unfold copyStep, recordCopied.
    rewrite countPut_treeUpdates. simpl. now rewrite <- app_assoc.
Qed.

Lemma deletionPass_treeUpdates inc parentFilePaths entries : forall st,
  treeUpdates (deletionPass inc parentFilePaths entries st) =
  treeUpdates st ++
  map deleteEntry (filter (deletable inc parentFilePaths) (Js.map_keys entries)).
Proof.
  unfold deletionPass, deletable.
  induction entries as [|[p s] entries IH]; intro st; simpl.
  - now rewrite app_nil_r.
  - rewrite IH. unfold deletionStep. simpl.
    destruct (isInShopifyFolder p); simpl; [| reflexivity].
    destruct (shouldExcludeJson inc p); simpl; [reflexivity|].
    destruct (Js.set_has p parentFilePaths); simpl; [reflexivity|].
    now rewrite <- app_assoc.
Qed.

Lemma existsb_path_In p us :
  existsb (fun update => String.eqb (u_path update) p) us = true <->
  In p (map u_path us).
Proof.
  rewrite existsb_exists, in_map_iff. split.
  - intros [u [Hin Heq]]. apply String.eqb_eq in Heq. now exists u.
  - intros [u [Heq Hin]]. exists u. split; [assumption|].
    now apply String.eqb_eq.
Qed.

Lemma cleanupPass_treeUpdates entries : forall st,
  NoDup (Js.map_keys entries) ->
  (forall p, In p (Js.map_keys entries) -> outOfScope p = true ->
             ~ In p (map u_path (treeUpdates st))) ->
  treeUpdates (cleanupPass entries st) =
  treeUpdates st ++ map deleteEntry (filter outOfScope (Js.map_keys entries)).
Proof.
  unfold cleanupPass, outOfScope.
  induction entries as [|[p s] entries IH]; intros st Hnd Hfresh; simpl.
  - now rewrite app_nil_r.
  - inversion Hnd as [|? ? Hnot Hnd']; subst.
    unfold cleanupStep. simpl.
    destruct (isInShopifyFolder p) eqn:Hin; simpl.
    + apply IH; [assumption|].
      intros q Hq. apply Hfresh. now right.
    + assert (Hex : existsb (fun update => String.eqb (u_path update) p)
                            (treeUpdates st) = false).
      { destruct (existsb _ (treeUpdates st)) eqn:E; [| reflexivity].
        apply existsb_path_In in E. exfalso.
        apply (Hfresh p); [now left | now rewrite Hin | assumption]. }
      rewrite Hex. simpl. rewrite IH; [simpl; now rewrite <- app_assoc | assumption |].
      intros q Hq Hout. simpl. rewrite map_app, in_app_iff. simpl.
      intros [H | [H | []]].
      * apply (Hfresh q); [now right | assumption | assumption].
      * subst. contradiction.
Qed.

End PassFacts.

Section PlanShape.

Lemma fetchMapOf_In files : forall m k f,
  In (k, f) (fetchMapOf files m) -> (In f files /\ sha f = k) \/ In (k, f) m.
Proof.
  unfold fetchMapOf.
  induction files as [|g files IH]; intros m k f; simpl; [tauto|].
  intro H. apply IH in H. destruct H as [[H1 H2] | H]; [left; tauto |].
  apply map_set_In in H. destruct H as [[-> ->] | H]; [left; tauto | now right].
Qed.

Lemma fetchMapOf_NoDup files : forall m,
  NoDup (Js.map_keys m) -> NoDup (Js.map_keys (fetchMapOf files m)).
Proof.
  unfold fetchMapOf.
  induction files as [|g files IH]; intros m Hnd; simpl; [assumption|].
  apply IH. now apply map_set_NoDup.
Qed.

Lemma fetchMapOf_get_last pre l post : forall m,
  (forall g, In g post -> sha g <> sha l) ->
  Js.map_get (sha l) (fetchMapOf (pre ++ l :: post) m) = Some l.
Proof.
  unfold fetchMapOf. intros m Hpost.
  rewrite fold_left_app. simpl.
  set (m1 := fold_left _ pre m). clearbody m1.
  assert (H : Js.map_get (sha l) (Js.map_set (sha l) l m1) = Some l)
    by apply map_set_get_same.
  revert H. generalize (Js.map_set (sha l) l m1). clear m1.
  induction post as [|g post IH]; intros m2 H; simpl; [assumption|].
  apply IH.
  - intros g' Hg'. apply Hpost. now right.
  - rewrite map_set_get_other; [assumption|].
    intro Heq. apply (Hpost g); [now left | now symmetry].
Qed.

Lemma blobEntries_In files sgcTree k f :
  In (k, f) (blobEntriesOf files sgcTree) ->
  In f files /\ sha f = k /\
  toCopy (sgcFilesOf sgcTree) (sgcBlobShasOf sgcTree) f = true.
Proof.
  unfold blobEntriesOf. intro H. apply fetchMapOf_In in H.
  destruct H as [[H1 H2] | []]. apply filter_In in H1. tauto.
Qed.

Lemma blobEntries_not_in_target files sgcTree k f :
  In (k, f) (blobEntriesOf files sgcTree) -> ~ In k (blobShas sgcTree).
Proof.
  intro H. apply blobEntries_In in H. destruct H as (_ & <- & H).
  unfold toCopy in H. apply andb_true_iff in H. destruct H as [_ H].
  apply negb_true_iff in H. rewrite <- sgcBlobShas_has. congruence.
Qed.

Lemma reusePuts_path files sgcTree p :
  In p (map u_path (reusePuts files sgcTree)) ->
  exists f, In f files /\ path f = p /\
    reusable (sgcFilesOf sgcTree) (sgcBlobShasOf sgcTree) f = true.
Proof.
  unfold reusePuts. rewrite map_map. simpl. rewrite in_map_iff.
  intros [f [Heq Hin]]. apply filter_In in Hin. exists f. tauto.
Qed.

Lemma copyPuts_path files sgcTree newBlobSha p :
  In p (map u_path (copyPuts files sgcTree newBlobSha)) ->
  exists f, In (sha f, f) (blobEntriesOf files sgcTree) /\ In f files /\ path f = p /\
    toCopy (sgcFilesOf sgcTree) (sgcBlobShasOf sgcTree) f = true.
Proof.
  unfold copyPuts. rewrite map_map. simpl. rewrite in_map_iff.
  intros [[k f] [Heq Hin]]. simpl in Heq.
  pose proof (blobEntries_In _ _ _ _ Hin) as (H1 & H2 & H3).
  exists f. subst k. tauto.
Qed.

Lemma deletions_path inc files sgcTree p :
  In p (map u_path (deletions inc files sgcTree)) <->
  In p (blobPaths sgcTree) /\ isInShopifyFolder p = true /\
  shouldExcludeJson inc p = false /\ ~ In p (map path files).
Proof.
  unfold deletions. rewrite map_map. simpl. rewrite map_id.
  rewrite filter_In, sgcFiles_keys. unfold deletable.
  rewrite !andb_true_iff, !negb_true_iff, set_has_not_In.
  unfold parentFilePathsOf. rewrite fold_set_add_In. simpl. tauto.
Qed.

Lemma cleanups_path sgcTree p :
  In p (map u_path (cleanups sgcTree)) <->
  In p (blobPaths sgcTree) /\ isInShopifyFolder p = false.
Proof.
  unfold cleanups. rewrite map_map. simpl. rewrite map_id.
  rewrite filter_In, sgcFiles_keys. unfold outOfScope.
  now rewrite negb_true_iff.
Qed.

Variable inc : bool.
Variables files sgcTree : list TreeItem.
Variable newBlobSha : string -> string.
Hypothesis files_in_scope :
  forall f, In f files -> isInShopifyFolder (path f) = true.

Lemma syncLocals_treeUpdates :
  treeUpdates (syncLocals inc files sgcTree newBlobSha) =
  reusePuts files sgcTree ++ copyPuts files sgcTree newBlobSha ++
  deletions inc files sgcTree ++ cleanups sgcTree.
Proof.
  unfold syncLocals.
  rewrite cleanupPass_treeUpdates.
  - rewrite deletionPass_treeUpdates, copyFold_treeUpdates,
      diffPass_treeUpdates, diffPass_blobsToFetch.
    simpl. now rewrite <- !app_assoc.
  - apply sgcFiles_NoDup.
  - intros p _ Hout.
    rewrite deletionPass_treeUpdates, copyFold_treeUpdates,
      diffPass_treeUpdates, diffPass_blobsToFetch.
    simpl. rewrite !map_app, !in_app_iff.
    unfold outOfScope in Hout. apply negb_true_iff in Hout.
    intros [[H | H] | H].
    + apply reusePuts_path in H. destruct H as (f & Hf & <- & _).
      rewrite (files_in_scope _ Hf) in Hout. discriminate.
    + apply copyPuts_path in H. destruct H as (f & _ & Hf & <- & _).
      rewrite (files_in_scope _ Hf) in Hout. discriminate.
    + apply deletions_path in H. destruct H as (_ & H & _). congruence.
Qed.

End PlanShape.

Lemma shopifyFiles_in_scope inc parentTree f :
  In f (filter (shopifyFilter inc) parentTree) -> isInShopifyFolder (path f) = true.
Proof.
  intro H. apply filter_In in H. destruct H as [_ H].
  apply shopifyFilter_true in H. tauto.
Qed.

(** The plan is the four blocks, in this order, unless nothing passes the
    filter. *)
Lemma syncPlan_blocks inc parentTree sgcTree newBlobSha :
  filter (shopifyFilter inc) parentTree <> [] ->
  syncPlan inc parentTree sgcTree newBlobSha =
  reusePuts (filter (shopifyFilter inc) parentTree) sgcTree ++
  copyPuts (filter (shopifyFilter inc) parentTree) sgcTree newBlobSha ++
  deletions inc (filter (shopifyFilter inc) parentTree) sgcTree ++
  cleanups sgcTree.
Proof.
  intro Hne. unfold syncPlan.
  destruct (filter (shopifyFilter inc) parentTree) as [|f fs] eqn:E; [congruence|].
  simpl. rewrite <- E. apply syncLocals_treeUpdates.
  intros g Hg. eapply shopifyFiles_in_scope. eassumption.
Qed.

Lemma syncPlan_empty_source inc parentTree sgcTree newBlobSha :
  filter (shopifyFilter inc) parentTree = [] ->
  syncPlan inc parentTree sgcTree newBlobSha = [].
Proof. intro H. unfold syncPlan. now rewrite H. Qed.

(** ** List facts used below *)

Section ListFacts.

Variables A B : Type.
Variable f : A -> B.

Lemma NoDup_map_In_inj (l : list A) x y :
  NoDup (map f l) -> In x l -> In y l -> f x = f y -> x = y.
Proof.
  induction l as [|a l IH]; simpl; [contradiction|].
  intros Hnd Hx Hy Heq. inversion Hnd as [|? ? Hnot Hnd']; subst.
  destruct Hx as [-> | Hx], Hy as [-> | Hy].
  - reflexivity.
  - exfalso. apply Hnot. rewrite Heq. now apply in_map.
  - exfalso. apply Hnot. rewrite <- Heq. now apply in_map.
  - now apply IH.
Qed.

Lemma NoDup_map_filter (g : A -> bool) (l : list A) :
  NoDup (map f l) -> NoDup (map f (filter g l)).
Proof.
  induction l as [|a l IH]; simpl; intro Hnd; [constructor|].
  inversion Hnd as [|? ? Hnot Hnd']; subst.
  destruct (g a); simpl; [| now apply IH].
  constructor; [| now apply IH].
  rewrite in_map_iff. intros [x [Heq Hin]]. apply Hnot.
  rewrite <- Heq. apply in_map. apply filter_In in Hin. tauto.
Qed.

Lemma NoDup_map_of_inj (l : list A) :
  NoDup l ->
  (forall x y, In x l -> In y l -> f x = f y -> x = y) ->
  NoDup (map f l).
Proof.
  induction l as [|a l IH]; simpl; intros Hnd Hinj; [constructor|].
  inversion Hnd as [|? ? Hnot Hnd']; subst.
  constructor.
  - rewrite in_map_iff. intros [x [Heq Hin]].
    assert (x = a) by (apply Hinj; [now right | now left | assumption]).
    subst. contradiction.
  - apply IH; [assumption|]. intros x y Hx Hy. apply Hinj; now right.
Qed.

End ListFacts.

Lemma filter_shopifyFilter_blobs inc tree :
  filter (shopifyFilter inc) tree = filter (shopifyFilter inc) (filter isBlob tree).
Proof.
  induction tree as [|item tree IH]; simpl; [reflexivity|].
  destruct (isBlob item) eqn:Hb; simpl.
  - destruct (shopifyFilter inc item); now rewrite IH.
  - unfold shopifyFilter at 1. rewrite Hb. simpl. exact IH.
Qed.

Lemma shopifyFiles_NoDup inc parentTree :
  NoDup (blobPaths parentTree) ->
  NoDup (map path (filter (shopifyFilter inc) parentTree)).
Proof.
  intro H. rewrite filter_shopifyFilter_blobs. now apply NoDup_map_filter.
Qed.

Lemma applyTreeUpdates_untouched p updates : forall tree,
  ~ In p (map u_path updates) ->
  entriesAt p (applyTreeUpdates tree updates) = entriesAt p tree.
Proof.
  unfold applyTreeUpdates, entriesAt.
  induction updates as [|u updates IH]; intros tree Hnot; simpl; [reflexivity|].
  simpl in Hnot.
  rewrite IH by tauto.
  assert (Hne : u_path u <> p) by tauto.
  assert (Hothers :
    filter (fun item => String.eqb (path item) p)
           (filter (fun item => negb (String.eqb (path item) (u_path u))) tree) =
    filter (fun item => String.eqb (path item) p) tree).
  { clear IH Hnot. induction tree as [|item tree IHt]; simpl; [reflexivity|].
    destruct (String.eqb_spec (path item) (u_path u)) as [Heq | Hneq]; simpl.
    - destruct (String.eqb_spec (path item) p); [congruence | assumption].
    - destruct (String.eqb (path item) p); now rewrite IHt. }
  unfold applyUpdate. destruct (u_sha u); [| exact Hothers].
  rewrite filter_app, Hothers. simpl.
  destruct (String.eqb_spec (u_path u) p); [contradiction | now rewrite app_nil_r].
Qed.

(** ** Where the entries of a plan come from *)

Section PlanEntries.

Variable inc : bool.
Variables parentTree sgcTree : list TreeItem.
Variable newBlobSha : string -> string.

Let files := filter (shopifyFilter inc) parentTree.
Let plan := syncPlan inc parentTree sgcTree newBlobSha.

Lemma plan_path_cases p :
  In p (map u_path plan) ->
  (exists f, In f files /\ path f = p /\ upToDate (sgcFilesOf sgcTree) f = false)
  \/ (In p (blobPaths sgcTree) /\ isInShopifyFolder p = true /\
      shouldExcludeJson inc p = false /\ ~ In p (map path files))
  \/ (In p (blobPaths sgcTree) /\ isInShopifyFolder p = false).
Proof.
  unfold plan. destruct files as [|f0 fs] eqn:E.
  - rewrite syncPlan_empty_source by exact E. intros [].
  - rewrite syncPlan_blocks by (fold files; congruence). fold files. rewrite E.
    rewrite !map_app, !in_app_iff. intros [H | [H | [H | H]]].
    + left. apply reusePuts_path in H. destruct H as (f & Hf & Hp & Hr).
      exists f. unfold reusable in Hr. apply andb_true_iff in Hr.
      destruct Hr as [Hr _]. apply negb_true_iff in Hr. tauto.
    + left. apply copyPuts_path in H. destruct H as (f & _ & Hf & Hp & Hr).
      exists f. unfold toCopy in Hr. apply andb_true_iff in Hr.
      destruct Hr as [Hr _]. apply negb_true_iff in Hr. tauto.
    + right; left. now apply deletions_path in H.
    + right; right. now apply cleanups_path in H.
Qed.

(** A path of the allowed folders that the JSON policy excludes has no
    entry in the plan. *)
Lemma excluded_path_not_in_plan p :
  isInShopifyFolder p = true ->
  shouldExcludeJson inc p = true ->
  ~ In p (map u_path plan).
Proof.
  intros Hin Hex H. apply plan_path_cases in H.
  destruct H as [(f & Hf & <- & _) | [(_ & _ & H & _) | (_ & H)]].
  - apply filter_In in Hf. destruct Hf as [_ Hf].
    apply shopifyFilter_true in Hf. destruct Hf as (_ & _ & Hf). congruence.
  - congruence.
  - congruence.
Qed.

(** A file of the allowed folders whose path has the same sha in
    [sgc-parent] has no entry in the plan. *)
Lemma up_to_date_path_not_in_plan f :
  NoDup (blobPaths parentTree) ->
  In f parentTree -> isBlob f = true ->
  isInShopifyFolder (path f) = true ->
  upToDate (sgcFilesOf sgcTree) f = true ->
  ~ In (path f) (map u_path plan).
Proof.
  intros Hnd Hf Hb Hin Hup H. apply plan_path_cases in H.
  destruct H as [(g & Hg & Hp & Hnup) | [(_ & _ & Hex & Hnot) | (_ & H)]].
  - assert (g = f).
    { apply (NoDup_map_In_inj path (filter isBlob parentTree)); try assumption.
      - apply filter_In in Hg. destruct Hg as [Hg1 Hg2].
        apply shopifyFilter_true in Hg2. apply filter_In. tauto.
      - apply filter_In. tauto. }
    subst. congruence.
  - apply Hnot. apply in_map. apply filter_In. split; [assumption|].
    apply shopifyFilter_true. tauto.
  - congruence.
Qed.

End PlanEntries.

(** ** Claims about the plan *)

(** C2, as stated: every file of [sgc-parent] outside the eight folders gets
    a delete entry in the plan, whatever the parent listing is. It fails
    when nothing of the parent listing passes the filter: the function
    returns at line 393, before the cleanup loop. *)
Lemma C2_counterexample :
  ~ (forall inc parentTree sgcTree newBlobSha p,
        In p (blobPaths sgcTree) -> isInShopifyFolder p = false ->
        In (deleteEntry p) (syncPlan inc parentTree sgcTree newBlobSha)).
Proof.
  intro H.
  specialize (H false docsOnlySource staleTarget sameSha "extra/file.txt").
  simpl in H. apply H; [tauto | reflexivity].
Qed.

(** C2, amended: when at least one file of the parent listing passes the
    filter, every file of [sgc-parent] outside the eight folders gets a
    delete entry in the plan, whatever the JSON flag is. *)
Theorem C2_cleanup_outside_folders :
  forall inc parentTree sgcTree newBlobSha p,
    filter (shopifyFilter inc) parentTree <> [] ->
    In p (blobPaths sgcTree) ->
    isInShopifyFolder p = false ->
    In (deleteEntry p) (syncPlan inc parentTree sgcTree newBlobSha).
Proof.
  intros inc parentTree sgcTree newBlobSha p Hne Hin Hout.
  rewrite syncPlan_blocks by assumption.
  rewrite !in_app_iff. right; right; right.
  unfold cleanups. apply in_map. apply filter_In. split.
  - now apply sgcFiles_keys.
  - unfold outOfScope. now rewrite Hout.
Qed.

Lemma C2_cleanup_outside_folders_witness :
  In (deleteEntry "extra/file.txt") (syncPlan false fullSource staleTarget sameSha).
Proof.
  apply C2_cleanup_outside_folders.
  - simpl. discriminate.
  - simpl. tauto.
  - reflexivity.
Defined.

(** C4: a delete entry for a path of the eight folders is produced only if
    the path passes the JSON test of the filter; a file of [sgc-parent] in
    the eight folders that the JSON policy excludes has no entry in the plan
    at all, and the tree built from the plan lists it as before. *)
Theorem C4_excluded_target_files_are_kept :
  forall inc parentTree sgcTree newBlobSha p,
    isInShopifyFolder p = true ->
    let plan := syncPlan inc parentTree sgcTree newBlobSha in
    (In (deleteEntry p) plan -> isNotJson inc p = true) /\
    (shouldExcludeJson inc p = true ->
     ~ In (deleteEntry p) plan /\
     ~ In p (map u_path plan) /\
     entriesAt p (applyTreeUpdates sgcTree plan) = entriesAt p sgcTree).
Proof.
  intros inc parentTree sgcTree newBlobSha p Hin plan.
  assert (Hex : shouldExcludeJson inc p = true -> ~ In p (map u_path plan)).
  { intro H. now apply excluded_path_not_in_plan. }
  assert (Hdel : forall q, In (deleteEntry q) plan -> In q (map u_path plan)).
  { intros q Hq. change q with (u_path (deleteEntry q)). now apply in_map. }
  split.
  - intro Hd. rewrite isNotJson_shouldExcludeJson.
    destruct (shouldExcludeJson inc p) eqn:E; [| reflexivity].
    exfalso. apply (Hex eq_refl). now apply Hdel.
  - intro H. specialize (Hex H). repeat split.
    + intro Hd. apply Hex. now apply Hdel.
    + exact Hex.
    + now apply applyTreeUpdates_untouched.
Qed.

Lemma C4_excluded_target_files_are_kept_witness :
  let plan := syncPlan false fullSource staleTarget sameSha in
  (In (deleteEntry "config/settings_data.json") plan ->
   isNotJson false "config/settings_data.json" = true) /\
  (shouldExcludeJson false "config/settings_data.json" = true ->
   ~ In (deleteEntry "config/settings_data.json") plan /\
   ~ In "config/settings_data.json" (map u_path plan) /\
   entriesAt "config/settings_data.json" (applyTreeUpdates staleTarget plan) =
   entriesAt "config/settings_data.json" staleTarget).
Proof.
  apply (C4_excluded_target_files_are_kept false fullSource staleTarget sameSha
           "config/settings_data.json").
  reflexivity.
Defined.

Section Collisions.

Variable inc : bool.
Variables parentTree sgcTree : list TreeItem.
Variable newBlobSha : string -> string.
Hypothesis source_paths_unique : NoDup (blobPaths parentTree).

Let files := filter (shopifyFilter inc) parentTree.

Lemma files_path_inj f g :
  In f files -> In g files -> path f = path g -> f = g.
Proof.
  apply NoDup_map_In_inj. now apply shopifyFiles_NoDup.
Qed.

Lemma reusePuts_NoDup : NoDup (map u_path (reusePuts files sgcTree)).
Proof.
  unfold reusePuts. rewrite map_map. simpl.
  apply NoDup_map_filter. now apply shopifyFiles_NoDup.
Qed.

Lemma copyPuts_NoDup : NoDup (map u_path (copyPuts files sgcTree newBlobSha)).
Proof.
  unfold copyPuts. rewrite map_map. simpl.
  apply NoDup_map_of_inj.
  - apply (NoDup_map_inv fst). apply fetchMapOf_NoDup. constructor.
  - intros [k1 f1] [k2 f2] H1 H2 Heq. simpl in Heq.
    apply blobEntries_In in H1. apply blobEntries_In in H2.
    destruct H1 as (Hf1 & <- & _), H2 as (Hf2 & <- & _).
    assert (f1 = f2) by now apply files_path_inj.
    now subst.
Qed.

Lemma deletions_NoDup : NoDup (map u_path (deletions inc files sgcTree)).
Proof.
  unfold deletions. rewrite map_map. simpl. rewrite map_id.
  apply NoDup_filter, sgcFiles_NoDup.
Qed.

Lemma cleanups_NoDup : NoDup (map u_path (cleanups sgcTree)).
Proof.
  unfold cleanups. rewrite map_map. simpl. rewrite map_id.
  apply NoDup_filter, sgcFiles_NoDup.
Qed.

Lemma plan_paths_NoDup :
  NoDup (map u_path (syncPlan inc parentTree sgcTree newBlobSha)).
Proof.
  destruct files as [|f0 fs] eqn:E.
  - rewrite syncPlan_empty_source by exact E. constructor.
  - rewrite syncPlan_blocks by (fold files; congruence). fold files.
    rewrite !map_app.
    apply NoDup_app; [apply reusePuts_NoDup | | ].
    + apply NoDup_app; [apply copyPuts_NoDup | | ].
      * apply NoDup_app; [apply deletions_NoDup | apply cleanups_NoDup |].
        intros p Hd Hc. apply deletions_path in Hd. apply cleanups_path in Hc.
        destruct Hd as (_ & Hd & _), Hc as (_ & Hc). congruence.
      * intros p Hp. rewrite in_app_iff. apply copyPuts_path in Hp.
        destruct Hp as (f & _ & Hf & <- & _). intros [Hd | Hc].
        -- apply deletions_path in Hd. destruct Hd as (_ & _ & _ & Hd).
           apply Hd. now apply in_map.
        -- apply cleanups_path in Hc. destruct Hc as (_ & Hc).
           apply shopifyFiles_in_scope in Hf. congruence.
    + intros p Hp. rewrite !in_app_iff. apply reusePuts_path in Hp.
      destruct Hp as (f & Hf & <- & Hr). intros [H | [Hd | Hc]].
      * apply copyPuts_path in H. destruct H as (g & _ & Hg & Hpath & Hc).
        assert (g = f) by now apply files_path_inj.
        subst g. unfold reusable in Hr. unfold toCopy in Hc.
        apply andb_true_iff in Hr. apply andb_true_iff in Hc.
        destruct Hr as [_ Hr], Hc as [_ Hc]. rewrite Hr in Hc. discriminate.
      * apply deletions_path in Hd. destruct Hd as (_ & _ & _ & Hd).
        apply Hd. now apply in_map.
      * apply cleanups_path in Hc. destruct Hc as (_ & Hc).
        apply shopifyFiles_in_scope in Hf. congruence.
Qed.

End Collisions.

(** C5: for a parent listing in which every file path occurs once, no path
    has two entries in the plan; in particular no path has both an entry
    with a sha and an entry with [sha: null]. *)
Theorem C5_no_collision :
  forall inc parentTree sgcTree newBlobSha,
    NoDup (blobPaths parentTree) ->
    let plan := syncPlan inc parentTree sgcTree newBlobSha in
    NoDup (map u_path plan) /\
    (forall u v, In u plan -> In v plan ->
                 isPut u = true -> isDelete v = true -> u_path u <> u_path v).
Proof.
  intros inc parentTree sgcTree newBlobSha Hnd plan.
  assert (H : NoDup (map u_path plan)) by now apply plan_paths_NoDup.
  split; [exact H|].
  intros u v Hu Hv Hput Hdel Heq.
  assert (u = v) by (eapply NoDup_map_In_inj; eauto).
  subst. unfold isDelete in Hdel. rewrite Hput in Hdel. discriminate.
Qed.

Lemma C5_no_collision_witness :
  let plan := syncPlan false fullSource staleTarget sameSha in
  NoDup (map u_path plan) /\
  (forall u v, In u plan -> In v plan ->
               isPut u = true -> isDelete v = true -> u_path u <> u_path v).
Proof.
  apply C5_no_collision.
  unfold blobPaths, fullSource. simpl.
  repeat constructor; simpl; intuition discriminate.
Defined.

(** ** Runs *)

Section MonadFacts.

Variables A B : Type.

Lemma outcome_bind (m : M A) (k : A -> M B) :
  outcome (bind m k) =
  match outcome m with
  | Ok a => outcome (k a)
  | Throw e => Throw e
  end.
Proof.
  destruct m as [[a | e] cs]; simpl; [| reflexivity].
  now destruct (k a).
Qed.

Lemma calls_bind (m : M A) (k : A -> M B) :
  calls (bind m k) =
  calls m ++ match outcome m with
             | Ok a => calls (k a)
             | Throw _ => []
             end.
Proof.
  destruct m as [[a | e] cs]; simpl; [| now rewrite app_nil_r].
  now destruct (k a).
Qed.

Lemma outcome_tryCatch (m : M A) (h : ApiError -> M A) :
  outcome (tryCatch m h) =
  match outcome m with
  | Ok a => Ok a
  | Throw e => outcome (h e)
  end.
Proof.
  destruct m as [[a | e] cs]; simpl; [reflexivity|].
  now destruct (h e).
Qed.

Lemma calls_tryCatch (m : M A) (h : ApiError -> M A) :
  calls (tryCatch m h) =
  calls m ++ match outcome m with
             | Ok _ => []
             | Throw e => calls (h e)
             end.
Proof.
  destruct m as [[a | e] cs]; simpl; [now rewrite app_nil_r|].
  now destruct (h e).
Qed.

End MonadFacts.

Section BatchFacts.

Variable octokit : Octokit.
Variable sgcFiles : Js.Map string.

Lemma copyBlob_outcome k f st :
  outcome (copyBlob octokit sgcFiles (k, f) st) =
  match get_blob octokit k with
  | Ok blob =>
      match post_blob octokit (content blob) (encoding blob) with
      | Ok _ => Ok (copyStep (copiedSha octokit) sgcFiles st (k, f))
      | Throw e => Throw e
      end
  | Throw e => Throw e
  end.
Proof.
  unfold copyBlob, rateLimitedRequest, requestGetBlob, requestPostBlob,
    copyStep, copiedSha. simpl.
  destruct (get_blob octokit k) as [blob | e]; simpl; [| reflexivity].
  destruct (post_blob octokit (content blob) (encoding blob)); reflexivity.
Qed.

Lemma copyBlob_calls k f st c :
  In c (calls (copyBlob octokit sgcFiles (k, f) st)) ->
  c = GetBlob k \/
  exists blob, get_blob octokit k = Ok blob /\
               c = PostBlob (content blob) (encoding blob).
Proof.
  unfold copyBlob, rateLimitedRequest, requestGetBlob, requestPostBlob. simpl.
  destruct (get_blob octokit k) as [blob | e]; simpl.
  - destruct (post_blob octokit (content blob) (encoding blob)); simpl;
      intros [<- | [<- | []]]; eauto.
  - intros [<- | []]. now left.
Qed.

Lemma batch_calls entries : forall st c,
  In c (calls (batchProcess entries (copyBlob octokit sgcFiles) st)) ->
  blobCallFor octokit entries c.
Proof.
  induction entries as [|[k f] entries IH]; intros st c; simpl; [intros []|].
  rewrite calls_bind, in_app_iff. intros [H | H].
  - apply copyBlob_calls in H. exists k, f. split; [now left | exact H].
  - destruct (outcome (copyBlob octokit sgcFiles (k, f) st)); [| contradiction].
    apply IH in H. destruct H as (k' & f' & Hin & H).
    exists k', f'. split; [now right | exact H].
Qed.

Lemma batch_outcome_Ok entries : forall st st',
  outcome (batchProcess entries (copyBlob octokit sgcFiles) st) = Ok st' ->
  st' = fold_left (copyStep (copiedSha octokit) sgcFiles) entries st.
Proof.
  induction entries as [|[k f] entries IH]; intros st st'; simpl.
  - now intros [= <-].
  - rewrite outcome_bind, copyBlob_outcome.
    destruct (get_blob octokit k) as [blob | e]; [| discriminate].
    destruct (post_blob octokit (content blob) (encoding blob)); [| discriminate].
    apply IH.
Qed.

Lemma batch_succeeds entries : forall st,
  (forall k f, In (k, f) entries -> copyable octokit k) ->
  outcome (batchProcess entries (copyBlob octokit sgcFiles) st) =
  Ok (fold_left (copyStep (copiedSha octokit) sgcFiles) entries st).
Proof.
  induction entries as [|[k f] entries IH]; intros st Hall; simpl; [reflexivity|].
  rewrite outcome_bind, copyBlob_outcome.
  destruct (Hall k f (or_introl eq_refl)) as (blob & newSha & -> & ->).
  apply IH. intros k' f' H. apply (Hall k' f'). now right.
Qed.

End BatchFacts.

(** *** Properties of every call of a computation *)

Section AllCalls.

Variable P : Call -> Prop.

Lemma allCalls_ret A (a : A) : allCalls P (ret a).
Proof. intros c []. Qed.

Lemma allCalls_bind A B (m : M A) (k : A -> M B) :
  allCalls P m -> (forall a, allCalls P (k a)) -> allCalls P (bind m k).
Proof.
  intros Hm Hk c. rewrite calls_bind, in_app_iff. intros [H | H].
  - now apply Hm.
  - destruct (outcome m) as [a | e]; [now apply (Hk a) | contradiction].
Qed.

Lemma allCalls_single A (r : Result A) (c0 : Call) :
  P c0 -> allCalls P (rateLimitedRequest (r, [c0])).
Proof. intros H c [<- | []]. exact H. Qed.

Lemma allCalls_batch T S (worker : T -> S -> M S) (items : list T) :
  (forall item st, allCalls P (worker item st)) ->
  forall st, allCalls P (batchProcess items worker st).
Proof.
  intro Hw. induction items as [|item items IH]; intro st; simpl.
  - apply allCalls_ret.
  - apply allCalls_bind; [apply Hw | exact IH].
Qed.

End AllCalls.

Section RunFacts.

Variable octokit : Octokit.

Lemma collectUpdates_calls inc files sgcTree c :
  In c (calls (collectUpdates octokit inc files sgcTree)) ->
  blobCallFor octokit (blobEntriesOf files sgcTree) c.
Proof.
  unfold collectUpdates. rewrite calls_bind, in_app_iff. intros [H | H].
  - apply batch_calls in H. now rewrite diffPass_blobsToFetch in H.
  - destruct (outcome _); simpl in H; contradiction.
Qed.

Lemma collectUpdates_outcome_Ok inc files sgcTree st :
  outcome (collectUpdates octokit inc files sgcTree) = Ok st ->
  st = syncLocals inc files sgcTree (copiedSha octokit).
Proof.
  unfold collectUpdates. rewrite outcome_bind.
  destruct (outcome (batchProcess _ _ _)) as [st1 | e] eqn:E; [| discriminate].
  apply batch_outcome_Ok in E. simpl. intros [= <-]. now subst st1.
Qed.

Lemma collectUpdates_succeeds inc files sgcTree :
  (forall k f, In (k, f) (blobEntriesOf files sgcTree) -> copyable octokit k) ->
  outcome (collectUpdates octokit inc files sgcTree) =
  Ok (syncLocals inc files sgcTree (copiedSha octokit)).
Proof.
  intro Hall. unfold collectUpdates. rewrite outcome_bind.
  rewrite batch_succeeds; [reflexivity|].
  intros k f. rewrite diffPass_blobsToFetch. apply Hall.
Qed.

Lemma commitUpdates_nothing parent sgcSha st :
  treeUpdates st = [] -> commitUpdates octokit parent sgcSha st = (Ok tt, []).
Proof. intro H. unfold commitUpdates. now rewrite H. Qed.

Lemma commitUpdates_calls parent sgcSha st c :
  In c (calls (commitUpdates octokit parent sgcSha st)) ->
  treeUpdates st <> [] /\
  (c = PostTree sgcSha (treeUpdates st) \/
   (exists m t, c = PostCommit m t [sgcSha]) \/
   (exists commit, c = PatchRef (sgcBranch parent) commit false)).
Proof.
  unfold commitUpdates, rateLimitedRequest, requestPostTree, requestPostCommit,
    requestPatchRef.
  destruct (treeUpdates st) as [|u us] eqn:E; simpl; [intros []|].
  intro H. split; [discriminate|].
  destruct (post_tree octokit sgcSha (u :: us)) as [t | e]; simpl in H.
  - destruct (post_commit octokit _ t [sgcSha]) as [commit | e]; simpl in H.
    + destruct H as [<- | [<- | [<- | []]]]; eauto.
    + destruct H as [<- | [<- | []]]; eauto.
  - destruct H as [<- | []]. now left.
Qed.

Lemma commitUpdates_posts_tree parent sgcSha st :
  treeUpdates st <> [] ->
  In (PostTree sgcSha (treeUpdates st))
     (calls (commitUpdates octokit parent sgcSha st)).
Proof.
  intro Hne. unfold commitUpdates.
  destruct (treeUpdates st) as [|u us] eqn:E; [congruence|].
  cbn [List.length Nat.eqb]. rewrite calls_bind. simpl. now left.
Qed.

Variable includeJsonFiles : bool.
Variable parent : Parent.
Variables parentSha sgcSha : string.
Variables parentTree sgcTree : list TreeItem.
Hypothesis parent_ref : get_ref octokit (parentName parent) = Ok parentSha.
Hypothesis sgc_ref : get_ref octokit (sgcBranch parent) = Ok sgcSha.
Hypothesis parent_listing : get_tree octokit parentSha = Ok parentTree.
Hypothesis sgc_listing : get_tree octokit sgcSha = Ok sgcTree.

Let inc := shouldIncludeJsonOf includeJsonFiles parent.
Let files := filter (shopifyFilter inc) parentTree.
Let attempt := updateSGCOnParentPush_try octokit includeJsonFiles parent.
Let collected := collectUpdates octokit inc files sgcTree.

Lemma attempt_empty_source :
  files = [] ->
  attempt = (Ok tt, [GetRef (parentName parent); GetRef (sgcBranch parent);
                     GetTree parentSha]).
Proof.
  intro E. unfold attempt, updateSGCOnParentPush_try, rateLimitedRequest,
    requestGetRef, requestGetTree.
  rewrite parent_ref. simpl. rewrite sgc_ref. simpl. rewrite parent_listing.
  simpl. fold inc. fold files. now rewrite E.
Qed.

Lemma attempt_calls :
  files <> [] ->
  calls attempt =
  [GetRef (parentName parent); GetRef (sgcBranch parent); GetTree parentSha;
   GetTree sgcSha] ++
  calls collected ++
  match outcome collected with
  | Ok st => calls (commitUpdates octokit parent sgcSha st)
  | Throw _ => []
  end.
Proof.
  intro Hne. unfold attempt, updateSGCOnParentPush_try, rateLimitedRequest,
    requestGetRef, requestGetTree.
  rewrite parent_ref. simpl. rewrite sgc_ref. simpl. rewrite parent_listing.
  simpl. fold inc. fold files.
  destruct files as [|f0 fs] eqn:E; [congruence|]. simpl.
  rewrite sgc_listing. simpl.
  change (collectUpdates octokit inc (f0 :: fs) sgcTree) with collected.
  rewrite <- (calls_bind collected
                (fun st => commitUpdates octokit parent sgcSha st)).
  now destruct (bind collected _).
Qed.

Lemma attempt_outcome :
  files <> [] ->
  outcome attempt =
  match outcome collected with
  | Ok st => outcome (commitUpdates octokit parent sgcSha st)
  | Throw e => Throw e
  end.
Proof.
  intro Hne. unfold attempt, updateSGCOnParentPush_try, rateLimitedRequest,
    requestGetRef, requestGetTree.
  rewrite parent_ref. simpl. rewrite sgc_ref. simpl. rewrite parent_listing.
  simpl. fold inc. fold files.
  destruct files as [|f0 fs] eqn:E; [congruence|]. simpl.
  rewrite sgc_listing. simpl.
  change (collectUpdates octokit inc (f0 :: fs) sgcTree) with collected.
  rewrite <- (outcome_bind collected
                (fun st => commitUpdates octokit parent sgcSha st)).
  now destruct (bind collected _).
Qed.

End RunFacts.

(** ** The [catch] block *)

Ltac all_calls :=
  repeat first
    [ apply allCalls_ret
    | apply allCalls_single; reflexivity
    | apply allCalls_bind; [| intro]
    | apply allCalls_batch; intros [? ?] ?; unfold copyBlob
    | match goal with
      | |- allCalls _ (if ?b then _ else _) => destruct b
      end ].

Section CatchFacts.

Variable octokit : Octokit.
Variable includeJsonFiles : bool.
Variable parent : Parent.

Lemma attempt_never_merges :
  allCalls (fun c => isMerge c = false)
           (updateSGCOnParentPush_try octokit includeJsonFiles parent).
Proof.
  unfold updateSGCOnParentPush_try, collectUpdates, commitUpdates,
    requestGetRef, requestGetTree, requestGetBlob, requestPostBlob,
    requestPostTree, requestPostCommit, requestPatchRef.
  all_calls.
Qed.

Lemma catch_outcome error :
  outcome (updateSGCOnParentPush_catch octokit parent error) = Ok tt.
Proof.
  unfold updateSGCOnParentPush_catch, rateLimitedRequest, requestPostMerges.
  destruct (isConflict error); [| reflexivity].
  simpl. now destruct (post_merges octokit _ _ _) as [[] | e].
Qed.

Lemma catch_calls error :
  calls (updateSGCOnParentPush_catch octokit parent error) =
  if isConflict error
  then [PostMerges (sgcBranch parent) (parentName parent) (fallbackMessage parent)]
  else [].
Proof.
  unfold updateSGCOnParentPush_catch, rateLimitedRequest, requestPostMerges.
  destruct (isConflict error); [| reflexivity].
  simpl. now destruct (post_merges octokit _ _ _) as [[] | e].
Qed.

Lemma run_calls :
  calls (updateSGCOnParentPush octokit includeJsonFiles parent) =
  calls (updateSGCOnParentPush_try octokit includeJsonFiles parent) ++
  match outcome (updateSGCOnParentPush_try octokit includeJsonFiles parent) with
  | Ok _ => []
  | Throw error =>
      if isConflict error
      then [PostMerges (sgcBranch parent) (parentName parent)
                       (fallbackMessage parent)]
      else []
  end.
Proof.
  unfold updateSGCOnParentPush. rewrite calls_tryCatch.
  destruct (outcome _); [reflexivity | now rewrite catch_calls].
Qed.

Lemma run_outcome :
  outcome (updateSGCOnParentPush octokit includeJsonFiles parent) = Ok tt.
Proof.
  unfold updateSGCOnParentPush. rewrite outcome_tryCatch.
  destruct (outcome _) as [[] | e]; [reflexivity | apply catch_outcome].
Qed.

End CatchFacts.

(** C7, as stated: when the attempt fails with a conflict and the fallback
    merge fails too, the merge's error reaches the caller. It does not: the
    inner [catch] of lines 655-657 only logs it and the call completes. *)
Lemma C7_counterexample :
  ~ (forall octokit includeJsonFiles parent error mergeError,
        outcome (updateSGCOnParentPush_try octokit includeJsonFiles parent)
          = Throw error ->
        isConflict error = true ->
        post_merges octokit (sgcBranch parent) (parentName parent)
                    (fallbackMessage parent) = Throw mergeError ->
        outcome (updateSGCOnParentPush octokit includeJsonFiles parent)
          = Throw mergeError).
Proof.
  intro H.
  specialize (H rejectingStore false Production unprocessable mergeConflict
                eq_refl eq_refl eq_refl).
  discriminate H.
Qed.

(** C7, amended: the attempt itself never issues a merge; when it fails with
    a conflict (status 422, or a message containing "conflict") the run
    issues exactly one merge of the parent branch into the [sgc-] branch
    after the attempt's calls; for any other error it issues nothing more;
    and in every case, also when the fallback merge fails, the call
    completes normally: no error reaches the caller. *)
Theorem C7_conflict_falls_back_to_one_merge :
  forall octokit includeJsonFiles parent,
    let attempt := updateSGCOnParentPush_try octokit includeJsonFiles parent in
    let run := updateSGCOnParentPush octokit includeJsonFiles parent in
    let merge := PostMerges (sgcBranch parent) (parentName parent)
                            (fallbackMessage parent) in
    allCalls (fun c => isMerge c = false) attempt /\
    (forall error, outcome attempt = Throw error -> isConflict error = true ->
                   calls run = calls attempt ++ [merge]) /\
    (forall error, outcome attempt = Throw error -> isConflict error = false ->
                   calls run = calls attempt) /\
    outcome run = Ok tt.
Proof.
  intros octokit includeJsonFiles parent attempt run merge.
  split; [apply attempt_never_merges|].
  split; [| split].
  - intros error He Hc. unfold run. rewrite run_calls. fold attempt.
    now rewrite He, Hc.
  - intros error He Hc. unfold run. rewrite run_calls. fold attempt.
    rewrite He, Hc. apply app_nil_r.
  - apply run_outcome.
Qed.

(** The run on [rejectingStore]: one merge after the rejected tree write,
    and a normal completion although the merge failed. *)
Lemma C7_conflict_falls_back_to_one_merge_witness :
  updateSGCOnParentPush rejectingStore false Production =
  (Ok tt,
   [GetRef "production"; GetRef "sgc-production"; GetTree "c-production";
    GetTree "c-sgc-production";
    PostTree "c-sgc-production" [deleteEntry "extra/file.txt"];
    PostMerges "sgc-production" "production"
      "Merge production into sgc-production (fallback from Shopify sync)"]).
Proof.
  pose proof (C7_conflict_falls_back_to_one_merge rejectingStore false Production)
    as (_ & Hconflict & _ & Hout).
  specialize (Hconflict unprocessable eq_refl eq_refl).
  destruct (updateSGCOnParentPush rejectingStore false Production) as [r cs].
  simpl in Hconflict, Hout. now subst.
Defined.

(** ** The release rebase *)

(** C8: with both tips read, equal tips make the run a no-op that issues
    only the three ref reads; different tips make it read the staging
    commit, create one commit whose tree is the staging tip's tree and whose
    only parent is the staging tip, and update [release] to that commit
    with [force: true]. *)
Theorem C8_rebase_by_tree_copy :
  forall octokit stagingSha releaseSha,
    get_ref octokit "release" = Ok releaseSha ->
    get_ref octokit "staging" = Ok stagingSha ->
    let run := updateReleaseOnStagingPush octokit in
    (releaseSha = stagingSha ->
     run = (Ok tt, [GetRef "release"; GetRef "staging"; GetRef "release"])) /\
    (releaseSha <> stagingSha ->
     forall stagingTree rebaseCommit,
       get_commit octokit stagingSha = Ok stagingTree ->
       post_commit octokit (rebaseMessage stagingSha) stagingTree [stagingSha]
         = Ok rebaseCommit ->
       calls run =
         [GetRef "release"; GetRef "staging"; GetRef "release";
          GetCommit stagingSha;
          PostCommit (rebaseMessage stagingSha) stagingTree [stagingSha];
          PatchRef "release" rebaseCommit true] /\
       outcome run = patch_ref octokit "release" rebaseCommit true).
Proof.
  intros octokit stagingSha releaseSha Hrel Hst run.
  unfold run, updateReleaseOnStagingPush, updateReleaseOnStagingPush_try,
    checkReleaseBranch, rateLimitedRequest, requestGetRef, requestGetCommit,
    requestPostCommit, requestPatchRef.
  rewrite Hrel, Hst. simpl. split.
  - intros ->. now rewrite String.eqb_refl.
  - intros Hne stagingTree rebaseCommit Htree Hcommit.
    destruct (String.eqb_spec releaseSha stagingSha) as [Heq | _];
      [contradiction|].
    rewrite Htree. simpl. rewrite Hcommit. simpl.
    destruct (patch_ref octokit "release" rebaseCommit true) as [[] | e];
      split; reflexivity.
Qed.

Lemma C8_rebase_by_tree_copy_witness :
  updateReleaseOnStagingPush (releaseStore "c1" "c1") =
    (Ok tt, [GetRef "release"; GetRef "staging"; GetRef "release"]) /\
  calls (updateReleaseOnStagingPush (releaseStore "c2" "c1")) =
    [GetRef "release"; GetRef "staging"; GetRef "release"; GetCommit "c2";
     PostCommit "Rebase release onto staging (c2)" "tree-of-c2" ["c2"];
     PatchRef "release" "c-rebased" true].
Proof.
  split.
  - apply (C8_rebase_by_tree_copy (releaseStore "c1" "c1") (stagingSha := "c1")
             (releaseSha := "c1")); reflexivity.
  - apply (C8_rebase_by_tree_copy (releaseStore "c2" "c1") (stagingSha := "c2")
             (releaseSha := "c1") eq_refl eq_refl); [discriminate | reflexivity..].
Defined.

(** ** The plan a run sends *)

Lemma syncPlan_syncLocals inc parentTree sgcTree newBlobSha :
  filter (shopifyFilter inc) parentTree <> [] ->
  syncPlan inc parentTree sgcTree newBlobSha =
  treeUpdates (syncLocals inc (filter (shopifyFilter inc) parentTree) sgcTree
                          newBlobSha).
Proof.
  intro Hne. unfold syncPlan.
  destruct (filter (shopifyFilter inc) parentTree); [congruence | reflexivity].
Qed.

Section RunPlan.

Variable octokit : Octokit.
Variable includeJsonFiles : bool.
Variable parent : Parent.
Variables parentSha sgcSha : string.
Variables parentTree sgcTree : list TreeItem.
Hypothesis parent_ref : get_ref octokit (parentName parent) = Ok parentSha.
Hypothesis sgc_ref : get_ref octokit (sgcBranch parent) = Ok sgcSha.
Hypothesis parent_listing : get_tree octokit parentSha = Ok parentTree.
Hypothesis sgc_listing : get_tree octokit sgcSha = Ok sgcTree.

Let inc := shouldIncludeJsonOf includeJsonFiles parent.
Let files := filter (shopifyFilter inc) parentTree.
Let run := updateSGCOnParentPush octokit includeJsonFiles parent.
Let plan := syncPlan inc parentTree sgcTree (copiedSha octokit).

(** Every call of a run is one of: the four reads, a blob call for an
    entry of [blobsToFetch], the tree write of the plan, a commit on top
    of the [sgc-] tip, a ref update, or the fallback merge. *)
Lemma run_call_cases c :
  In c (calls run) ->
  In c [GetRef (parentName parent); GetRef (sgcBranch parent);
        GetTree parentSha; GetTree sgcSha]
  \/ blobCallFor octokit (blobEntriesOf files sgcTree) c
  \/ (c = PostTree sgcSha plan /\ plan <> [])
  \/ (exists m t, c = PostCommit m t [sgcSha])
  \/ (exists commit, c = PatchRef (sgcBranch parent) commit false)
  \/ c = PostMerges (sgcBranch parent) (parentName parent)
                    (fallbackMessage parent).
Proof.
  unfold run. rewrite run_calls, in_app_iff. intros [H | H].
  - assert (Hfiles : files = [] \/ files <> []).
    { destruct files; [now left | right; discriminate]. }
    destruct Hfiles as [E | Hne].
    + rewrite (attempt_empty_source octokit includeJsonFiles parent
                 parent_ref sgc_ref parent_listing E) in H.
      left. simpl in *. tauto.
    + rewrite (attempt_calls octokit includeJsonFiles parent parent_ref sgc_ref
                 parent_listing sgc_listing Hne) in H.
      fold inc in H. fold files in H.
      rewrite !in_app_iff in H. destruct H as [H | [H | H]].
      * now left.
      * right; left. now apply collectUpdates_calls in H.
      * destruct (outcome (collectUpdates octokit inc files sgcTree))
          as [st | e] eqn:Eo; [| contradiction].
        apply collectUpdates_outcome_Ok in Eo.
        apply commitUpdates_calls in H. destruct H as [Hst H].
        assert (Hplan : treeUpdates st = plan).
        { unfold plan. rewrite syncPlan_syncLocals by exact Hne.
          now subst st. }
        rewrite Hplan in *. tauto.
  - destruct (outcome _) as [a | e]; [contradiction|].
    destruct (isConflict e); [| contradiction].
    destruct H as [<- | []]. tauto.
Qed.

(** When every blob to copy can be copied and the plan is not empty, the
    run sends the plan to the tree endpoint, on top of the [sgc-] tip. *)
Lemma run_posts_plan :
  (forall k f, In (k, f) (blobEntriesOf files sgcTree) -> copyable octokit k) ->
  plan <> [] ->
  In (PostTree sgcSha plan) (calls run).
Proof.
  intros Hall Hplan. unfold run. rewrite run_calls, in_app_iff. left.
  assert (Hne : files <> []).
  { intro E. apply Hplan. unfold plan. now apply syncPlan_empty_source. }
  rewrite (attempt_calls octokit includeJsonFiles parent parent_ref sgc_ref
             parent_listing sgc_listing Hne).
  fold inc. fold files. rewrite !in_app_iff. right; right.
  rewrite collectUpdates_succeeds by exact Hall.
  assert (Heq : treeUpdates (syncLocals inc files sgcTree (copiedSha octokit))
                = plan).
  { unfold plan. now rewrite syncPlan_syncLocals by exact Hne. }
  rewrite <- Heq. apply commitUpdates_posts_tree. now rewrite Heq.
Qed.

End RunPlan.

(** A file that is not up to date and whose sha some file of [sgc-parent]
    has is put in the plan with that very sha. *)
Lemma reused_put_in_plan inc parentTree sgcTree newBlobSha f :
  In f (filter (shopifyFilter inc) parentTree) ->
  upToDate (sgcFilesOf sgcTree) f = false ->
  In (sha f) (blobShas sgcTree) ->
  In (putEntry (path f) (mode f) (sha f))
     (syncPlan inc parentTree sgcTree newBlobSha).
Proof.
  intros Hf Hup Hsha.
  rewrite syncPlan_blocks by (intro E; rewrite E in Hf; contradiction).
  rewrite in_app_iff. left. unfold reusePuts.
  change (putEntry (path f) (mode f) (sha f)) with (putOfFile f).
  apply in_map. apply filter_In. split; [assumption|].
  unfold reusable. rewrite Hup. simpl. now apply sgcBlobShas_has.
Qed.

(** ** The blob copies of a run *)

Lemma filter_none A (g : A -> bool) (l : list A) :
  (forall x, In x l -> g x = false) -> filter g l = [].
Proof.
  induction l as [|a l IH]; simpl; intro H; [reflexivity|].
  rewrite (H a (or_introl eq_refl)). apply IH. intros x Hx. apply H. now right.
Qed.

Lemma fetchMapOf_keeps_keys files : forall m k,
  In k (Js.map_keys m) -> In k (Js.map_keys (fetchMapOf files m)).
Proof.
  unfold fetchMapOf.
  induction files as [|g files IH]; intros m k H; simpl; [assumption|].
  apply IH. apply map_set_keys. now right.
Qed.

Lemma fetchMapOf_key files : forall m f,
  In f files -> In (sha f) (Js.map_keys (fetchMapOf files m)).
Proof.
  induction files as [|g files IH]; intros m f H; [contradiction|].
  destruct H as [-> | H].
  - apply (fetchMapOf_keeps_keys files (Js.map_set (sha f) f m)).
    apply map_set_keys. now left.
  - apply (IH (Js.map_set (sha g) g m) f H).
Qed.

(** Every file to copy has its sha among the keys of [blobsToFetch]. *)
Lemma blobEntries_key files sgcTree f :
  In f files ->
  toCopy (sgcFilesOf sgcTree) (sgcBlobShasOf sgcTree) f = true ->
  exists g, In (sha f, g) (blobEntriesOf files sgcTree).
Proof.
  intros Hf Hc.
  assert (H : In (sha f) (Js.map_keys (blobEntriesOf files sgcTree))).
  { unfold blobEntriesOf. apply fetchMapOf_key. apply filter_In. tauto. }
  unfold Js.map_keys in H. apply in_map_iff in H.
  destruct H as ([k g] & Hk & Hin). simpl in Hk. subst k. now exists g.
Qed.

(** A file that passes the filter, is not up to date and is the last one
    with its sha is put in the plan: with its own sha when some file of
    [sgc-parent] has it, with the sha of the copy otherwise. *)
Lemma last_stale_file_is_put inc parentTree sgcTree newBlobSha pre l post :
  filter (shopifyFilter inc) parentTree = pre ++ l :: post ->
  (forall g, In g post -> sha g <> sha l) ->
  upToDate (sgcFilesOf sgcTree) l = false ->
  In (putEntry (path l) (mode l)
        (if Js.set_has (sha l) (sgcBlobShasOf sgcTree)
         then sha l else newBlobSha (sha l)))
     (syncPlan inc parentTree sgcTree newBlobSha).
Proof.
  intros Hsplit Hpost Hup.
  assert (Hl : In l (filter (shopifyFilter inc) parentTree)).
  { rewrite Hsplit. apply in_elt. }
  destruct (Js.set_has (sha l) (sgcBlobShasOf sgcTree)) eqn:Hs.
  - apply reused_put_in_plan; [assumption | assumption |].
    now apply sgcBlobShas_has.
  - rewrite syncPlan_blocks by (intro E; rewrite E in Hl; contradiction).
    rewrite !in_app_iff. right; left. unfold copyPuts.
    change (putEntry (path l) (mode l) (newBlobSha (sha l)))
      with (putOfCopy newBlobSha (sha l, l)).
    apply in_map. apply map_get_In. unfold blobEntriesOf.
    rewrite Hsplit, filter_app. simpl.
    unfold toCopy at 2. rewrite Hup, Hs. simpl.
    apply fetchMapOf_get_last.
    intros g Hg. apply filter_In in Hg. apply Hpost. tauto.
Qed.

Section BlobCalls.

Variable octokit : Octokit.

Lemma copyBlob_calls_eq sgcFiles k f st :
  calls (copyBlob octokit sgcFiles (k, f) st) = copyCalls octokit (k, f).
Proof.
  unfold copyBlob, copyCalls, rateLimitedRequest, requestGetBlob, requestPostBlob.
  simpl.
  destruct (get_blob octokit k) as [blob | e]; simpl; [| reflexivity].
  now destruct (post_blob octokit (content blob) (encoding blob)).
Qed.

Lemma batch_calls_eq sgcFiles entries : forall st,
  (forall k f, In (k, f) entries -> copyable octokit k) ->
  calls (batchProcess entries (copyBlob octokit sgcFiles) st) =
  flat_map (copyCalls octokit) entries.
Proof.
  induction entries as [|[k f] entries IH]; intros st Hall; simpl; [reflexivity|].
  rewrite calls_bind, copyBlob_calls_eq, copyBlob_outcome.
  destruct (Hall k f (or_introl eq_refl)) as (blob & newSha & Hb & Hp).
  rewrite Hb, Hp. f_equal. apply IH. intros k' f' H. apply (Hall k' f'). now right.
Qed.

Lemma collectUpdates_calls_eq inc files sgcTree :
  (forall k f, In (k, f) (blobEntriesOf files sgcTree) -> copyable octokit k) ->
  calls (collectUpdates octokit inc files sgcTree) =
  flat_map (copyCalls octokit) (blobEntriesOf files sgcTree).
Proof.
  intro Hall. unfold collectUpdates. rewrite calls_bind.
  assert (Hall' : forall k f,
            In (k, f) (blobsToFetch (diffPass (sgcFilesOf sgcTree)
                                              (sgcBlobShasOf sgcTree) files initLocals)) ->
            copyable octokit k).
  { intros k f. rewrite diffPass_blobsToFetch. apply Hall. }
  rewrite batch_calls_eq by exact Hall'.
  rewrite batch_succeeds by exact Hall'.
  rewrite diffPass_blobsToFetch. simpl. apply app_nil_r.
Qed.

Lemma no_blob_read_of_other_key entries k :
  ~ In k (Js.map_keys entries) ->
  filter (isBlobReadOf k) (flat_map (copyCalls octokit) entries) = [].
Proof.
  intro Hk. apply filter_none. intros c Hc. apply in_flat_map in Hc.
  destruct Hc as ([k' f'] & Hin & Hc).
  assert (Hne : String.eqb k' k = false).
  { apply String.eqb_neq. intros ->. apply Hk. unfold Js.map_keys.
    change k with (fst (k, f')). now apply in_map. }
  unfold copyCalls in Hc. cbn [fst] in Hc.
  destruct (get_blob octokit k') as [blob | e].
  - destruct Hc as [<- | [<- | []]]; [exact Hne | reflexivity].
  - destruct Hc as [<- | []]. exact Hne.
Qed.

Lemma one_blob_read_per_key entries : forall k f,
  NoDup (Js.map_keys entries) -> In (k, f) entries ->
  List.length (filter (isBlobReadOf k) (flat_map (copyCalls octokit) entries)) = 1.
Proof.
  induction entries as [|[k0 f0] entries IH]; intros k f Hnd Hin; [contradiction|].
  cbn [Js.map_keys map fst] in Hnd. apply NoDup_cons_iff in Hnd.
  destruct Hnd as [Hnot Hnd].
  cbn [flat_map]. rewrite filter_app, length_app.
  destruct Hin as [Heq | Hin].
  - injection Heq as -> ->.
    rewrite (@no_blob_read_of_other_key entries k Hnot).
    unfold copyCalls. cbn [fst].
    destruct (get_blob octokit k); cbn [filter isBlobReadOf];
      rewrite String.eqb_refl; reflexivity.
  - assert (Hne : String.eqb k0 k = false).
    { apply String.eqb_neq. intros ->. apply Hnot. unfold Js.map_keys.
      change k with (fst (k, f)). now apply in_map. }
    rewrite (IH k f Hnd Hin).
    unfold copyCalls. cbn [fst].
    destruct (get_blob octokit k0); cbn [filter isBlobReadOf];
      rewrite Hne; reflexivity.
Qed.

Lemma copied_blob_calls entries k f blob :
  In (k, f) entries -> get_blob octokit k = Ok blob ->
  In (GetBlob k) (flat_map (copyCalls octokit) entries) /\
  In (PostBlob (content blob) (encoding blob)) (flat_map (copyCalls octokit) entries).
Proof.
  intros Hin Hb. split; apply in_flat_map; exists (k, f); (split; [exact Hin|]);
    unfold copyCalls; cbn [fst]; rewrite Hb; simpl; tauto.
Qed.

End BlobCalls.

Section RunBlobCalls.

Variable octokit : Octokit.
Variable includeJsonFiles : bool.
Variable parent : Parent.
Variables parentSha sgcSha : string.
Variables parentTree sgcTree : list TreeItem.
Hypothesis parent_ref : get_ref octokit (parentName parent) = Ok parentSha.
Hypothesis sgc_ref : get_ref octokit (sgcBranch parent) = Ok sgcSha.
Hypothesis parent_listing : get_tree octokit parentSha = Ok parentTree.
Hypothesis sgc_listing : get_tree octokit sgcSha = Ok sgcTree.

Let inc := shouldIncludeJsonOf includeJsonFiles parent.
Let files := filter (shopifyFilter inc) parentTree.
Let run := updateSGCOnParentPush octokit includeJsonFiles parent.
Let entries := blobEntriesOf files sgcTree.

Hypothesis all_copyable : forall k f, In (k, f) entries -> copyable octokit k.

(** When every blob to copy can be copied, the run is the four reads, the
    blob calls of the entries of [blobsToFetch] in order, and then calls
    that are no blob reads. *)
Lemma run_calls_when_copyable :
  files <> [] ->
  exists rest,
    calls run =
      [GetRef (parentName parent); GetRef (sgcBranch parent); GetTree parentSha;
       GetTree sgcSha] ++
      flat_map (copyCalls octokit) entries ++ rest /\
    forall c, In c rest -> forall k, isBlobReadOf k c = false.
Proof.
  intro Hne. unfold run. rewrite run_calls.
  rewrite (attempt_calls octokit includeJsonFiles parent parent_ref sgc_ref
             parent_listing sgc_listing Hne).
  fold inc. fold files.
  rewrite (@collectUpdates_calls_eq octokit inc files sgcTree all_copyable).
  rewrite (@collectUpdates_succeeds octokit inc files sgcTree all_copyable).
  fold entries.
  eexists. split.
  - rewrite <- !app_assoc. reflexivity.
  - intros c Hc k. apply in_app_or in Hc. destruct Hc as [Hc | Hc].
    + apply commitUpdates_calls in Hc.
      destruct Hc as [_ [-> | [(m & t & ->) | (commit & ->)]]]; reflexivity.
    + destruct (outcome _) as [a | e]; [contradiction|].
      destruct (isConflict e); [| contradiction].
      destruct Hc as [<- | []]. reflexivity.
Qed.

Lemma run_blob_reads k :
  filter (isBlobReadOf k) (calls run) =
  filter (isBlobReadOf k) (flat_map (copyCalls octokit) entries).
Proof.
  assert (Hfiles : files = [] \/ files <> []).
  { destruct files; [now left | right; discriminate]. }
  destruct Hfiles as [E | Hne].
  - unfold run, updateSGCOnParentPush.
    rewrite (attempt_empty_source octokit includeJsonFiles parent parent_ref
               sgc_ref parent_listing E).
    unfold entries, blobEntriesOf. rewrite E. reflexivity.
  - destruct (run_calls_when_copyable Hne) as (rest & -> & Hrest).
    rewrite !filter_app. cbn [filter isBlobReadOf app].
    rewrite (filter_none (isBlobReadOf k) rest), app_nil_r; [reflexivity|].
    intros c Hc. now apply Hrest.
Qed.

Lemma run_has_blob_calls c :
  In c (flat_map (copyCalls octokit) entries) -> In c (calls run).
Proof.
  intro Hc.
  assert (Hne : files <> []).
  { intro E. unfold entries, blobEntriesOf in Hc. rewrite E in Hc. contradiction. }
  destruct (run_calls_when_copyable Hne) as (rest & -> & _).
  rewrite !in_app_iff. right; left. exact Hc.
Qed.

End RunBlobCalls.

(** C6: in a run that has read both tips and both listings, every blob read
    is for a sha that no file of [sgc-parent] has, and every blob created is
    the copy of a blob read from such a sha. A file that passes the filter,
    is not up to date and whose sha some file of [sgc-parent] has (under any
    path) is in the plan with that very sha, no blob read is issued for its
    sha, any tree the run writes has that entry, and the run does write the
    plan when every blob to copy can be copied. A file whose sha
    [sgc-parent] does not have gets, in such a run, exactly one blob read
    for its sha and the creation of the blob read. *)
Theorem C6_existing_objects_are_referenced :
  forall octokit includeJsonFiles parent parentSha sgcSha parentTree sgcTree,
    get_ref octokit (parentName parent) = Ok parentSha ->
    get_ref octokit (sgcBranch parent) = Ok sgcSha ->
    get_tree octokit parentSha = Ok parentTree ->
    get_tree octokit sgcSha = Ok sgcTree ->
    let inc := shouldIncludeJsonOf includeJsonFiles parent in
    let files := filter (shopifyFilter inc) parentTree in
    let plan := syncPlan inc parentTree sgcTree (copiedSha octokit) in
    let run := updateSGCOnParentPush octokit includeJsonFiles parent in
    let allCopyable :=
      forall k f, In (k, f) (blobEntriesOf files sgcTree) -> copyable octokit k in
    (forall s, In (GetBlob s) (calls run) -> ~ In s (blobShas sgcTree)) /\
    (forall c e, In (PostBlob c e) (calls run) ->
       exists s, ~ In s (blobShas sgcTree) /\ get_blob octokit s = Ok (mkBlob c e)) /\
    (forall base tree f,
       In (PostTree base tree) (calls run) ->
       In f files -> upToDate (sgcFilesOf sgcTree) f = false ->
       In (sha f) (blobShas sgcTree) ->
       In (putEntry (path f) (mode f) (sha f)) tree) /\
    (allCopyable -> plan <> [] -> In (PostTree sgcSha plan) (calls run)) /\
    (forall f,
       In f files -> upToDate (sgcFilesOf sgcTree) f = false ->
       In (sha f) (blobShas sgcTree) ->
       In (putEntry (path f) (mode f) (sha f)) plan /\
       filter (isBlobReadOf (sha f)) (calls run) = [] /\
       (allCopyable -> In (PostTree sgcSha plan) (calls run))) /\
    (allCopyable ->
     forall f,
       In f files -> upToDate (sgcFilesOf sgcTree) f = false ->
       ~ In (sha f) (blobShas sgcTree) ->
       exists blob,
         get_blob octokit (sha f) = Ok blob /\
         List.length (filter (isBlobReadOf (sha f)) (calls run)) = 1 /\
         In (PostBlob (content blob) (encoding blob)) (calls run)).
Proof.
  intros octokit includeJsonFiles parent parentSha sgcSha parentTree sgcTree
         Hp Hs Hpt Hst inc files plan run allCopyable.
  pose proof (run_call_cases octokit includeJsonFiles parent Hp Hs Hpt Hst)
    as Hcases.
  fold inc in Hcases. fold files in Hcases. fold run in Hcases. fold plan in Hcases.
  assert (Hreads : forall s, In (GetBlob s) (calls run) -> ~ In s (blobShas sgcTree)).
  { intros s H. apply Hcases in H.
    destruct H as [H | [H | [[H _] | [[m [t H]] | [[commit H] | H]]]]];
      try discriminate H.
    - simpl in H. intuition discriminate.
    - destruct H as (k & f & Hin & [H | (blob & _ & H)]); [| discriminate H].
      injection H as ->. eapply blobEntries_not_in_target; eauto. }
  assert (Hposts : allCopyable -> plan <> [] -> In (PostTree sgcSha plan) (calls run)).
  { intros Hall Hne. eapply run_posts_plan; eassumption. }
  split; [exact Hreads|]. split; [| split; [| split; [exact Hposts | split]]].
  - intros c e H. apply Hcases in H.
    destruct H as [H | [H | [[H _] | [[m [t H]] | [[commit H] | H]]]]];
      try discriminate H.
    + simpl in H. intuition discriminate.
    + destruct H as (k & f & Hin & [H | (blob & Hblob & H)]); [discriminate H|].
      injection H as -> ->. exists k. split.
      * eapply blobEntries_not_in_target; eauto.
      * rewrite Hblob. now destruct blob.
  - intros base tree f H Hf Hup Hsha. apply Hcases in H.
    destruct H as [H | [H | [[H _] | [[m [t H]] | [[commit H] | H]]]]];
      try discriminate H.
    + simpl in H. intuition discriminate.
    + destruct H as (k & g & _ & [H | (blob & _ & H)]); discriminate H.
    + injection H as _ ->. now apply reused_put_in_plan.
  - intros f Hf Hup Hsha.
    assert (Hput : In (putEntry (path f) (mode f) (sha f)) plan)
      by now apply reused_put_in_plan.
    split; [exact Hput | split].
    + apply filter_none. intros c Hc.
      destruct (isBlobReadOf (sha f) c) eqn:E; [| reflexivity].
      exfalso. destruct c; try discriminate E. simpl in E.
      apply String.eqb_eq in E. subst. exact (Hreads _ Hc Hsha).
    + intro Hall. apply Hposts; [exact Hall|].
      intro E. rewrite E in Hput. contradiction.
  - intros Hall f Hf Hup Hsha.
    assert (Hc : toCopy (sgcFilesOf sgcTree) (sgcBlobShasOf sgcTree) f = true).
    { unfold toCopy. rewrite Hup. simpl. apply negb_true_iff.
      apply set_has_not_In. intro H. apply Hsha.
      apply sgcBlobShas_has. now apply set_has_In. }
    destruct (@blobEntries_key files sgcTree f Hf Hc) as [g Hg].
    destruct (Hall _ _ Hg) as (blob & newSha & Hblob & _).
    exists blob. split; [exact Hblob | split].
    + unfold run.
      rewrite (@run_blob_reads octokit includeJsonFiles parent parentSha sgcSha
                 parentTree sgcTree Hp Hs Hpt Hst Hall).
      apply (@one_blob_read_per_key octokit (blobEntriesOf files sgcTree) (sha f) g);
        [| exact Hg].
      apply fetchMapOf_NoDup. constructor.
    + apply (@run_has_blob_calls octokit includeJsonFiles parent parentSha sgcSha
               parentTree sgcTree Hp Hs Hpt Hst Hall).
      now apply (@copied_blob_calls octokit _ _ g blob Hg Hblob).
Qed.

Lemma C6_existing_objects_are_referenced_witness :
  let octokit := store reuseSource reuseTarget in
  let files := filter (shopifyFilter false) reuseSource in
  let plan := syncPlan false reuseSource reuseTarget (copiedSha octokit) in
  let run := updateSGCOnParentPush octokit false Production in
  let allCopyable :=
    forall k f, In (k, f) (blobEntriesOf files reuseTarget) -> copyable octokit k in
  (forall s, In (GetBlob s) (calls run) -> ~ In s (blobShas reuseTarget)) /\
  (forall c e, In (PostBlob c e) (calls run) ->
     exists s, ~ In s (blobShas reuseTarget) /\ get_blob octokit s = Ok (mkBlob c e)) /\
  (forall base tree f,
     In (PostTree base tree) (calls run) ->
     In f files -> upToDate (sgcFilesOf reuseTarget) f = false ->
     In (sha f) (blobShas reuseTarget) ->
     In (putEntry (path f) (mode f) (sha f)) tree) /\
  (allCopyable -> plan <> [] -> In (PostTree "c-sgc-production" plan) (calls run)) /\
  (forall f,
     In f files -> upToDate (sgcFilesOf reuseTarget) f = false ->
     In (sha f) (blobShas reuseTarget) ->
     In (putEntry (path f) (mode f) (sha f)) plan /\
     filter (isBlobReadOf (sha f)) (calls run) = [] /\
     (allCopyable -> In (PostTree "c-sgc-production" plan) (calls run))) /\
  (allCopyable ->
   forall f,
     In f files -> upToDate (sgcFilesOf reuseTarget) f = false ->
     ~ In (sha f) (blobShas reuseTarget) ->
     exists blob,
       get_blob octokit (sha f) = Ok blob /\
       List.length (filter (isBlobReadOf (sha f)) (calls run)) = 1 /\
       In (PostBlob (content blob) (encoding blob)) (calls run)).
Proof.
  exact (C6_existing_objects_are_referenced
           (store reuseSource reuseTarget) false Production
           (parentSha := "c-production") (sgcSha := "c-sgc-production")
           eq_refl eq_refl eq_refl eq_refl).
Defined.


(** The run at that input: [templates/index.json] is dropped by the filter,
    [assets/a.css] is the file copied and put. *)
Example json_last_run :
  updateSGCOnParentPush (store jsonLastSource []) false Production =
  (Ok tt,
   [GetRef "production"; GetRef "sgc-production"; GetTree "c-production";
    GetTree "c-sgc-production"; GetBlob "x1"; PostBlob "x1" "base64";
    PostTree "c-sgc-production" [putEntry "assets/a.css" "100644" "x1"];
    PostCommit "Sync Shopify files from production (1 added)" "t-new"
               ["c-sgc-production"];
    PatchRef "sgc-production" "c-new" false]).
Proof. reflexivity. Qed.



(** ** The JSON flag *)

(** C10: for [staging] and [release] the filter flag is true whatever
    [includeJsonFiles] is: the filter keeps every blob of the eight folders,
    [.json] or not, no [.json] path is excluded from the deletion pass, and
    the whole run is the run with [includeJsonFiles = true]. In such a run a
    blob of the folders that is not up to date and shares its sha with no
    other file passes the filter and is put in the plan, which the run
    writes when every blob to copy can be copied. For [production] the flag
    is [includeJsonFiles] itself: the filter keeps a [.json] file other than
    [config/settings_schema.json] exactly when [includeJsonFiles] is true. *)
Theorem C10_json_flag_only_matters_for_production :
  forall octokit includeJsonFiles,
    (shouldIncludeJsonOf includeJsonFiles Staging = true /\
     shouldIncludeJsonOf includeJsonFiles Release = true /\
     shouldIncludeJsonOf includeJsonFiles Production = includeJsonFiles) /\
    (forall p, shouldExcludeJson (shouldIncludeJsonOf includeJsonFiles Staging) p = false /\
               shouldExcludeJson (shouldIncludeJsonOf includeJsonFiles Release) p = false) /\
    updateSGCOnParentPush octokit includeJsonFiles Staging =
      updateSGCOnParentPush octokit true Staging /\
    updateSGCOnParentPush octokit includeJsonFiles Release =
      updateSGCOnParentPush octokit true Release /\
    shopifyFilter (shouldIncludeJsonOf true Production)
                  (file "config/settings_data.json" "id2") <>
    shopifyFilter (shouldIncludeJsonOf false Production)
                  (file "config/settings_data.json" "id2") /\
    (forall item,
       shopifyFilter (shouldIncludeJsonOf includeJsonFiles Staging) item =
         inShopifyFolders item /\
       shopifyFilter (shouldIncludeJsonOf includeJsonFiles Release) item =
         inShopifyFolders item /\
       shopifyFilter (shouldIncludeJsonOf includeJsonFiles Production) item =
         inShopifyFolders item &&
         (includeJsonFiles || negb (Js.endsWith (path item) ".json") ||
          isSettingsSchema (path item))) /\
    (forall parent parentSha sgcSha parentTree sgcTree f,
       parent <> Production ->
       get_ref octokit (parentName parent) = Ok parentSha ->
       get_ref octokit (sgcBranch parent) = Ok sgcSha ->
       get_tree octokit parentSha = Ok parentTree ->
       get_tree octokit sgcSha = Ok sgcTree ->
       NoDup (blobPaths parentTree) ->
       In f parentTree -> inShopifyFolders f = true ->
       let inc := shouldIncludeJsonOf includeJsonFiles parent in
       let files := filter (shopifyFilter inc) parentTree in
       let plan := syncPlan inc parentTree sgcTree (copiedSha octokit) in
       In f files /\
       (upToDate (sgcFilesOf sgcTree) f = false ->
        (forall g, In g files -> sha g = sha f -> g = f) ->
        In (putEntry (path f) (mode f)
              (if Js.set_has (sha f) (sgcBlobShasOf sgcTree)
               then sha f else copiedSha octokit (sha f))) plan /\
        ((forall k g, In (k, g) (blobEntriesOf files sgcTree) -> copyable octokit k) ->
         In (PostTree sgcSha plan)
            (calls (updateSGCOnParentPush octokit includeJsonFiles parent))))).
Proof.
  intros octokit includeJsonFiles.
  assert (Hs : shouldIncludeJsonOf includeJsonFiles Staging = true)
    by (unfold shouldIncludeJsonOf; simpl; now rewrite orb_true_r).
  assert (Hr : shouldIncludeJsonOf includeJsonFiles Release = true)
    by (unfold shouldIncludeJsonOf; simpl; now rewrite orb_true_r).
  assert (Hpr : shouldIncludeJsonOf includeJsonFiles Production = includeJsonFiles)
    by (unfold shouldIncludeJsonOf; simpl; now rewrite !orb_false_r).
  assert (Hall : forall item, shopifyFilter true item = inShopifyFolders item).
  { intro item. unfold shopifyFilter, inShopifyFolders, isNotJson.
    destruct (isBlob item); simpl; [now rewrite andb_true_r | reflexivity]. }
  split; [repeat split; assumption|].
  split; [intro p; now rewrite Hs, Hr|].
  split; [unfold updateSGCOnParentPush, updateSGCOnParentPush_try; now rewrite Hs|].
  split; [unfold updateSGCOnParentPush, updateSGCOnParentPush_try; now rewrite Hr|].
  split; [discriminate|].
  split.
  - intro item. rewrite Hs, Hr, Hpr, Hall. repeat split.
    unfold shopifyFilter, inShopifyFolders, isNotJson.
    now destruct (isBlob item).
  - intros parent parentSha sgcSha parentTree sgcTree f Hparent Hp Hsg Hpt Hst Hnd
           Hf Hfolder inc files plan.
    assert (Hinc : inc = true).
    { unfold inc. destruct parent; [exact Hs | contradiction | exact Hr]. }
    assert (Hff : In f files).
    { apply filter_In. split; [exact Hf|]. now rewrite Hinc, Hall. }
    split; [exact Hff|].
    intros Hup Hown.
    destruct (in_split _ _ Hff) as (pre & post & Hsplit).
    assert (Hpost : forall g, In g post -> sha g <> sha f).
    { intros g Hg Hsha.
      assert (Hgf : In g files).
      { rewrite Hsplit. apply in_or_app. right. now right. }
      assert (g = f) by now apply Hown. subst g.
      assert (Hnd' : NoDup files).
      { apply (NoDup_map_inv path). now apply shopifyFiles_NoDup. }
      rewrite Hsplit in Hnd'. apply NoDup_remove_2 in Hnd'.
      apply Hnd'. apply in_or_app. now right. }
    assert (Hput : In (putEntry (path f) (mode f)
                         (if Js.set_has (sha f) (sgcBlobShasOf sgcTree)
                          then sha f else copiedSha octokit (sha f))) plan).
    { exact (@last_stale_file_is_put inc parentTree sgcTree (copiedSha octokit)
               pre f post Hsplit Hpost Hup). }
    split; [exact Hput|].
    intro Hcopy.
    apply (@run_posts_plan octokit includeJsonFiles parent parentSha sgcSha
             parentTree sgcTree Hp Hsg Hpt Hst Hcopy).
    intro E. fold inc in E. fold plan in E. rewrite E in Hput. contradiction.
Qed.

Lemma C10_json_flag_only_matters_for_production_witness :
  let octokit := stagingStore fullSource staleTarget in
  let plan := syncPlan true fullSource staleTarget (copiedSha octokit) in
  In (file "config/settings_data.json" "id2")
     (filter (shopifyFilter (shouldIncludeJsonOf false Staging)) fullSource) /\
  In (putEntry "config/settings_data.json" "100644" "id2") plan /\
  In (PostTree "c-sgc-staging" plan)
     (calls (updateSGCOnParentPush octokit false Staging)).
Proof.
  destruct (C10_json_flag_only_matters_for_production
              (stagingStore fullSource staleTarget) false)
    as (_ & _ & _ & _ & _ & _ & Hrun).
  destruct (Hrun Staging "c-staging" "c-sgc-staging" fullSource staleTarget
              (file "config/settings_data.json" "id2"))
    as [Hfile Hsync].
  - discriminate.
  - reflexivity.
  - reflexivity.
  - reflexivity.
  - reflexivity.
  - unfold blobPaths, fullSource. simpl.
    repeat constructor; simpl; intuition discriminate.
  - simpl. tauto.
  - reflexivity.
  - split; [exact Hfile|].
    destruct Hsync as [Hput Hpost].
    + reflexivity.
    + intros g Hg Hsha. vm_compute in Hg.
      destruct Hg as [<- | [<- | []]]; [discriminate Hsha | reflexivity].
    + split; [exact Hput|]. apply Hpost.
      intros k g H. vm_compute in H. destruct H as [H | []].
      injection H as <- <-. exists (mkBlob "id2" "base64"), "id2".
      split; reflexivity.
Defined.

(** A sync of [staging] with [includeJsonFiles = false]: the stale
    [config/settings_data.json] is copied and put. *)
Example staging_json_run :
  updateSGCOnParentPush (stagingStore fullSource staleTarget) false Staging =
  (Ok tt,
   [GetRef "staging"; GetRef "sgc-staging"; GetTree "c-staging";
    GetTree "c-sgc-staging"; GetBlob "id2"; PostBlob "id2" "base64";
    PostTree "c-sgc-staging"
      [putEntry "config/settings_data.json" "100644" "id2";
       deleteEntry "extra/file.txt"];
    PostCommit "Sync Shopify files from staging (1 updated, 1 cleaned up)" "t-new"
               ["c-sgc-staging"];
    PatchRef "sgc-staging" "c-new" false]).
Proof. reflexivity. Qed.

(** The run of the witness: one blob read and one blob creation, for the
    sha that [sgc-production] does not have; the other file is referenced. *)
Example reuse_run :
  updateSGCOnParentPush (store reuseSource reuseTarget) false Production =
  (Ok tt,
   [GetRef "production"; GetRef "sgc-production"; GetTree "c-production";
    GetTree "c-sgc-production"; GetBlob "n1"; PostBlob "n1" "base64";
    PostTree "c-sgc-production"
      [putEntry "assets/copy-of-a.css" "100644" "id1";
       putEntry "snippets/new.liquid" "100644" "n1"];
    PostCommit "Sync Shopify files from production (2 added)" "t-new"
               ["c-sgc-production"];
    PatchRef "sgc-production" "c-new" false]).
Proof. reflexivity. Qed.

(** ** The shared-blob defect on the claims about the settings schema and
    about repeated runs *)

Lemma settings_schema_passes_filter inc item :
  isBlob item = true -> path item = "config/settings_schema.json" ->
  shopifyFilter inc item = true.
Proof.
  intros Hb Hp. unfold shopifyFilter, isNotJson, isSettingsSchema.
  rewrite Hb, Hp. simpl. now rewrite !orb_true_r.
Qed.

(** C1 at the failing input: with JSON exclusion active,
    [config/settings_schema.json] passes the filter and is absent from
    [sgc-production], yet the plan has no entry for it, whatever sha the
    store answers for the copied blob: [blobsToFetch] is keyed by sha and
    the later file with the same sha replaced it. The run writes a tree
    with the later file only. *)
Theorem C1_settings_schema_dropped_when_blob_shared :
  In (file "config/settings_schema.json" "x1")
     (filter (shopifyFilter false) schemaSource) /\
  ~ In "config/settings_schema.json" (blobPaths schemaTarget) /\
  (forall newBlobSha,
     syncPlan false schemaSource schemaTarget newBlobSha =
     [putEntry "snippets/schema.liquid" "100644" (newBlobSha "x1")]) /\
  updateSGCOnParentPush (store schemaSource schemaTarget) false Production =
  (Ok tt,
   [GetRef "production"; GetRef "sgc-production"; GetTree "c-production";
    GetTree "c-sgc-production"; GetBlob "x1"; PostBlob "x1" "base64";
    PostTree "c-sgc-production"
      [putEntry "snippets/schema.liquid" "100644" "x1"];
    PostCommit "Sync Shopify files from production (1 added)" "t-new"
               ["c-sgc-production"];
    PatchRef "sgc-production" "c-new" false]).
Proof.
  repeat split.
  - simpl. tauto.
  - simpl. intuition discriminate.
Qed.

(** C3 at the failing input: two files share a sha that [sgc-production]
    does not have. The first run puts only the later one; on the listing
    that results, the second run of the unchanged source is not empty: it
    puts the other file, and writes a tree, a commit and the ref. *)
Theorem C3_second_run_not_empty_when_blob_shared :
  let plan1 := syncPlan false sharedBlobSource sharedBlobTarget sameSha in
  let target2 := applyTreeUpdates sharedBlobTarget plan1 in
  updateSGCOnParentPush (store sharedBlobSource sharedBlobTarget) false Production =
  (Ok tt,
   [GetRef "production"; GetRef "sgc-production"; GetTree "c-production";
    GetTree "c-sgc-production"; GetBlob "x1"; PostBlob "x1" "base64";
    PostTree "c-sgc-production" plan1;
    PostCommit "Sync Shopify files from production (1 added)" "t-new"
               ["c-sgc-production"];
    PatchRef "sgc-production" "c-new" false]) /\
  plan1 = [putEntry "snippets/b.liquid" "100644" "x1"] /\
  target2 = [file "assets/theme.css" "t1"; file "snippets/b.liquid" "x1"] /\
  syncPlan false sharedBlobSource target2 sameSha =
    [putEntry "snippets/a.liquid" "100644" "x1"] /\
  updateSGCOnParentPush (store sharedBlobSource target2) false Production =
  (Ok tt,
   [GetRef "production"; GetRef "sgc-production"; GetTree "c-production";
    GetTree "c-sgc-production";
    PostTree "c-sgc-production" [putEntry "snippets/a.liquid" "100644" "x1"];
    PostCommit "Sync Shopify files from production (1 added)" "t-new"
               ["c-sgc-production"];
    PatchRef "sgc-production" "c-new" false]).
Proof.
  repeat split.
Qed.

(** ** Repeated runs when no two files share a new blob

    Apart from the shared-blob case, a second run on the unchanged source
    against the listing the first plan produces has nothing to do. *)

Section Overlay.

Lemma entriesAt_applyUpdate_same tree u :
  entriesAt (u_path u) (applyUpdate tree u) =
  match u_sha u with
  | Some s => [mkItem (u_path u) (u_mode u) (u_type u) s]
  | None => []
  end.
Proof.
  assert (Hothers :
    entriesAt (u_path u)
      (filter (fun item => negb (String.eqb (path item) (u_path u))) tree) = []).
  { unfold entriesAt. induction tree as [|item tree IH]; simpl; [reflexivity|].
    destruct (String.eqb_spec (path item) (u_path u)) as [Heq | Hne]; simpl.
    - exact IH.
    - destruct (String.eqb_spec (path item) (u_path u)); [contradiction | exact IH]. }
  unfold applyUpdate. destruct (u_sha u) as [s|]; [| exact Hothers].
  unfold entriesAt in *. rewrite filter_app, Hothers. simpl.
  now rewrite String.eqb_refl.
Qed.

Lemma entriesAt_applied updates : forall tree u,
  NoDup (map u_path updates) -> In u updates ->
  entriesAt (u_path u) (applyTreeUpdates tree updates) =
  match u_sha u with
  | Some s => [mkItem (u_path u) (u_mode u) (u_type u) s]
  | None => []
  end.
Proof.
  induction updates as [|u0 updates IH]; intros tree u Hnd Hin; [contradiction|].
  simpl in Hnd. inversion Hnd as [|? ? Hnot Hnd']; subst.
  change (applyTreeUpdates tree (u0 :: updates))
    with (applyTreeUpdates (applyUpdate tree u0) updates).
  destruct Hin as [-> | Hin].
  - rewrite applyTreeUpdates_untouched by exact Hnot.
    apply entriesAt_applyUpdate_same.
  - now apply IH.
Qed.

Lemma sgcFiles_get_fold p tree : forall acc acc',
  Js.map_get p acc = Js.map_get p acc' ->
  Js.map_get p
    (fold_left
       (fun m item => if isBlob item then Js.map_set (path item) (sha item) m else m)
       tree acc) =
  Js.map_get p
    (fold_left
       (fun m item => if isBlob item then Js.map_set (path item) (sha item) m else m)
       (entriesAt p tree) acc').
Proof.
  unfold entriesAt.
  induction tree as [|item tree IH]; intros acc acc' Hacc; simpl; [assumption|].
  destruct (String.eqb_spec (path item) p) as [Heq | Hne]; simpl.
  - apply IH. destruct (isBlob item); [| assumption].
    rewrite Heq. now rewrite !map_set_get_same.
  - apply IH. destruct (isBlob item); [| assumption].
    rewrite map_set_get_other by congruence. assumption.
Qed.

Lemma sgcFiles_get_entriesAt p tree :
  Js.map_get p (sgcFilesOf tree) = Js.map_get p (sgcFilesOf (entriesAt p tree)).
Proof. unfold sgcFilesOf. now apply sgcFiles_get_fold. Qed.

Lemma blobPaths_entriesAt p tree :
  In p (blobPaths tree) <-> exists item, In item (entriesAt p tree) /\ isBlob item = true.
Proof.
  unfold blobPaths, entriesAt. rewrite in_map_iff. split.
  - intros [item [Hp Hin]]. apply filter_In in Hin. exists item.
    split; [| tauto]. apply filter_In. split; [tauto|]. now apply String.eqb_eq.
  - intros [item [Hin Hb]]. apply filter_In in Hin. destruct Hin as [Hin Hp].
    apply String.eqb_eq in Hp. exists item. split; [assumption|].
    apply filter_In. tauto.
Qed.

End Overlay.

Section SecondRun.

Variable inc : bool.
Variables parentTree sgcTree : list TreeItem.
Hypothesis source_paths_unique : NoDup (blobPaths parentTree).

Let files := filter (shopifyFilter inc) parentTree.
Let plan1 := syncPlan inc parentTree sgcTree sameSha.
Let target2 := applyTreeUpdates sgcTree plan1.

Hypothesis no_shared_new_blob :
  forall f g, In f files -> In g files ->
    toCopy (sgcFilesOf sgcTree) (sgcBlobShasOf sgcTree) f = true ->
    toCopy (sgcFilesOf sgcTree) (sgcBlobShasOf sgcTree) g = true ->
    sha f = sha g -> f = g.

Lemma every_file_to_copy_has_an_entry f :
  In f files ->
  toCopy (sgcFilesOf sgcTree) (sgcBlobShasOf sgcTree) f = true ->
  In (sha f, f) (blobEntriesOf files sgcTree).
Proof.
  intros Hf Hc. apply map_get_In. unfold blobEntriesOf.
  assert (Hin : In f (filter (toCopy (sgcFilesOf sgcTree) (sgcBlobShasOf sgcTree)) files))
    by (apply filter_In; tauto).
  destruct (in_split _ _ Hin) as (pre & post & Hsplit).
  rewrite Hsplit. apply fetchMapOf_get_last.
  intros g Hg Hsha.
  assert (Hg' : In g (filter (toCopy (sgcFilesOf sgcTree) (sgcBlobShasOf sgcTree)) files)).
  { rewrite Hsplit. apply in_or_app. right. now right. }
  apply filter_In in Hg'. destruct Hg' as [Hg1 Hg2].
  assert (g = f) by (apply no_shared_new_blob; assumption). subst g.
  assert (Hnd : NoDup (filter (toCopy (sgcFilesOf sgcTree) (sgcBlobShasOf sgcTree)) files)).
  { apply NoDup_filter. apply (NoDup_map_inv path). now apply shopifyFiles_NoDup. }
  rewrite Hsplit in Hnd. apply NoDup_remove_2 in Hnd.
  apply Hnd. apply in_or_app. now right.
Qed.

Lemma stale_file_is_put f :
  In f files -> upToDate (sgcFilesOf sgcTree) f = false ->
  In (putEntry (path f) (mode f) (sha f)) plan1.
Proof.
  intros Hf Hup.
  destruct (Js.set_has (sha f) (sgcBlobShasOf sgcTree)) eqn:Hs.
  - apply reused_put_in_plan; [assumption | assumption |].
    now apply sgcBlobShas_has.
  - unfold plan1.
    rewrite syncPlan_blocks by (intro E; fold files in E; rewrite E in Hf; contradiction).
    rewrite !in_app_iff. right; left. unfold copyPuts.
    change (putEntry (path f) (mode f) (sha f)) with (putOfCopy sameSha (sha f, f)).
    apply in_map. apply every_file_to_copy_has_an_entry; [assumption|].
    unfold toCopy. now rewrite Hup, Hs.
Qed.

Lemma plan1_entry_cases u :
  In u plan1 ->
  (isPut u = true /\ In (u_path u) (map path files)) \/ u_sha u = None.
Proof.
  unfold plan1. intro H.
  assert (Hne : files <> []).
  { intro E. unfold files in E. rewrite syncPlan_empty_source in H by exact E.
    contradiction. }
  rewrite syncPlan_blocks in H by exact Hne. fold files in H.
  rewrite !in_app_iff in H. destruct H as [H | [H | [H | H]]].
  - left. unfold reusePuts in H. apply in_map_iff in H.
    destruct H as (f & <- & Hf). apply filter_In in Hf. split; [reflexivity|].
    simpl. apply in_map. tauto.
  - left. unfold copyPuts in H. apply in_map_iff in H.
    destruct H as ([k f] & <- & Hf). apply blobEntries_In in Hf.
    split; [reflexivity|]. simpl. apply in_map. tauto.
  - right. unfold deletions in H. apply in_map_iff in H.
    now destruct H as (p & <- & _).
  - right. unfold cleanups in H. apply in_map_iff in H.
    now destruct H as (p & <- & _).
Qed.

Lemma every_file_up_to_date_after f :
  In f files -> upToDate (sgcFilesOf target2) f = true.
Proof.
  intro Hf. unfold upToDate. rewrite sgcFiles_get_entriesAt.
  destruct (upToDate (sgcFilesOf sgcTree) f) eqn:Hup.
  - unfold target2. rewrite applyTreeUpdates_untouched.
    + rewrite <- sgcFiles_get_entriesAt. exact Hup.
    + pose proof Hf as Hf'. apply filter_In in Hf'. destruct Hf' as [Hin Hflt].
      apply shopifyFilter_true in Hflt.
      apply up_to_date_path_not_in_plan; tauto.
  - pose proof (stale_file_is_put f Hf Hup) as Hput.
    assert (He : entriesAt (path f) target2 =
                 [mkItem (path f) (mode f) "blob" (sha f)]).
    { apply (@entriesAt_applied plan1 sgcTree (putEntry (path f) (mode f) (sha f)));
        [now apply plan_paths_NoDup | exact Hput]. }
    rewrite He. simpl. rewrite String.eqb_refl. apply String.eqb_refl.
Qed.

Lemma target2_blob_path_cases p :
  In p (blobPaths target2) ->
  In p (map path files) \/ (In p (blobPaths sgcTree) /\ ~ In p (map u_path plan1)).
Proof.
  intro H. apply blobPaths_entriesAt in H. destruct H as (item & Hitem & Hb).
  destruct (in_dec string_dec p (map u_path plan1)) as [Hin | Hnot].
  - apply in_map_iff in Hin. destruct Hin as (u & <- & Hu).
    unfold target2 in Hitem.
    rewrite entriesAt_applied in Hitem; [| now apply plan_paths_NoDup | exact Hu].
    destruct (plan1_entry_cases u Hu) as [[_ Hp] | Hnone]; [now left|].
    rewrite Hnone in Hitem. contradiction.
  - right. split; [| exact Hnot].
    unfold target2 in Hitem. rewrite applyTreeUpdates_untouched in Hitem by exact Hnot.
    apply blobPaths_entriesAt. now exists item.
Qed.

(** Without files sharing a new blob, and with the store answering the sha
    of the blob it copies, the plan of the second run is empty. *)
Theorem second_plan_empty_without_shared_new_blob :
  syncPlan inc parentTree target2 sameSha = [].
Proof.
  assert (Hfiles : files = [] \/ files <> []).
  { destruct files; [now left | right; discriminate]. }
  destruct Hfiles as [E | Hne]; [now apply syncPlan_empty_source|].
  rewrite syncPlan_blocks by exact Hne. fold files.
  assert (Hplan1 : plan1 =
            reusePuts files sgcTree ++ copyPuts files sgcTree sameSha ++
            deletions inc files sgcTree ++ cleanups sgcTree).
  { unfold plan1. now rewrite syncPlan_blocks by exact Hne. }
  assert (H1 : reusePuts files target2 = []).
  { unfold reusePuts. rewrite filter_none; [reflexivity|].
    intros f Hf. unfold reusable. now rewrite every_file_up_to_date_after. }
  assert (H2 : copyPuts files target2 sameSha = []).
  { unfold copyPuts, blobEntriesOf. rewrite filter_none; [reflexivity|].
    intros f Hf. unfold toCopy. now rewrite every_file_up_to_date_after. }
  assert (H3 : deletions inc files target2 = []).
  { unfold deletions. rewrite filter_none; [reflexivity|].
    intros p Hp. apply sgcFiles_keys in Hp.
    destruct (deletable inc (parentFilePathsOf files) p) eqn:Hd; [| reflexivity].
    exfalso. unfold deletable in Hd.
    rewrite !andb_true_iff, !negb_true_iff, set_has_not_In in Hd.
    destruct Hd as [[Hin Hex] Hnot].
    assert (Hnot' : ~ In p (map path files)).
    { intro H. apply Hnot. apply set_has_In. now apply parentFilePaths_has. }
    apply target2_blob_path_cases in Hp. destruct Hp as [Hp | [Hp Hfresh]];
      [contradiction|].
    apply Hfresh. rewrite Hplan1, !map_app, !in_app_iff. right; right; left.
    apply deletions_path. tauto. }
  assert (H4 : cleanups target2 = []).
  { unfold cleanups. rewrite filter_none; [reflexivity|].
    intros p Hp. apply sgcFiles_keys in Hp.
    unfold outOfScope. destruct (isInShopifyFolder p) eqn:Hin; [reflexivity|].
    exfalso. apply target2_blob_path_cases in Hp. destruct Hp as [Hp | [Hp Hfresh]].
    - apply in_map_iff in Hp. destruct Hp as (f & <- & Hf).
      apply shopifyFiles_in_scope in Hf. congruence.
    - apply Hfresh. rewrite Hplan1, !map_app, !in_app_iff. right; right; right.
      apply cleanups_path. tauto. }
  now rewrite H1, H2, H3, H4.
Qed.

End SecondRun.

(** The run behind the counterexample of C2: nothing of the parent listing
    passes the filter, the run stops after three reads and leaves
    [extra/file.txt] in place. *)
Example empty_source_run :
  updateSGCOnParentPush (store docsOnlySource staleTarget) false Production =
  (Ok tt, [GetRef "production"; GetRef "sgc-production"; GetTree "c-production"]).
Proof. reflexivity. Qed.

(** ** More on the plan of [updateSGCOnParentPush] *)

Lemma second_plan_empty_without_shared_new_blob_witness :
  syncPlan false reuseSource
    (applyTreeUpdates reuseTarget (syncPlan false reuseSource reuseTarget sameSha))
    sameSha = [].
Proof.
  apply second_plan_empty_without_shared_new_blob.
  - unfold blobPaths, reuseSource. simpl.
    repeat constructor; simpl; intuition discriminate.
  - intros f g Hf Hg Hcf Hcg _. simpl in Hf, Hg.
    destruct Hf as [<- | [<- | [<- | []]]];
      destruct Hg as [<- | [<- | [<- | []]]];
      try reflexivity; vm_compute in Hcf, Hcg; discriminate.
Defined.

Lemma unwanted_target_file_is_deleted inc parentTree sgcTree newBlobSha p :
  filter (shopifyFilter inc) parentTree <> [] ->
  In p (blobPaths sgcTree) ->
  (isInShopifyFolder p = false \/
   (shouldExcludeJson inc p = false /\
    ~ In p (map path (filter (shopifyFilter inc) parentTree)))) ->
  In (deleteEntry p) (syncPlan inc parentTree sgcTree newBlobSha).
Proof.
  intros Hne Hin Hcase. rewrite syncPlan_blocks by exact Hne.
  rewrite !in_app_iff.
  destruct (isInShopifyFolder p) eqn:Hfolder.
  - destruct Hcase as [Hc | [Hex Hnot]]; [discriminate|].
    right; right; left. unfold deletions. apply in_map. apply filter_In.
    split; [now apply sgcFiles_keys|].
    unfold deletable. rewrite Hfolder, Hex. simpl.
    apply negb_true_iff. apply set_has_not_In. intro H.
    apply Hnot. apply parentFilePaths_has. now apply set_has_In.
  - right; right; right. unfold cleanups. apply in_map. apply filter_In.
    split; [now apply sgcFiles_keys|].
    unfold outOfScope. now rewrite Hfolder.
Qed.

(** What the plan deletes: exactly the files of [sgc-parent] that are
    outside the eight folders, or inside them, not excluded by the JSON
    policy and absent from the files to sync; and only when there is a file
    to sync at all. *)
Theorem plan_deletes_exactly_stale_and_foreign_files :
  forall inc parentTree sgcTree newBlobSha p,
    let files := filter (shopifyFilter inc) parentTree in
    In (deleteEntry p) (syncPlan inc parentTree sgcTree newBlobSha) <->
    files <> [] /\ In p (blobPaths sgcTree) /\
    (isInShopifyFolder p = false \/
     (shouldExcludeJson inc p = false /\ ~ In p (map path files))).
Proof.
  intros inc parentTree sgcTree newBlobSha p files.
  assert (Hfiles : files = [] \/ files <> []).
  { destruct files; [now left | right; discriminate]. }
  destruct Hfiles as [E | Hne].
  - unfold files in E. rewrite syncPlan_empty_source by exact E.
    fold files in E. split; [intros [] | intros [H _]; contradiction].
  - split.
    + rewrite syncPlan_blocks by exact Hne. fold files.
      rewrite !in_app_iff. intros [H | [H | [H | H]]].
      * unfold reusePuts in H. apply in_map_iff in H.
        destruct H as (f & Heq & _). discriminate Heq.
      * unfold copyPuts in H. apply in_map_iff in H.
        destruct H as (e & Heq & _). discriminate Heq.
      * assert (Hp : In p (map u_path (deletions inc files sgcTree))).
        { change p with (u_path (deleteEntry p)). now apply in_map. }
        apply deletions_path in Hp. tauto.
      * assert (Hp : In p (map u_path (cleanups sgcTree))).
        { change p with (u_path (deleteEntry p)). now apply in_map. }
        apply cleanups_path in Hp. tauto.
    + intros (_ & Hin & Hcase).
      now apply unwanted_target_file_is_deleted.
Qed.

(** What the plan puts: only files that pass the filter and are not up to
    date in [sgc-parent], at their own path and with their own mode; the
    sha is the file's when some file of [sgc-parent] has it, and the sha
    answered for the copy otherwise. *)
Theorem plan_puts_only_stale_source_files :
  forall inc parentTree sgcTree newBlobSha u,
    In u (syncPlan inc parentTree sgcTree newBlobSha) ->
    isPut u = true ->
    exists f,
      In f parentTree /\ shopifyFilter inc f = true /\
      upToDate (sgcFilesOf sgcTree) f = false /\
      u_path u = path f /\ u_mode u = mode f /\
      u_sha u = Some (if Js.set_has (sha f) (sgcBlobShasOf sgcTree)
                      then sha f else newBlobSha (sha f)).
Proof.
  intros inc parentTree sgcTree newBlobSha u Hin Hput.
  set (files := filter (shopifyFilter inc) parentTree).
  assert (Hne : files <> []).
  { intro E. unfold files in E. rewrite syncPlan_empty_source in Hin by exact E.
    contradiction. }
  rewrite syncPlan_blocks in Hin by exact Hne. fold files in Hin.
  rewrite !in_app_iff in Hin. destruct Hin as [H | [H | [H | H]]].
  - unfold reusePuts in H. apply in_map_iff in H. destruct H as (f & <- & Hf).
    apply filter_In in Hf. destruct Hf as [Hf Hr].
    apply filter_In in Hf. unfold reusable in Hr. apply andb_true_iff in Hr.
    destruct Hr as [Hup Hs]. apply negb_true_iff in Hup.
    exists f. simpl. rewrite Hs. tauto.
  - unfold copyPuts in H. apply in_map_iff in H. destruct H as ([k f] & <- & He).
    apply blobEntries_In in He. destruct He as (Hf & <- & Hc).
    apply filter_In in Hf. unfold toCopy in Hc. apply andb_true_iff in Hc.
    destruct Hc as [Hup Hs]. apply negb_true_iff in Hup, Hs.
    exists f. simpl. rewrite Hs. tauto.
  - unfold deletions in H. apply in_map_iff in H. destruct H as (q & <- & _).
    discriminate Hput.
  - unfold cleanups in H. apply in_map_iff in H. destruct H as (q & <- & _).
    discriminate Hput.
Qed.

Lemma plan_puts_only_stale_source_files_witness :
  exists f,
    In f reuseSource /\ shopifyFilter false f = true /\
    upToDate (sgcFilesOf reuseTarget) f = false /\
    "assets/copy-of-a.css" = path f /\ "100644" = mode f /\
    Some "id1" = Some (if Js.set_has (sha f) (sgcBlobShasOf reuseTarget)
                       then sha f else sameSha (sha f)).
Proof.
  apply (plan_puts_only_stale_source_files false reuseSource reuseTarget sameSha
           (putEntry "assets/copy-of-a.css" "100644" "id1")).
  - simpl. tauto.
  - reflexivity.
Defined.

(** The listing after the plan is applied, when no two files share a new
    blob and the store answers the copied blob's sha: every file to sync is
    listed with the parent's sha, and the files listed are exactly the
    files to sync and the files of the eight folders that the JSON policy
    excludes and [sgc-parent] already had. *)
Theorem applied_plan_mirrors_source :
  forall inc parentTree sgcTree,
    NoDup (blobPaths parentTree) ->
    let files := filter (shopifyFilter inc) parentTree in
    (forall f g, In f files -> In g files ->
       toCopy (sgcFilesOf sgcTree) (sgcBlobShasOf sgcTree) f = true ->
       toCopy (sgcFilesOf sgcTree) (sgcBlobShasOf sgcTree) g = true ->
       sha f = sha g -> f = g) ->
    files <> [] ->
    let after := applyTreeUpdates sgcTree (syncPlan inc parentTree sgcTree sameSha) in
    (forall f, In f files -> Js.map_get (path f) (sgcFilesOf after) = Some (sha f)) /\
    (forall p, In p (blobPaths after) <->
               In p (map path files) \/
               (In p (blobPaths sgcTree) /\ isInShopifyFolder p = true /\
                shouldExcludeJson inc p = true)).
Proof.
  intros inc parentTree sgcTree Hnd files Hshare Hne after.
  assert (Hlisted : forall f, In f files ->
            Js.map_get (path f) (sgcFilesOf after) = Some (sha f)).
  { intros f Hf.
    pose proof (every_file_up_to_date_after inc parentTree sgcTree Hnd Hshare f Hf)
      as Hup.
    fold after in Hup. unfold upToDate in Hup.
    destruct (Js.map_get (path f) (sgcFilesOf after)) as [s|]; [| discriminate].
    apply String.eqb_eq in Hup. now subst. }
  split; [exact Hlisted|].
  intro p. split.
  - intro H.
    apply (target2_blob_path_cases inc parentTree sgcTree Hnd) in H.
    fold files in H. destruct H as [H | [Hin Hfresh]]; [now left|].
    destruct (in_dec string_dec p (map path files)) as [Hp | Hp]; [now left|].
    right. split; [exact Hin|].
    destruct (isInShopifyFolder p) eqn:Hfolder.
    + split; [reflexivity|].
      destruct (shouldExcludeJson inc p) eqn:Hex; [reflexivity|].
      exfalso. apply Hfresh. change p with (u_path (deleteEntry p)).
      apply in_map. apply unwanted_target_file_is_deleted;
        fold files; tauto.
    + exfalso. apply Hfresh. change p with (u_path (deleteEntry p)).
      apply in_map. apply unwanted_target_file_is_deleted;
        fold files; tauto.
  - intros [H | (Hin & Hfolder & Hex)].
    + apply in_map_iff in H. destruct H as (f & <- & Hf).
      apply sgcFiles_keys. apply map_has_In. unfold Js.map_has.
      now rewrite (Hlisted f Hf).
    + apply blobPaths_entriesAt. unfold after.
      rewrite applyTreeUpdates_untouched.
      * now apply blobPaths_entriesAt.
      * now apply excluded_path_not_in_plan.
Qed.

Lemma applied_plan_mirrors_source_witness :
  let files := filter (shopifyFilter false) fullSource in
  let after := applyTreeUpdates staleTarget
                 (syncPlan false fullSource staleTarget sameSha) in
  (forall f, In f files -> Js.map_get (path f) (sgcFilesOf after) = Some (sha f)) /\
  (forall p, In p (blobPaths after) <->
             In p (map path files) \/
             (In p (blobPaths staleTarget) /\ isInShopifyFolder p = true /\
              shouldExcludeJson false p = true)).
Proof.
  apply applied_plan_mirrors_source.
  - unfold blobPaths, fullSource. simpl.
    repeat constructor; simpl; intuition discriminate.
  - intros f g Hf Hg Hcf Hcg _. simpl in Hf, Hg.
    destruct Hf as [<- | []]. destruct Hg as [<- | []]. reflexivity.
  - discriminate.
Defined.

(** ** The counters of the summary *)

Section Counters.

Variable sgcFiles : Js.Map string.

Lemma counted_init : counted sgcFiles initLocals.
Proof. repeat split. Qed.

Lemma counted_put p m s st :
  counted sgcFiles st ->
  counted sgcFiles (countPut sgcFiles p (pushUpdate (putEntry p m s) st)).
Proof.
  intros (Ha & Hu & Hd & Hc). unfold counted, countPut, isAddition, isUpdate.
  destruct (Js.map_has p sgcFiles) eqn:Hhas; simpl;
    rewrite !filter_app, !length_app; simpl; rewrite Hhas; simpl;
    unfold isAddition, isUpdate in Ha, Hu; lia.
Qed.

Lemma counted_setBlobToFetch k f st :
  counted sgcFiles st -> counted sgcFiles (setBlobToFetch k f st).
Proof. intro H. exact H. Qed.

Lemma counted_deleted p st :
  isInShopifyFolder p = true ->
  counted sgcFiles st ->
  counted sgcFiles (countDeleted (pushUpdate (deleteEntry p) st)).
Proof.
  intros Hin (Ha & Hu & Hd & Hc). unfold counted. simpl.
  rewrite !filter_app, !length_app.
  unfold isDeletion, isCleanup, isAddition, isUpdate in *. simpl.
  rewrite Hin. simpl. lia.
Qed.

Lemma counted_cleanedUp p st :
  isInShopifyFolder p = false ->
  counted sgcFiles st ->
  counted sgcFiles (countCleanedUp (pushUpdate (deleteEntry p) st)).
Proof.
  intros Hin (Ha & Hu & Hd & Hc). unfold counted. simpl.
  rewrite !filter_app, !length_app.
  unfold isDeletion, isCleanup, isAddition, isUpdate in *. simpl.
  rewrite Hin. simpl. lia.
Qed.

Lemma counted_diffPass sgcBlobShas files : forall st,
  counted sgcFiles st -> counted sgcFiles (diffPass sgcFiles sgcBlobShas files st).
Proof.
  unfold diffPass. induction files as [|f files IH]; intros st H; simpl;
    [assumption|].
  apply IH. unfold diffStep.
  destruct (upToDate sgcFiles f); [assumption|].
  destruct (Js.set_has (sha f) sgcBlobShas);
    [now apply counted_put | now apply counted_setBlobToFetch].
Qed.

Lemma counted_copyFold newBlobSha entries : forall st,
  counted sgcFiles st ->
  counted sgcFiles (fold_left (copyStep newBlobSha sgcFiles) entries st).
Proof.
  induction entries as [|e entries IH]; intros st H; simpl; [assumption|].
  apply IH. unfold copyStep, recordCopied. now apply counted_put.
Qed.

Lemma counted_deletionPass inc parentFilePaths entries : forall st,
  counted sgcFiles st ->
  counted sgcFiles (deletionPass inc parentFilePaths entries st).
Proof.
  unfold deletionPass. induction entries as [|e entries IH]; intros st H; simpl;
    [assumption|].
  apply IH. unfold deletionStep.
  destruct (isInShopifyFolder (fst e)) eqn:Hin; simpl; [| assumption].
  destruct (shouldExcludeJson inc (fst e)); [assumption|].
  destruct (Js.set_has (fst e) parentFilePaths); simpl;
    [assumption | now apply counted_deleted].
Qed.

Lemma counted_cleanupPass entries : forall st,
  counted sgcFiles st -> counted sgcFiles (cleanupPass entries st).
Proof.
  unfold cleanupPass. induction entries as [|e entries IH]; intros st H; simpl;
    [assumption|].
  apply IH. unfold cleanupStep.
  destruct (isInShopifyFolder (fst e)) eqn:Hin; simpl; [assumption|].
  destruct (existsb _ (treeUpdates st)); simpl;
    [assumption | now apply counted_cleanedUp].
Qed.

Lemma kinds_partition (us : list TreeUpdate) :
  List.length (filter (isAddition sgcFiles) us) +
  List.length (filter (isUpdate sgcFiles) us) +
  List.length (filter isDeletion us) +
  List.length (filter isCleanup us) = List.length us.
Proof.
  induction us as [|u us IH]; simpl; [reflexivity|].
  unfold isAddition, isUpdate, isDeletion, isCleanup, isDelete in *.
  destruct (isPut u), (Js.map_has (u_path u) sgcFiles),
    (isInShopifyFolder (u_path u)); simpl; lia.
Qed.

End Counters.

(** The four counters that make the commit message count the entries
    collected: additions are the entries with a sha at a path [sgc-parent]
    does not have, updates those at a path it has, deletions and cleanups
    the entries with [sha: null] inside and outside the eight folders; their
    sum is the number of entries of the tree update. *)
Theorem summary_counts_the_tree_entries :
  forall inc files sgcTree newBlobSha,
    let st := syncLocals inc files sgcTree newBlobSha in
    counted (sgcFilesOf sgcTree) st /\
    filesAdded st + filesUpdated st + filesDeleted st + filesCleanedUp st =
    List.length (treeUpdates st).
Proof.
  intros inc files sgcTree newBlobSha st.
  assert (H : counted (sgcFilesOf sgcTree) st).
  { unfold st, syncLocals.
    apply counted_cleanupPass, counted_deletionPass, counted_copyFold,
      counted_diffPass, counted_init. }
  split; [exact H|].
  destruct H as (Ha & Hu & Hd & Hc). rewrite Ha, Hu, Hd, Hc.
  apply kinds_partition.
Qed.

(** ** Runs of [updateSGCOnParentPush] on any store *)

Section AnyStore.

Variable octokit : Octokit.
Variable includeJsonFiles : bool.
Variable parent : Parent.

Let run := updateSGCOnParentPush octokit includeJsonFiles parent.

(** Either both tips and both listings are read, or the run consists of
    reads and possibly the fallback merge. *)
Lemma run_reads_all_or_only_reads :
  (exists parentSha sgcSha parentTree sgcTree,
      get_ref octokit (parentName parent) = Ok parentSha /\
      get_ref octokit (sgcBranch parent) = Ok sgcSha /\
      get_tree octokit parentSha = Ok parentTree /\
      get_tree octokit sgcSha = Ok sgcTree) \/
  (forall c, In c (calls run) -> isRead c = true \/ isMerge c = true).
Proof.
  destruct (get_ref octokit (parentName parent)) as [parentSha | e1] eqn:E1.
  2: { right. intros c Hc. unfold run in Hc. rewrite run_calls in Hc.
       unfold updateSGCOnParentPush_try, rateLimitedRequest, requestGetRef in Hc.
       rewrite E1 in Hc. simpl in Hc. destruct (isConflict e1); simpl in Hc;
         intuition (subst; auto). }
  destruct (get_ref octokit (sgcBranch parent)) as [sgcSha | e2] eqn:E2.
  2: { right. intros c Hc. unfold run in Hc. rewrite run_calls in Hc.
       unfold updateSGCOnParentPush_try, rateLimitedRequest, requestGetRef in Hc.
       rewrite E1 in Hc. simpl in Hc. rewrite E2 in Hc. simpl in Hc.
       destruct (isConflict e2); simpl in Hc; intuition (subst; auto). }
  destruct (get_tree octokit parentSha) as [parentTree | e3] eqn:E3.
  2: { right. intros c Hc. unfold run in Hc. rewrite run_calls in Hc.
       unfold updateSGCOnParentPush_try, rateLimitedRequest, requestGetRef,
         requestGetTree in Hc.
       rewrite E1 in Hc. simpl in Hc. rewrite E2 in Hc. simpl in Hc.
       rewrite E3 in Hc. simpl in Hc.
       destruct (isConflict e3); simpl in Hc; intuition (subst; auto). }
  destruct (get_tree octokit sgcSha) as [sgcTree | e4] eqn:E4.
  - left. exists parentSha, sgcSha, parentTree, sgcTree. tauto.
  - right. intros c Hc. unfold run in Hc. rewrite run_calls in Hc.
    unfold updateSGCOnParentPush_try, rateLimitedRequest, requestGetRef,
      requestGetTree in Hc.
    rewrite E1 in Hc. simpl in Hc. rewrite E2 in Hc. simpl in Hc.
    rewrite E3 in Hc. simpl in Hc.
    destruct (Nat.eqb _ 0); simpl in Hc.
    + intuition (subst; auto).
    + rewrite E4 in Hc. simpl in Hc.
      destruct (isConflict e4); simpl in Hc; intuition (subst; auto).
Qed.

Lemma commitUpdates_run sgcSha st :
  treeUpdates st <> [] ->
  commitUpdates octokit parent sgcSha st =
  match post_tree octokit sgcSha (treeUpdates st) with
  | Throw e => (Throw e, [PostTree sgcSha (treeUpdates st)])
  | Ok newTree =>
      match post_commit octokit (commitMessageOf parent st) newTree [sgcSha] with
      | Throw e =>
          (Throw e, [PostTree sgcSha (treeUpdates st);
                     PostCommit (commitMessageOf parent st) newTree [sgcSha]])
      | Ok newCommit =>
          (patch_ref octokit (sgcBranch parent) newCommit false,
           [PostTree sgcSha (treeUpdates st);
            PostCommit (commitMessageOf parent st) newTree [sgcSha];
            PatchRef (sgcBranch parent) newCommit false])
      end
  end.
Proof.
  intro Hne. unfold commitUpdates, rateLimitedRequest, requestPostTree,
    requestPostCommit, requestPatchRef.
  destruct (treeUpdates st) as [|u us] eqn:E; [congruence|].
  cbn [List.length Nat.eqb].
  destruct (post_tree octokit sgcSha (u :: us)) as [newTree | e]; simpl;
    [| reflexivity].
  destruct (post_commit octokit _ newTree [sgcSha]) as [newCommit | e]; simpl;
    [| reflexivity].
  now destruct (patch_ref octokit _ newCommit false).
Qed.

End AnyStore.

(** On any store, the [sgc-] branch is only ever moved, without [force], to
    a commit that the store created on top of the tip read at the start of
    the run, for the tree built from the plan on that tip, with the summary
    of the plan as message. *)
Theorem ref_moves_only_to_the_commit_of_the_plan :
  forall octokit includeJsonFiles parent branch commit force,
    In (PatchRef branch commit force)
       (calls (updateSGCOnParentPush octokit includeJsonFiles parent)) ->
    branch = sgcBranch parent /\ force = false /\
    exists parentSha sgcSha parentTree sgcTree newTree,
      get_ref octokit (parentName parent) = Ok parentSha /\
      get_ref octokit (sgcBranch parent) = Ok sgcSha /\
      get_tree octokit parentSha = Ok parentTree /\
      get_tree octokit sgcSha = Ok sgcTree /\
      let inc := shouldIncludeJsonOf includeJsonFiles parent in
      let files := filter (shopifyFilter inc) parentTree in
      let st := syncLocals inc files sgcTree (copiedSha octokit) in
      files <> [] /\ treeUpdates st <> [] /\
      post_tree octokit sgcSha (treeUpdates st) = Ok newTree /\
      post_commit octokit (commitMessageOf parent st) newTree [sgcSha] = Ok commit.
Proof.
  intros octokit includeJsonFiles parent branch commit force Hin.
  destruct (run_reads_all_or_only_reads octokit includeJsonFiles parent)
    as [(parentSha & sgcSha & parentTree & sgcTree & Hp & Hs & Hpt & Hst) | Honly].
  2: { apply Honly in Hin. simpl in Hin. intuition discriminate. }
  rewrite run_calls, in_app_iff in Hin. destruct Hin as [Hin | Hin].
  2: { destruct (outcome _) as [a | e]; [contradiction|].
       destruct (isConflict e); simpl in Hin; intuition discriminate. }
  set (inc := shouldIncludeJsonOf includeJsonFiles parent).
  set (files := filter (shopifyFilter inc) parentTree).
  assert (Hfiles : files = [] \/ files <> []).
  { destruct files; [now left | right; discriminate]. }
  destruct Hfiles as [E | Hne].
  { rewrite (attempt_empty_source octokit includeJsonFiles parent Hp Hs Hpt E)
      in Hin.
    simpl in Hin. intuition discriminate. }
  rewrite (attempt_calls octokit includeJsonFiles parent Hp Hs Hpt Hst Hne) in Hin.
  fold inc in Hin. fold files in Hin.
  rewrite !in_app_iff in Hin. destruct Hin as [Hin | [Hin | Hin]].
  { simpl in Hin. intuition discriminate. }
  { apply collectUpdates_calls in Hin.
    destruct Hin as (k & f & _ & [H | (blob & _ & H)]); discriminate H. }
  destruct (outcome (collectUpdates octokit inc files sgcTree)) as [st | e] eqn:Eo;
    [| contradiction].
  apply collectUpdates_outcome_Ok in Eo. subst st.
  pose proof (commitUpdates_calls _ _ _ _ _ Hin) as [Hst' _].
  rewrite (commitUpdates_run octokit parent sgcSha _ Hst') in Hin.
  destruct (post_tree octokit sgcSha _) as [newTree | e] eqn:Et.
  2: { simpl in Hin. intuition discriminate. }
  destruct (post_commit octokit _ newTree [sgcSha]) as [newCommit | e] eqn:Ec.
  2: { simpl in Hin. intuition discriminate. }
  simpl in Hin. destruct Hin as [H | [H | [H | []]]]; try discriminate H.
  injection H as <- <- <-.
  repeat split.
  exists parentSha, sgcSha, parentTree, sgcTree, newTree.
  repeat split; assumption.
Qed.

Lemma ref_moves_only_to_the_commit_of_the_plan_witness :
  "sgc-production" = sgcBranch Production /\ false = false /\
  exists parentSha sgcSha parentTree sgcTree newTree,
    get_ref (store reuseSource reuseTarget) (parentName Production) = Ok parentSha /\
    get_ref (store reuseSource reuseTarget) (sgcBranch Production) = Ok sgcSha /\
    get_tree (store reuseSource reuseTarget) parentSha = Ok parentTree /\
    get_tree (store reuseSource reuseTarget) sgcSha = Ok sgcTree /\
    let inc := shouldIncludeJsonOf false Production in
    let files := filter (shopifyFilter inc) parentTree in
    let st := syncLocals inc files sgcTree (copiedSha (store reuseSource reuseTarget)) in
    files <> [] /\ treeUpdates st <> [] /\
    post_tree (store reuseSource reuseTarget) sgcSha (treeUpdates st) = Ok newTree /\
    post_commit (store reuseSource reuseTarget) (commitMessageOf Production st)
                newTree [sgcSha] = Ok "c-new".
Proof.
  apply (ref_moves_only_to_the_commit_of_the_plan
           (store reuseSource reuseTarget) false Production).
  simpl. tauto.
Defined.

(** On any store, a tree the run writes has no entry, put or delete, for a
    path of the eight folders that the JSON policy of the run excludes: with
    [includeJsonFiles = false] a production sync never touches a [.json]
    file of the folders other than [config/settings_schema.json]. *)
Theorem excluded_json_is_never_written :
  forall octokit includeJsonFiles parent base tree u,
    In (PostTree base tree)
       (calls (updateSGCOnParentPush octokit includeJsonFiles parent)) ->
    In u tree ->
    isInShopifyFolder (u_path u) = true ->
    shouldExcludeJson (shouldIncludeJsonOf includeJsonFiles parent) (u_path u) = false.
Proof.
  intros octokit includeJsonFiles parent base tree u Hin Hu Hfolder.
  destruct (run_reads_all_or_only_reads octokit includeJsonFiles parent)
    as [(parentSha & sgcSha & parentTree & sgcTree & Hp & Hs & Hpt & Hst) | Honly].
  2: { apply Honly in Hin. simpl in Hin. intuition discriminate. }
  apply (run_call_cases octokit includeJsonFiles parent Hp Hs Hpt Hst) in Hin.
  destruct Hin as [H | [H | [[H _] | [[m [t H]] | [[commit H] | H]]]]];
    try discriminate H.
  - simpl in H. intuition discriminate.
  - destruct H as (k & f & _ & [H | (blob & _ & H)]); discriminate H.
  - injection H as _ ->.
    destruct (shouldExcludeJson _ (u_path u)) eqn:Hex; [| reflexivity].
    exfalso.
    apply (@excluded_path_not_in_plan _ parentTree sgcTree (copiedSha octokit)
             (u_path u) Hfolder Hex).
    now apply in_map.
Qed.

Lemma excluded_json_is_never_written_witness :
  shouldExcludeJson (shouldIncludeJsonOf false Production)
                    "assets/copy-of-a.css" = false.
Proof.
  apply (@excluded_json_is_never_written (store reuseSource reuseTarget) false
           Production "c-sgc-production"
           [putEntry "assets/copy-of-a.css" "100644" "id1";
            putEntry "snippets/new.liquid" "100644" "n1"]
           (putEntry "assets/copy-of-a.css" "100644" "id1")).
  - simpl. tauto.
  - now left.
  - reflexivity.
Defined.

(** ** [syncToOneWayBranch] *)

Section MonadExt.

Variables A B : Type.

Lemma bind_ext (m1 m2 : M A) (k1 k2 : A -> M B) :
  m1 = m2 -> (forall a, k1 a = k2 a) -> bind m1 k1 = bind m2 k2.
Proof.
  intros -> Hk. destruct m2 as [[a | e] cs]; simpl; [| reflexivity].
  now rewrite Hk.
Qed.

Lemma tryCatch_ext (m1 m2 : M A) (h1 h2 : ApiError -> M A) :
  m1 = m2 -> (forall e, h1 e = h2 e) -> tryCatch m1 h1 = tryCatch m2 h2.
Proof.
  intros -> Hh. destruct m2 as [[a | e] cs]; simpl; [reflexivity|].
  now rewrite Hh.
Qed.

End MonadExt.

Lemma oneWayFilter_shopifyFilter item :
  oneWayFilter item = shopifyFilter true item.
Proof.
  unfold oneWayFilter, shopifyFilter, isNotJson. simpl.
  now rewrite andb_true_r.
Qed.

Lemma oneWayDeletionPass_deletionPass sourceFilePaths targetFiles : forall st,
  oneWayDeletionPass sourceFilePaths targetFiles st =
  deletionPass true sourceFilePaths targetFiles st.
Proof.
  unfold oneWayDeletionPass, deletionPass.
  induction targetFiles as [|e entries IH]; intro st; simpl; [reflexivity|].
  rewrite IH. reflexivity.
Qed.

Lemma collectOneWayUpdates_collectUpdates octokit files targetTree :
  collectOneWayUpdates octokit files targetTree =
  collectUpdates octokit true files targetTree.
Proof.
  unfold collectOneWayUpdates, collectUpdates.
  apply bind_ext; [reflexivity|].
  intro st. now rewrite oneWayDeletionPass_deletionPass.
Qed.

(** Called with a parent branch and its [sgc-] branch, the one-way sync is
    the parent sync with JSON files included: same requests in the same
    order, same messages, same outcome. *)
Theorem one_way_sync_is_the_json_inclusive_parent_sync :
  forall octokit parent,
    syncToOneWayBranch octokit (parentName parent) (sgcBranch parent) =
    updateSGCOnParentPush octokit true parent.
Proof.
  intros octokit parent.
  unfold syncToOneWayBranch, updateSGCOnParentPush.
  apply tryCatch_ext; [| reflexivity].
  unfold syncToOneWayBranch_try, updateSGCOnParentPush_try.
  apply bind_ext; [reflexivity | intro parentSha].
  apply bind_ext; [reflexivity | intro sgcSha].
  apply bind_ext; [reflexivity | intro parentTree].
  assert (Hfilter : filter oneWayFilter parentTree =
                    filter (shopifyFilter (shouldIncludeJsonOf true parent))
                           parentTree).
  { apply filter_ext. intro item. apply oneWayFilter_shopifyFilter. }
  rewrite Hfilter.
  destruct (Nat.eqb _ 0); [reflexivity|].
  apply bind_ext; [reflexivity | intro sgcTree].
  apply bind_ext; [apply collectOneWayUpdates_collectUpdates | intro st].
  reflexivity.
Qed.

Section OneWayRun.

Variable octokit : Octokit.
Variables sourceBranch targetBranch : string.

Let attempt := syncToOneWayBranch_try octokit sourceBranch targetBranch.
Let run := syncToOneWayBranch octokit sourceBranch targetBranch.
Let merge := PostMerges targetBranch sourceBranch
                        (oneWayFallbackMessage sourceBranch targetBranch).

Lemma oneWay_attempt_never_merges :
  allCalls (fun c => isMerge c = false) attempt.
Proof.
  unfold attempt, syncToOneWayBranch_try, collectOneWayUpdates,
    commitOneWayUpdates, requestGetRef, requestGetTree, requestGetBlob,
    requestPostBlob, requestPostTree, requestPostCommit, requestPatchRef.
  all_calls.
Qed.

Lemma oneWay_catch_outcome error :
  outcome (syncToOneWayBranch_catch octokit sourceBranch targetBranch error) = Ok tt.
Proof.
  unfold syncToOneWayBranch_catch, rateLimitedRequest, requestPostMerges.
  destruct (isConflict error); [| reflexivity].
  simpl. now destruct (post_merges octokit _ _ _) as [[] | e].
Qed.

Lemma oneWay_catch_calls error :
  calls (syncToOneWayBranch_catch octokit sourceBranch targetBranch error) =
  if isConflict error then [merge] else [].
Proof.
  unfold syncToOneWayBranch_catch, rateLimitedRequest, requestPostMerges.
  destruct (isConflict error); [| reflexivity].
  simpl. now destruct (post_merges octokit _ _ _) as [[] | e].
Qed.

Lemma oneWay_run_calls :
  calls run =
  calls attempt ++
  match outcome attempt with
  | Ok _ => []
  | Throw error => if isConflict error then [merge] else []
  end.
Proof.
  unfold run, syncToOneWayBranch. rewrite calls_tryCatch. fold attempt.
  destruct (outcome attempt); [reflexivity | now rewrite oneWay_catch_calls].
Qed.

Lemma oneWay_run_outcome : outcome run = Ok tt.
Proof.
  unfold run, syncToOneWayBranch. rewrite outcome_tryCatch.
  destruct (outcome _) as [[] | e]; [reflexivity | apply oneWay_catch_outcome].
Qed.

Lemma commitOneWayUpdates_calls targetSha st c :
  In c (calls (commitOneWayUpdates octokit sourceBranch targetBranch targetSha st)) ->
  treeUpdates st <> [] /\
  (c = PostTree targetSha (treeUpdates st) \/
   (exists m t, c = PostCommit m t [targetSha]) \/
   (exists commit, c = PatchRef targetBranch commit false)).
Proof.
  unfold commitOneWayUpdates, rateLimitedRequest, requestPostTree,
    requestPostCommit, requestPatchRef.
  destruct (treeUpdates st) as [|u us] eqn:E; simpl; [intros []|].
  intro H. split; [discriminate|].
  destruct (post_tree octokit targetSha (u :: us)) as [t | e]; simpl in H.
  - destruct (post_commit octokit _ t [targetSha]) as [commit | e]; simpl in H.
    + destruct H as [<- | [<- | [<- | []]]]; eauto.
    + destruct H as [<- | [<- | []]]; eauto.
  - destruct H as [<- | []]. now left.
Qed.

Lemma commitOneWayUpdates_posts_tree targetSha st :
  treeUpdates st <> [] ->
  In (PostTree targetSha (treeUpdates st))
     (calls (commitOneWayUpdates octokit sourceBranch targetBranch targetSha st)).
Proof.
  intro Hne. unfold commitOneWayUpdates.
  destruct (treeUpdates st) as [|u us] eqn:E; [congruence|].
  cbn [List.length Nat.eqb]. rewrite calls_bind. simpl. now left.
Qed.

Variables sourceSha targetSha : string.
Variables sourceTree targetTree : list TreeItem.
Hypothesis source_ref : get_ref octokit sourceBranch = Ok sourceSha.
Hypothesis target_ref : get_ref octokit targetBranch = Ok targetSha.
Hypothesis source_listing : get_tree octokit sourceSha = Ok sourceTree.
Hypothesis target_listing : get_tree octokit targetSha = Ok targetTree.

Let files := filter (shopifyFilter true) sourceTree.
Let collected := collectUpdates octokit true files targetTree.
Let plan := syncPlan true sourceTree targetTree (copiedSha octokit).

Lemma oneWay_files : filter oneWayFilter sourceTree = files.
Proof. apply filter_ext. intro item. apply oneWayFilter_shopifyFilter. Qed.

Lemma oneWay_attempt_empty_source :
  files = [] ->
  attempt = (Ok tt, [GetRef sourceBranch; GetRef targetBranch; GetTree sourceSha]).
Proof.
  intro E. unfold attempt, syncToOneWayBranch_try, rateLimitedRequest,
    requestGetRef, requestGetTree.
  rewrite source_ref. simpl. rewrite target_ref. simpl. rewrite source_listing.
  simpl. rewrite oneWay_files. now rewrite E.
Qed.

Lemma oneWay_attempt_calls :
  files <> [] ->
  calls attempt =
  [GetRef sourceBranch; GetRef targetBranch; GetTree sourceSha; GetTree targetSha] ++
  calls collected ++
  match outcome collected with
  | Ok st => calls (commitOneWayUpdates octokit sourceBranch targetBranch targetSha st)
  | Throw _ => []
  end.
Proof.
  intro Hne. unfold attempt, syncToOneWayBranch_try, rateLimitedRequest,
    requestGetRef, requestGetTree.
  rewrite source_ref. simpl. rewrite target_ref. simpl. rewrite source_listing.
  simpl. rewrite oneWay_files.
  assert (Hlen : Nat.eqb (List.length files) 0 = false).
  { destruct files; [congruence | reflexivity]. }
  rewrite Hlen. simpl. rewrite target_listing. simpl.
  rewrite collectOneWayUpdates_collectUpdates. fold collected.
  rewrite <- (calls_bind collected
                (fun st => commitOneWayUpdates octokit sourceBranch targetBranch
                                               targetSha st)).
  now destruct (bind collected _).
Qed.

Lemma oneWay_call_cases c :
  In c (calls run) ->
  In c [GetRef sourceBranch; GetRef targetBranch; GetTree sourceSha;
        GetTree targetSha]
  \/ blobCallFor octokit (blobEntriesOf files targetTree) c
  \/ (c = PostTree targetSha plan /\ plan <> [])
  \/ (exists m t, c = PostCommit m t [targetSha])
  \/ (exists commit, c = PatchRef targetBranch commit false)
  \/ c = merge.
Proof.
  rewrite oneWay_run_calls, in_app_iff. intros [H | H].
  - assert (Hfiles : files = [] \/ files <> []).
    { destruct files; [now left | right; discriminate]. }
    destruct Hfiles as [E | Hne].
    + rewrite (oneWay_attempt_empty_source E) in H. left. simpl in *. tauto.
    + rewrite (oneWay_attempt_calls Hne) in H.
      rewrite !in_app_iff in H. destruct H as [H | [H | H]].
      * now left.
      * right; left. now apply collectUpdates_calls in H.
      * destruct (outcome collected) as [st | e] eqn:Eo; [| contradiction].
        apply collectUpdates_outcome_Ok in Eo.
        apply commitOneWayUpdates_calls in H. destruct H as [Hst H].
        assert (Hplan : treeUpdates st = plan).
        { unfold plan. rewrite syncPlan_syncLocals by exact Hne. now subst st. }
        rewrite Hplan in *. tauto.
  - destruct (outcome attempt) as [a | e]; [contradiction|].
    destruct (isConflict e); [| contradiction].
    destruct H as [<- | []]. tauto.
Qed.

Lemma oneWay_posts_plan :
  (forall k f, In (k, f) (blobEntriesOf files targetTree) -> copyable octokit k) ->
  plan <> [] ->
  In (PostTree targetSha plan) (calls run).
Proof.
  intros Hall Hplan. rewrite oneWay_run_calls, in_app_iff. left.
  assert (Hne : files <> []).
  { intro E. apply Hplan. unfold plan. now apply syncPlan_empty_source. }
  rewrite (oneWay_attempt_calls Hne). rewrite !in_app_iff. right; right.
  unfold collected. rewrite collectUpdates_succeeds by exact Hall.
  assert (Heq : treeUpdates (syncLocals true files targetTree (copiedSha octokit))
                = plan).
  { unfold plan. now rewrite syncPlan_syncLocals by exact Hne. }
  rewrite <- Heq. apply commitOneWayUpdates_posts_tree. now rewrite Heq.
Qed.

End OneWayRun.

(** The one-way sync never fails: its attempt issues no merge; when the
    attempt fails with a conflict the run adds exactly one merge of the
    source branch into the target branch, for any other error nothing; and
    the call completes normally in every case. *)
Theorem one_way_sync_never_throws :
  forall octokit sourceBranch targetBranch,
    let attempt := syncToOneWayBranch_try octokit sourceBranch targetBranch in
    let run := syncToOneWayBranch octokit sourceBranch targetBranch in
    let merge := PostMerges targetBranch sourceBranch
                            (oneWayFallbackMessage sourceBranch targetBranch) in
    allCalls (fun c => isMerge c = false) attempt /\
    (forall error, outcome attempt = Throw error -> isConflict error = true ->
                   calls run = calls attempt ++ [merge]) /\
    (forall error, outcome attempt = Throw error -> isConflict error = false ->
                   calls run = calls attempt) /\
    outcome run = Ok tt.
Proof.
  intros octokit sourceBranch targetBranch attempt run merge.
  split; [apply oneWay_attempt_never_merges|].
  split; [| split].
  - intros error He Hc. unfold run. rewrite oneWay_run_calls. fold attempt.
    now rewrite He, Hc.
  - intros error He Hc. unfold run. rewrite oneWay_run_calls. fold attempt.
    rewrite He, Hc. apply app_nil_r.
  - apply oneWay_run_outcome.
Qed.

(** With both tips and both listings read, a tree the one-way run writes is
    written on the target tip and is the plan of a sync with JSON files
    included; it deletes every file of the target that is not a file of the
    eight folders in the source, [.json] files too; and the run does write
    that plan when every blob to copy can be copied. *)
Theorem one_way_sync_writes_the_mirror_plan :
  forall octokit sourceBranch targetBranch sourceSha targetSha sourceTree targetTree,
    get_ref octokit sourceBranch = Ok sourceSha ->
    get_ref octokit targetBranch = Ok targetSha ->
    get_tree octokit sourceSha = Ok sourceTree ->
    get_tree octokit targetSha = Ok targetTree ->
    let files := filter oneWayFilter sourceTree in
    let plan := syncPlan true sourceTree targetTree (copiedSha octokit) in
    let run := syncToOneWayBranch octokit sourceBranch targetBranch in
    (forall base tree, In (PostTree base tree) (calls run) ->
       base = targetSha /\ tree = plan /\ tree <> []) /\
    (forall base tree p, In (PostTree base tree) (calls run) ->
       In p (blobPaths targetTree) -> ~ In p (map path files) ->
       In (deleteEntry p) tree) /\
    ((forall k f, In (k, f) (blobEntriesOf files targetTree) -> copyable octokit k) ->
     plan <> [] -> In (PostTree targetSha plan) (calls run)).
Proof.
  intros octokit sourceBranch targetBranch sourceSha targetSha sourceTree
         targetTree Hs Ht Hst Htt files plan run.
  assert (Hfiles : files = filter (shopifyFilter true) sourceTree).
  { apply filter_ext. intro item. apply oneWayFilter_shopifyFilter. }
  assert (Hwritten : forall base tree, In (PostTree base tree) (calls run) ->
            base = targetSha /\ tree = plan /\ tree <> []).
  { intros base tree H.
    apply (oneWay_call_cases octokit sourceBranch targetBranch Hs Ht Hst Htt) in H.
    destruct H as [H | [H | [[H Hne] | [[m [t H]] | [[commit H] | H]]]]];
      try discriminate H.
    - simpl in H. intuition discriminate.
    - destruct H as (k & f & _ & [H | (blob & _ & H)]); discriminate H.
    - injection H as -> ->. tauto. }
  split; [exact Hwritten | split].
  - intros base tree p H Hp Hnot.
    destruct (Hwritten base tree H) as (_ & -> & Hne).
    apply unwanted_target_file_is_deleted; rewrite <- ?Hfiles.
    + intro E. apply Hne. unfold plan. apply syncPlan_empty_source.
      now rewrite <- Hfiles.
    + exact Hp.
    + destruct (isInShopifyFolder p); [right | now left].
      split; [reflexivity | exact Hnot].
  - rewrite Hfiles.
    apply (oneWay_posts_plan sourceBranch targetBranch Hs Ht Hst Htt).
Qed.

Lemma one_way_sync_writes_the_mirror_plan_witness :
  let octokit := oneWayStore fullSource staleTarget in
  let files := filter oneWayFilter fullSource in
  let plan := syncPlan true fullSource staleTarget (copiedSha octokit) in
  let run := syncToOneWayBranch octokit "production" "sgc-production-one-way" in
  (forall base tree, In (PostTree base tree) (calls run) ->
     base = "c-one-way" /\ tree = plan /\ tree <> []) /\
  (forall base tree p, In (PostTree base tree) (calls run) ->
     In p (blobPaths staleTarget) -> ~ In p (map path files) ->
     In (deleteEntry p) tree) /\
  ((forall k f, In (k, f) (blobEntriesOf files staleTarget) -> copyable octokit k) ->
   plan <> [] -> In (PostTree "c-one-way" plan) (calls run)).
Proof.
  exact (@one_way_sync_writes_the_mirror_plan
           (oneWayStore fullSource staleTarget) "production"
           "sgc-production-one-way" "c-production" "c-one-way" fullSource
           staleTarget eq_refl eq_refl eq_refl eq_refl).
Defined.

(** ** More on [updateReleaseOnStagingPush] *)

Section ReleaseRun.

Variable octokit : Octokit.

Lemma checkReleaseBranch_found releaseSha :
  get_ref octokit "release" = Ok releaseSha ->
  checkReleaseBranch octokit = (Ok (Some true), [GetRef "release"]).
Proof.
  intro H. unfold checkReleaseBranch, rateLimitedRequest, requestGetRef.
  now rewrite H.
Qed.

Lemma checkReleaseBranch_missing error :
  get_ref octokit "release" = Throw error ->
  status error = Some 404 ->
  checkReleaseBranch octokit = (Ok None, [GetRef "release"]).
Proof.
  intros H H404. unfold checkReleaseBranch, rateLimitedRequest, requestGetRef.
  rewrite H. simpl. now rewrite H404.
Qed.

Lemma checkReleaseBranch_failed error :
  get_ref octokit "release" = Throw error ->
  status error <> Some 404 ->
  checkReleaseBranch octokit = (Throw error, [GetRef "release"]).
Proof.
  intros H H404. unfold checkReleaseBranch, rateLimitedRequest, requestGetRef.
  rewrite H. simpl. destruct (status error) as [n|]; [| reflexivity].
  do 404 (destruct n as [|n]; [reflexivity|]).
  destruct n; [congruence | reflexivity].
Qed.

End ReleaseRun.

Lemma option_eq_dec_404 (o : option nat) : {o = Some 404} + {o <> Some 404}.
Proof.
  destruct o as [n|]; [| right; discriminate].
  destruct (Nat.eq_dec n 404) as [-> | Hne]; [now left | right; congruence].
Qed.

(** When [release] cannot be read, a 404 makes the run return normally
    after that single request, and any other error is thrown to the caller
    after that single request; nothing is written in either case. *)
Theorem release_missing_is_skipped_other_errors_are_thrown :
  forall octokit error,
    get_ref octokit "release" = Throw error ->
    (status error = Some 404 ->
     updateReleaseOnStagingPush octokit = (Ok tt, [GetRef "release"])) /\
    (status error <> Some 404 ->
     updateReleaseOnStagingPush octokit = (Throw error, [GetRef "release"])).
Proof.
  intros octokit error H. split; intro H404.
  - unfold updateReleaseOnStagingPush, updateReleaseOnStagingPush_try.
    now rewrite (checkReleaseBranch_missing octokit H H404).
  - unfold updateReleaseOnStagingPush, updateReleaseOnStagingPush_try.
    now rewrite (checkReleaseBranch_failed octokit H H404).
Qed.

Lemma release_missing_is_skipped_other_errors_are_thrown_witness :
  (status (mkError (Some 404) "Not Found") = Some 404 ->
   updateReleaseOnStagingPush (store fullSource staleTarget) =
     (Ok tt, [GetRef "release"])) /\
  (status (mkError (Some 404) "Not Found") <> Some 404 ->
   updateReleaseOnStagingPush (store fullSource staleTarget) =
     (Throw (mkError (Some 404) "Not Found"), [GetRef "release"])).
Proof.
  apply (release_missing_is_skipped_other_errors_are_thrown
           (store fullSource staleTarget)).
  reflexivity.
Defined.

(** The run of the release rebase completes normally in exactly three
    situations: [release] is missing (404); both tips are equal; or the
    tips differ and reading the staging commit, creating the rebase commit
    and updating the ref all succeeded. Every other failure reaches the
    caller. *)
Theorem release_rebase_completes_normally_iff :
  forall octokit,
    outcome (updateReleaseOnStagingPush octokit) = Ok tt <->
    (exists error, get_ref octokit "release" = Throw error /\
                   status error = Some 404) \/
    (exists tip, get_ref octokit "release" = Ok tip /\
                 get_ref octokit "staging" = Ok tip) \/
    (exists releaseSha stagingSha stagingTree rebaseCommit,
        get_ref octokit "release" = Ok releaseSha /\
        get_ref octokit "staging" = Ok stagingSha /\
        releaseSha <> stagingSha /\
        get_commit octokit stagingSha = Ok stagingTree /\
        post_commit octokit (rebaseMessage stagingSha) stagingTree [stagingSha]
          = Ok rebaseCommit /\
        patch_ref octokit "release" rebaseCommit true = Ok tt).
Proof.
  intro octokit.
  destruct (get_ref octokit "release") as [releaseSha | error] eqn:Hrel.
  2: { unfold updateReleaseOnStagingPush, updateReleaseOnStagingPush_try.
       destruct (option_eq_dec_404 (status error)) as [H404 | H404].
       - rewrite (checkReleaseBranch_missing octokit Hrel H404). simpl.
         split; [| reflexivity].
         intros _. left. now exists error.
       - rewrite (checkReleaseBranch_failed octokit Hrel H404). simpl.
         split; [discriminate|].
         intros [(e & [= <-] & He) | [(tip & Hd & _) | (r & s & t & c & Hd & _)]];
           [contradiction | discriminate | discriminate]. }
  unfold updateReleaseOnStagingPush, updateReleaseOnStagingPush_try.
  rewrite (checkReleaseBranch_found octokit Hrel).
  unfold rateLimitedRequest, requestGetRef, requestGetCommit, requestPostCommit,
    requestPatchRef.
  simpl. rewrite Hrel.
  destruct (get_ref octokit "staging") as [stagingSha | e] eqn:Hst; simpl.
  2: { split; [discriminate|].
       intros [(e' & Hd & _) | [(tip & _ & Hd) | (r & s & t & c & _ & Hd & _)]];
         discriminate. }
  destruct (String.eqb_spec releaseSha stagingSha) as [Heq | Hne]; simpl.
  { split; [| reflexivity]. intros _. right; left. exists releaseSha.
    split; [reflexivity | now subst]. }
  destruct (get_commit octokit stagingSha) as [stagingTree | e] eqn:Htree; simpl.
  2: { split; [discriminate|].
       intros [(e' & Hd & _) | [(tip & [= <-] & [= <-]) |
                                (r & s & t & c & _ & [= <-] & _ & Hd & _)]];
         [discriminate | contradiction | congruence]. }
  destruct (post_commit octokit (rebaseMessage stagingSha) stagingTree [stagingSha])
    as [rebaseCommit | e] eqn:Hcommit; simpl.
  2: { split; [discriminate|].
       intros [(e' & Hd & _) | [(tip & [= <-] & [= <-]) |
                  (r & s & t & c & _ & [= <-] & _ & Ht & Hd & _)]];
         [discriminate | contradiction | congruence]. }
  destruct (patch_ref octokit "release" rebaseCommit true) as [[] | e] eqn:Hpatch;
    simpl.
  - split; [| reflexivity]. intros _. right; right.
    exists releaseSha, stagingSha, stagingTree, rebaseCommit. tauto.
  - split; [discriminate|].
    intros [(e' & Hd & _) | [(tip & [= <-] & [= <-]) |
               (r & s & t & c & _ & [= <-] & _ & Ht & Hc & Hd)]];
      [discriminate | contradiction | congruence].
Qed.

(** On any store, [release] is the only branch the release rebase moves,
    always with [force: true], only when the tips differ, and only to a
    commit the store created with the staging tip's tree and the staging
    tip as its only parent. *)
Theorem release_moves_only_to_the_rebase_commit :
  forall octokit branch commit force,
    In (PatchRef branch commit force) (calls (updateReleaseOnStagingPush octokit)) ->
    branch = "release" /\ force = true /\
    exists releaseSha stagingSha stagingTree,
      get_ref octokit "release" = Ok releaseSha /\
      get_ref octokit "staging" = Ok stagingSha /\
      releaseSha <> stagingSha /\
      get_commit octokit stagingSha = Ok stagingTree /\
      post_commit octokit (rebaseMessage stagingSha) stagingTree [stagingSha]
        = Ok commit.
Proof.
  intros octokit branch commit force.
  destruct (get_ref octokit "release") as [releaseSha | error] eqn:Hrel.
  2: { unfold updateReleaseOnStagingPush, updateReleaseOnStagingPush_try.
       destruct (option_eq_dec_404 (status error)) as [H404 | H404].
       - rewrite (checkReleaseBranch_missing octokit Hrel H404). simpl.
         intuition discriminate.
       - rewrite (checkReleaseBranch_failed octokit Hrel H404). simpl.
         intuition discriminate. }
  unfold updateReleaseOnStagingPush, updateReleaseOnStagingPush_try.
  rewrite (checkReleaseBranch_found octokit Hrel).
  unfold rateLimitedRequest, requestGetRef, requestGetCommit, requestPostCommit,
    requestPatchRef.
  simpl. rewrite Hrel.
  destruct (get_ref octokit "staging") as [stagingSha | e] eqn:Hst; simpl.
  2: { intuition discriminate. }
  destruct (String.eqb_spec releaseSha stagingSha) as [Heq | Hne]; simpl.
  { intuition discriminate. }
  destruct (get_commit octokit stagingSha) as [stagingTree | e] eqn:Htree; simpl.
  2: { intuition discriminate. }
  destruct (post_commit octokit (rebaseMessage stagingSha) stagingTree [stagingSha])
    as [rebaseCommit | e] eqn:Hcommit; simpl.
  2: { intuition discriminate. }
  destruct (patch_ref octokit "release" rebaseCommit true) as [[] | e] eqn:Hpatch;
    simpl; intro H.
  - destruct H as [H | [H | [H | [H | [H | [H | []]]]]]]; try discriminate H.
    injection H as <- <- <-. repeat split.
    exists releaseSha, stagingSha, stagingTree. tauto.
  - destruct H as [H | [H | [H | [H | [H | [H | []]]]]]]; try discriminate H.
    injection H as <- <- <-. repeat split.
    exists releaseSha, stagingSha, stagingTree. tauto.
Qed.

Lemma release_moves_only_to_the_rebase_commit_witness :
  "release" = "release" /\ true = true /\
  exists releaseSha stagingSha stagingTree,
    get_ref (releaseStore "c2" "c1") "release" = Ok releaseSha /\
    get_ref (releaseStore "c2" "c1") "staging" = Ok stagingSha /\
    releaseSha <> stagingSha /\
    get_commit (releaseStore "c2" "c1") stagingSha = Ok stagingTree /\
    post_commit (releaseStore "c2" "c1") (rebaseMessage stagingSha) stagingTree
                [stagingSha] = Ok "c-rebased".
Proof.
  apply (@release_moves_only_to_the_rebase_commit (releaseStore "c2" "c1")
           "release" "c-rebased" true).
  simpl. tauto.
Defined.

(** ** Commit messages and the push webhook *)

Section Messages.

Lemma string_app_assoc (a b c : string) :
  ((a ++ b) ++ c)%string = (a ++ (b ++ c))%string.
Proof. induction a as [|x a IH]; simpl; [reflexivity | now rewrite IH]. Qed.

Lemma toLowerCase_app (a b : string) :
  toLowerCase (a ++ b)%string = (toLowerCase a ++ toLowerCase b)%string.
Proof. induction a as [|x a IH]; simpl; [reflexivity | now rewrite IH]. Qed.

Lemma uint_digits (d : Decimal.uint) :
  allDigits (NilEmpty.string_of_uint d) = true.
Proof. induction d; simpl; auto. Qed.

Lemma ofNat_digits (n : nat) : allDigits (Js.ofNat n) = true.
Proof.
  unfold Js.ofNat, NilZero.string_of_uint.
  destruct (Nat.to_uint n) eqn:E; try (rewrite <- E; apply uint_digits).
  reflexivity.
Qed.

Lemma isDigit_lowerChar c : isDigit c = true -> lowerChar c = c.
Proof.
  unfold isDigit, lowerChar. intro H. apply andb_true_iff in H.
  destruct H as [_ H]. apply Nat.leb_le in H.
  destruct (Nat.leb 65 (Ascii.nat_of_ascii c)) eqn:E; [| reflexivity].
  apply Nat.leb_le in E. lia.
Qed.

Lemma toLowerCase_digits (s : string) :
  allDigits s = true -> toLowerCase s = s.
Proof.
  induction s as [|c s IH]; simpl; [reflexivity|].
  intro H. apply andb_true_iff in H. destruct H as [Hc Hs].
  now rewrite isDigit_lowerChar, IH.
Qed.

Lemma includes_skip_digits (s rest : string) :
  allDigits s = true ->
  Js.includes (s ++ rest)%string "update from shopify" =
  Js.includes rest "update from shopify".
Proof.
  induction s as [|c s IH]; [reflexivity|].
  intro H. cbn [allDigits] in H. apply andb_true_iff in H. destruct H as [Hc Hs].
  cbn [append Js.includes String.prefix]. rewrite (IH Hs).
  destruct (Ascii.ascii_dec "u"%char c) as [<- | _]; [discriminate Hc | reflexivity].
Qed.

End Messages.

Section Skipping.

Lemma mismatch_prefix needle : forall s rest,
  mismatch needle s = true -> String.prefix needle (s ++ rest)%string = false.
Proof.
  induction needle as [|a needle IH]; intros s rest H; [destruct s; discriminate|].
  destruct s as [|b s]; [discriminate|].
  cbn [mismatch] in H. cbn [append String.prefix].
  destruct (Ascii.ascii_dec a b) as [<- | Hne]; [| reflexivity].
  rewrite Ascii.eqb_refl in H. now apply IH.
Qed.

Lemma includes_skip_clean needle s : forall rest,
  cleanFor needle s = true ->
  Js.includes (s ++ rest)%string needle = Js.includes rest needle.
Proof.
  induction s as [|c s IH]; intros rest H; [reflexivity|].
  cbn [cleanFor] in H. apply andb_true_iff in H. destruct H as [Hm Hc].
  change ((String c s ++ rest)%string) with (String c (s ++ rest)%string).
  cbn [Js.includes].
  change (String c (s ++ rest)%string) with (String c s ++ rest)%string.
  rewrite (mismatch_prefix needle (String c s) rest Hm). simpl orb.
  now apply IH.
Qed.

End Skipping.

(** Whatever the counters are, the lower-cased message of a sync commit
    does not contain "update from shopify". *)
Lemma sync_message_is_not_a_shopify_update parent st :
  Js.includes (toLowerCase (commitMessageOf parent st)) "update from shopify" = false.
Proof.
  unfold commitMessageOf, countParts, Js.join.
  pose proof (ofNat_digits (filesAdded st)) as Ha.
  pose proof (ofNat_digits (filesUpdated st)) as Hu.
  pose proof (ofNat_digits (filesDeleted st)) as Hd.
  pose proof (ofNat_digits (filesCleanedUp st)) as Hc.
  set (a := Js.ofNat (filesAdded st)) in *.
  set (u := Js.ofNat (filesUpdated st)) in *.
  set (d := Js.ofNat (filesDeleted st)) in *.
  set (c := Js.ofNat (filesCleanedUp st)) in *.
  clearbody a u d c.
  destruct (Nat.ltb 0 (filesAdded st)), (Nat.ltb 0 (filesUpdated st)),
    (Nat.ltb 0 (filesDeleted st)), (Nat.ltb 0 (filesCleanedUp st));
    cbn [List.app String.concat];
    destruct parent; cbn [parentName];
    rewrite ?string_app_assoc, ?toLowerCase_app,
      ?(toLowerCase_digits a Ha), ?(toLowerCase_digits u Hu),
      ?(toLowerCase_digits d Hd), ?(toLowerCase_digits c Hc);
    repeat first
      [ rewrite includes_skip_clean by (vm_compute; reflexivity)
      | rewrite includes_skip_digits by assumption ];
    vm_compute; reflexivity.
Qed.

Lemma fallback_message_is_not_a_shopify_update parent :
  Js.includes (toLowerCase (fallbackMessage parent)) "update from shopify" = false.
Proof. destruct parent; vm_compute; reflexivity. Qed.

Section HandlerFacts.

Variables A B : Type.

Lemma hbind_ext (m1 m2 : H A) (k1 k2 : A -> H B) :
  m1 = m2 -> (forall a, k1 a = k2 a) -> hbind m1 k1 = hbind m2 k2.
Proof.
  intros -> Hk. destruct m2 as [[a | e] cs]; simpl; [| reflexivity].
  now rewrite Hk.
Qed.

End HandlerFacts.

(** A push on the [sgc-] branch of a parent whose head commit is the commit
    of a sync, or the merge commit of its fallback, runs no process: the
    handler checks that [sgc-production] exists and does nothing else,
    whatever the processes it could run are. *)
Theorem sync_commits_trigger_no_process :
  forall getInstallationOctokit updateParentOnSGCPush updateStagingOnProductionPush
         installation deleted parent st message_,
    message_ = commitMessageOf parent st \/ message_ = fallbackMessage parent ->
    onPush getInstallationOctokit updateParentOnSGCPush
           updateStagingOnProductionPush
           (mkPush (Some (S installation)) deleted (Some message_)
                   (refOf (sgcBranch parent))) =
    onlyTheBranchCheck (getInstallationOctokit (S installation)).
Proof.
  intros getInst updParent updStaging installation deleted parent st message_
         Hmessage.
  assert (Hguard : Js.includes (toLowerCase message_) "update from shopify" = false).
  { destruct Hmessage as [-> | ->];
      [apply sync_message_is_not_a_shopify_update
      | apply fallback_message_is_not_a_shopify_update]. }
  unfold onPush, onlyTheBranchCheck.
  cbn [push_installation_id checkInstallationId truthyNumber negb push_deleted
       push_head_commit_message push_ref].
  apply hbind_ext; [reflexivity|].
  intros [|]; cbn [negb]; [| reflexivity].
  destruct (deleted || negb (truthyString (Some message_))); [reflexivity|].
  destruct parent.
  - reflexivity.
  - change (String.eqb (refOf (sgcBranch Production)) "refs/heads/sgc-production")
      with true.
    cbn iota. unfold onSgcProductionPush. now rewrite Hguard.
  - reflexivity.
Qed.

Lemma sync_commits_trigger_no_process_witness :
  onPush (fun _ => mkAppOctokit (store fullSource staleTarget) (fun _ => Ok "false"))
         (fun _ _ _ => hthrow unprocessable) (fun _ => hthrow unprocessable)
         (mkPush (Some 1) false
                 (Some (commitMessageOf Production
                          (syncLocals false (filter (shopifyFilter false) fullSource)
                                      staleTarget sameSha)))
                 (refOf (sgcBranch Production))) =
  onlyTheBranchCheck (mkAppOctokit (store fullSource staleTarget) (fun _ => Ok "false")).
Proof.
  apply (@sync_commits_trigger_no_process
           (fun _ => mkAppOctokit (store fullSource staleTarget) (fun _ => Ok "false"))
           (fun _ _ _ => hthrow unprocessable) (fun _ => hthrow unprocessable)
           0 false Production
           (syncLocals false (filter (shopifyFilter false) fullSource)
                       staleTarget sameSha)).
  now left.
Defined.

(** A push on [sgc-staging] or on a one-way branch runs no process,
    whatever its head commit says: the handler checks that
    [sgc-production] exists and does nothing else (and nothing at all
    without an installation id). *)
Theorem side_branch_pushes_trigger_no_process :
  forall getInstallationOctokit updateParentOnSGCPush updateStagingOnProductionPush
         payload,
    push_ref payload = "refs/heads/sgc-staging" \/
    push_ref payload = "refs/heads/sgc-production-one-way" \/
    push_ref payload = "refs/heads/sgc-staging-one-way" ->
    onPush getInstallationOctokit updateParentOnSGCPush
           updateStagingOnProductionPush payload =
    match push_installation_id payload with
    | Some (S installation) =>
        onlyTheBranchCheck (getInstallationOctokit (S installation))
    | _ => hret tt
    end.
Proof.
  intros getInst updParent updStaging [id deleted message_ ref] Href.
  cbn [push_ref] in Href. unfold onPush, onlyTheBranchCheck.
  cbn [push_installation_id checkInstallationId truthyNumber push_deleted
       push_head_commit_message push_ref].
  destruct id as [[|installation]|]; cbn [negb]; try reflexivity.
  apply hbind_ext; [reflexivity|].
  intros [|]; cbn [negb]; [| reflexivity].
  destruct (deleted || negb (truthyString message_)); [reflexivity|].
  destruct message_ as [message_|]; [| reflexivity].
  destruct Href as [-> | [-> | ->]]; reflexivity.
Qed.

Lemma side_branch_pushes_trigger_no_process_witness :
  onPush (fun _ => mkAppOctokit (store fullSource staleTarget) (fun _ => Ok "false"))
         (fun _ _ _ => hthrow unprocessable) (fun _ => hthrow unprocessable)
         (mkPush (Some 1) false (Some "Update from Shopify")
                 "refs/heads/sgc-production-one-way") =
  onlyTheBranchCheck (mkAppOctokit (store fullSource staleTarget) (fun _ => Ok "false")).
Proof.
  apply (side_branch_pushes_trigger_no_process
           (fun _ => mkAppOctokit (store fullSource staleTarget) (fun _ => Ok "false"))
           (fun _ _ _ => hthrow unprocessable) (fun _ => hthrow unprocessable)
           (mkPush (Some 1) false (Some "Update from Shopify")
                   "refs/heads/sgc-production-one-way")).
  right; left. reflexivity.
Defined.

Section StagingPush.

Variable octokit : AppOctokit.

Lemma checkSgcProductionBranch_found tip :
  get_ref (api octokit) "sgc-production" = Ok tip ->
  checkSgcProductionBranch octokit = (Ok true, [Api (GetRef "sgc-production")]).
Proof. intro H. unfold checkSgcProductionBranch. now rewrite H. Qed.

Lemma checkBranchExists_found branch tip :
  get_ref (api octokit) branch = Ok tip ->
  checkBranchExists octokit branch = (Ok true, [Api (GetRef branch)]).
Proof. intro H. unfold checkBranchExists. now rewrite H. Qed.

Lemma checkBranchExists_missing branch error :
  get_ref (api octokit) branch = Throw error ->
  status error = Some 404 ->
  checkBranchExists octokit branch = (Ok false, [Api (GetRef branch)]).
Proof.
  intros H H404. unfold checkBranchExists. rewrite H.
  cbn [hbind htryCatch]. now rewrite H404.
Qed.

Lemma lift_outcome_calls A (m : M A) : lift m = (outcome m, map Api (calls m)).
Proof. reflexivity. Qed.

End StagingPush.

(** A push on [staging], with [sgc-production] present: the handler runs
    the sync of [sgc-staging], then checks [sgc-staging-one-way] and, when
    it exists, runs the one-way sync; no other process is run, and the
    handler completes normally whatever errors the two syncs meet. *)
Theorem staging_push_runs_both_syncs_and_completes :
  forall getInstallationOctokit updateParentOnSGCPush updateStagingOnProductionPush
         installation c rest tip,
    let octokit := getInstallationOctokit (S installation) in
    let payload := mkPush (Some (S installation)) false (Some (String c rest))
                          "refs/heads/staging" in
    let run := onPush getInstallationOctokit updateParentOnSGCPush
                      updateStagingOnProductionPush payload in
    get_ref (api octokit) "sgc-production" = Ok tip ->
    (forall oneWayTip,
       get_ref (api octokit) "sgc-staging-one-way" = Ok oneWayTip ->
       run = (Ok tt,
              [Api (GetRef "sgc-production")] ++
              map Api (calls (updateSGCOnParentPush (api octokit) false Staging)) ++
              [Api (GetRef "sgc-staging-one-way")] ++
              map Api (calls (syncToOneWayBranch (api octokit) "staging"
                                                 "sgc-staging-one-way")))) /\
    (forall error,
       get_ref (api octokit) "sgc-staging-one-way" = Throw error ->
       status error = Some 404 ->
       run = (Ok tt,
              [Api (GetRef "sgc-production")] ++
              map Api (calls (updateSGCOnParentPush (api octokit) false Staging)) ++
              [Api (GetRef "sgc-staging-one-way")])).
Proof.
  intros getInst updParent updStaging installation c rest tip octokit payload run
         Hsgc.
  assert (Hrun : run =
            hbind (checkSgcProductionBranch octokit)
                  (fun _ => onStagingPush octokit)).
  { unfold run, onPush, payload.
    cbn [push_installation_id checkInstallationId truthyNumber negb push_deleted
         push_head_commit_message push_ref truthyString orb].
    fold octokit. rewrite (checkSgcProductionBranch_found octokit Hsgc).
    reflexivity. }
  rewrite Hrun, (checkSgcProductionBranch_found octokit Hsgc).
  unfold onStagingPush. rewrite !lift_outcome_calls.
  rewrite (run_outcome (api octokit) false Staging).
  rewrite (oneWay_run_outcome (api octokit) "staging" "sgc-staging-one-way").
  split.
  - intros oneWayTip Hone. rewrite (checkBranchExists_found octokit _ Hone).
    cbn [hbind hret]. now rewrite ?app_nil_r.
  - intros error Hone H404.
    rewrite (checkBranchExists_missing octokit _ Hone H404).
    cbn [hbind hret]. now rewrite ?app_nil_r.
Qed.

Lemma staging_push_runs_both_syncs_and_completes_witness :
  let getInstallationOctokit :=
    fun _ : nat => mkAppOctokit (store fullSource staleTarget) (fun _ => Ok "false") in
  let octokit := getInstallationOctokit 1 in
  let payload := mkPush (Some 1) false (Some "Merge pull request #7")
                        "refs/heads/staging" in
  let run := onPush getInstallationOctokit (fun _ _ _ => hthrow unprocessable)
                    (fun _ => hthrow unprocessable) payload in
  (forall oneWayTip,
     get_ref (api octokit) "sgc-staging-one-way" = Ok oneWayTip ->
     run = (Ok tt,
            [Api (GetRef "sgc-production")] ++
            map Api (calls (updateSGCOnParentPush (api octokit) false Staging)) ++
            [Api (GetRef "sgc-staging-one-way")] ++
            map Api (calls (syncToOneWayBranch (api octokit) "staging"
                                               "sgc-staging-one-way")))) /\
  (forall error,
     get_ref (api octokit) "sgc-staging-one-way" = Throw error ->
     status error = Some 404 ->
     run = (Ok tt,
            [Api (GetRef "sgc-production")] ++
            map Api (calls (updateSGCOnParentPush (api octokit) false Staging)) ++
            [Api (GetRef "sgc-staging-one-way")])).
Proof.
  exact (@staging_push_runs_both_syncs_and_completes
           (fun _ : nat =>
              mkAppOctokit (store fullSource staleTarget) (fun _ => Ok "false"))
           (fun _ _ _ => hthrow unprocessable) (fun _ => hthrow unprocessable)
           0 "M"%char "erge pull request #7" "c-sgc-production" eq_refl).
Defined.

(** ** What the filter selects, in terms of the path *)

Section Paths.

Lemma prefix_iff (a : string) : forall s,
  String.prefix a s = true <-> exists rest, s = (a ++ rest)%string.
Proof.
  induction a as [|c a IH]; intro s.
  - split; [intros _; now exists s | intros _; now destruct s].
  - destruct s as [|d s]; cbn [String.prefix append].
    + split; [discriminate | intros [rest H]; discriminate H].
    + destruct (Ascii.ascii_dec c d) as [<- | Hne].
      * rewrite IH. split; intros [rest H]; exists rest; congruence.
      * split; [discriminate | intros [rest H]; congruence].
Qed.

Lemma string_length_app (a b : string) :
  String.length (a ++ b)%string = String.length a + String.length b.
Proof. induction a as [|c a IH]; simpl; [reflexivity | now rewrite IH]. Qed.

Lemma substring_all (s : string) : substring 0 (String.length s) s = s.
Proof. induction s as [|c s IH]; simpl; [reflexivity | now rewrite IH]. Qed.

Lemma substring_skip (a b : string) m :
  substring (String.length a) m (a ++ b)%string = substring 0 m b.
Proof. induction a as [|c a IH]; simpl; [reflexivity | exact IH]. Qed.

Lemma substring_split n : forall s,
  n <= String.length s ->
  exists stem, s = (stem ++ substring n (String.length s - n) s)%string.
Proof.
  induction n as [|n IH]; intros s Hle.
  - exists EmptyString. rewrite Nat.sub_0_r, substring_all. reflexivity.
  - destruct s as [|c s]; simpl in Hle; [lia|].
    destruct (IH s) as [stem Hstem]; [lia|].
    exists (String c stem). simpl. now rewrite <- Hstem.
Qed.

Lemma endsWith_iff (s suffix : string) :
  Js.endsWith s suffix = true <-> exists stem, s = (stem ++ suffix)%string.
Proof.
  unfold Js.endsWith. rewrite andb_true_iff, Nat.leb_le, String.eqb_eq. split.
  - intros [Hle Hsub].
    destruct (@substring_split (String.length s - String.length suffix) s)
      as [stem Hstem]; [lia|].
    exists stem.
    replace (String.length s - (String.length s - String.length suffix))
      with (String.length suffix) in Hstem by lia.
    now rewrite Hsub in Hstem.
  - intros [stem ->]. rewrite string_length_app. split; [lia|].
    replace (String.length stem + String.length suffix - String.length suffix)
      with (String.length stem) by lia.
    now rewrite substring_skip, substring_all.
Qed.

Lemma isInShopifyFolder_iff (p : string) :
  isInShopifyFolder p = true <->
  exists folder, In folder shopifyFolders /\
    (p = folder \/ exists rest, p = (folder ++ "/" ++ rest)%string).
Proof.
  unfold isInShopifyFolder. rewrite existsb_exists. split.
  - intros (folder & Hin & H). exists folder. split; [assumption|].
    apply orb_true_iff in H. destruct H as [H | H].
    + right. unfold Js.startsWith in H. apply prefix_iff in H.
      destruct H as [rest ->]. exists rest. apply string_app_assoc.
    + left. now apply String.eqb_eq.
  - intros (folder & Hin & [-> | [rest ->]]); exists folder;
      (split; [assumption|]); apply orb_true_iff.
    + right. apply String.eqb_refl.
    + left. unfold Js.startsWith. apply prefix_iff. exists rest.
      symmetry. apply string_app_assoc.
Qed.

End Paths.

(** The filter keeps exactly the blobs whose path is one of the eight
    folder names or a folder name followed by a slash (a path that merely
    starts with a folder name is not kept), and that, unless JSON files are
    included, do not end in ".json" or are [config/settings_schema.json]. *)
Theorem filter_selects_folder_files :
  forall inc item,
    shopifyFilter inc item = true <->
    type item = "blob" /\
    (exists folder, In folder shopifyFolders /\
       (path item = folder \/ exists rest, path item = (folder ++ "/" ++ rest)%string)) /\
    (inc = true \/ path item = "config/settings_schema.json" \/
     ~ exists stem, path item = (stem ++ ".json")%string).
Proof.
  intros inc item. unfold shopifyFilter, isBlob.
  rewrite <- isInShopifyFolder_iff, <- (String.eqb_eq (type item) "blob").
  destruct (String.eqb (type item) "blob"); simpl.
  2: { split; [discriminate | intros [H _]; discriminate H]. }
  rewrite andb_true_iff. unfold isNotJson, isSettingsSchema.
  rewrite !orb_true_iff, negb_true_iff, String.eqb_eq.
  assert (Hjson : Js.endsWith (path item) ".json" = false <->
                  ~ exists stem, path item = (stem ++ ".json")%string).
  { rewrite <- endsWith_iff. destruct (Js.endsWith (path item) ".json");
      split; congruence. }
  rewrite Hjson. tauto.
Qed.

(** ** Runs with nothing to do *)

Lemma no_calls_when_none_allowed A (m : M A) (P : Call -> Prop) :
  allCalls P m -> (forall c, ~ P c) -> calls m = [].
Proof.
  intros Hall Hnone. destruct (calls m) as [|c cs] eqn:E; [reflexivity|].
  exfalso. apply (Hnone c). apply Hall. rewrite E. now left.
Qed.

(** When no file of the source listing passes the filter, the parent sync
    and the one-way sync stop after reading the two tips and the source
    listing: the target listing is not read and nothing is written, whatever
    the target holds. *)
Theorem empty_source_stops_after_three_reads :
  forall octokit sourceBranch targetBranch includeJsonFiles parent sourceSha
         targetSha parentSha sgcSha sourceTree parentTree,
    (get_ref octokit (parentName parent) = Ok parentSha ->
     get_ref octokit (sgcBranch parent) = Ok sgcSha ->
     get_tree octokit parentSha = Ok parentTree ->
     filter (shopifyFilter (shouldIncludeJsonOf includeJsonFiles parent)) parentTree
       = [] ->
     updateSGCOnParentPush octokit includeJsonFiles parent =
     (Ok tt, [GetRef (parentName parent); GetRef (sgcBranch parent);
              GetTree parentSha])) /\
    (get_ref octokit sourceBranch = Ok sourceSha ->
     get_ref octokit targetBranch = Ok targetSha ->
     get_tree octokit sourceSha = Ok sourceTree ->
     filter oneWayFilter sourceTree = [] ->
     syncToOneWayBranch octokit sourceBranch targetBranch =
     (Ok tt, [GetRef sourceBranch; GetRef targetBranch; GetTree sourceSha])).
Proof.
  intros octokit sourceBranch targetBranch includeJsonFiles parent sourceSha
         targetSha parentSha sgcSha sourceTree parentTree.
  split.
  - intros Hp Hs Hpt E. unfold updateSGCOnParentPush.
    now rewrite (attempt_empty_source octokit includeJsonFiles parent Hp Hs Hpt E).
  - intros Hs Ht Hst E. unfold syncToOneWayBranch.
    assert (E' : filter (shopifyFilter true) sourceTree = []).
    { rewrite <- E. symmetry. apply filter_ext. intro item.
      apply oneWayFilter_shopifyFilter. }
    now rewrite (oneWay_attempt_empty_source octokit sourceBranch targetBranch
                   Hs Ht Hst E').
Qed.

(** When the plan is empty although files pass the filter (every one is up
    to date and the target has no stale or foreign file), the run consists
    of the four reads: no blob is read or created, and no tree, commit or
    ref is written. *)
Theorem empty_plan_run_is_four_reads :
  forall octokit includeJsonFiles parent parentSha sgcSha parentTree sgcTree,
    get_ref octokit (parentName parent) = Ok parentSha ->
    get_ref octokit (sgcBranch parent) = Ok sgcSha ->
    get_tree octokit parentSha = Ok parentTree ->
    get_tree octokit sgcSha = Ok sgcTree ->
    let inc := shouldIncludeJsonOf includeJsonFiles parent in
    filter (shopifyFilter inc) parentTree <> [] ->
    syncPlan inc parentTree sgcTree (copiedSha octokit) = [] ->
    updateSGCOnParentPush octokit includeJsonFiles parent =
    (Ok tt, [GetRef (parentName parent); GetRef (sgcBranch parent);
             GetTree parentSha; GetTree sgcSha]).
Proof.
  intros octokit includeJsonFiles parent parentSha sgcSha parentTree sgcTree
         Hp Hs Hpt Hst inc Hne Hplan.
  set (files := filter (shopifyFilter inc) parentTree) in *.
  assert (Hentries : blobEntriesOf files sgcTree = []).
  { rewrite syncPlan_blocks in Hplan by exact Hne. fold files in Hplan.
    apply app_eq_nil in Hplan. destruct Hplan as [_ Hplan].
    apply app_eq_nil in Hplan. destruct Hplan as [Hcopy _].
    unfold copyPuts in Hcopy. now apply map_eq_nil in Hcopy. }
  assert (Hout : outcome (collectUpdates octokit inc files sgcTree) =
                 Ok (syncLocals inc files sgcTree (copiedSha octokit))).
  { apply collectUpdates_succeeds. rewrite Hentries. intros k f []. }
  assert (Hcalls : calls (collectUpdates octokit inc files sgcTree) = []).
  { apply (@no_calls_when_none_allowed _ _
             (blobCallFor octokit (blobEntriesOf files sgcTree))).
    - intros c Hc. apply collectUpdates_calls in Hc. exact Hc.
    - rewrite Hentries. intros c (k & f & [] & _). }
  assert (Hnothing : treeUpdates (syncLocals inc files sgcTree (copiedSha octokit))
                     = []).
  { rewrite <- Hplan. symmetry.
    exact (@syncPlan_syncLocals inc parentTree sgcTree (copiedSha octokit) Hne). }
  pose proof (attempt_calls octokit includeJsonFiles parent Hp Hs Hpt Hst Hne)
    as Hac.
  pose proof (attempt_outcome octokit includeJsonFiles parent Hp Hs Hpt Hst Hne)
    as Hao.
  fold inc in Hac, Hao. fold files in Hac, Hao.
  rewrite Hout, Hcalls in Hac. rewrite Hout in Hao.
  rewrite (commitUpdates_nothing octokit parent sgcSha _ Hnothing) in Hac, Hao.
  simpl in Hac, Hao.
  unfold updateSGCOnParentPush.
  destruct (updateSGCOnParentPush_try octokit includeJsonFiles parent) as [r cs].
  simpl in Hac, Hao. now subst.
Qed.

Lemma empty_plan_run_is_four_reads_witness :
  updateSGCOnParentPush (store reuseTarget reuseTarget) false Production =
  (Ok tt, [GetRef "production"; GetRef "sgc-production"; GetTree "c-production";
           GetTree "c-sgc-production"]).
Proof.
  apply (@empty_plan_run_is_four_reads (store reuseTarget reuseTarget) false
           Production "c-production" "c-sgc-production" reuseTarget reuseTarget);
    try reflexivity.
  discriminate.
Defined.

Lemma empty_source_stops_after_three_reads_witness :
  updateSGCOnParentPush (store docsOnlySource staleTarget) false Production =
    (Ok tt, [GetRef "production"; GetRef "sgc-production"; GetTree "c-production"]) /\
  syncToOneWayBranch (oneWayStore docsOnlySource staleTarget) "production"
                     "sgc-production-one-way" =
    (Ok tt, [GetRef "production"; GetRef "sgc-production-one-way";
             GetTree "c-production"]).
Proof.
  split.
  - apply (@empty_source_stops_after_three_reads
             (store docsOnlySource staleTarget) "production" "sgc-production-one-way"
             false Production "c-production" "c-one-way" "c-production"
             "c-sgc-production" docsOnlySource docsOnlySource); reflexivity.
  - apply (@empty_source_stops_after_three_reads
             (oneWayStore docsOnlySource staleTarget) "production"
             "sgc-production-one-way" false Production "c-production" "c-one-way"
             "c-production" "c-sgc-production" docsOnlySource docsOnlySource);
      reflexivity.
Defined.

(** ** The back sync switch *)

(** A push of Shopify's on [sgc-production]: the back sync (the process of
    [update-parent-on-sgc-push.ts] for [production] with JSON files only,
    then the staging rebase) runs unless the repository variable
    [DISABLE_SGC_BACK_SYNC] reads [true] in any letter case; a missing
    variable (404) leaves it enabled, and any other failure to read the
    variable is thrown before a process is run. *)
Theorem back_sync_runs_unless_the_variable_is_true :
  forall getInstallationOctokit updateParentOnSGCPush updateStagingOnProductionPush
         installation message_ tip,
    let octokit := getInstallationOctokit (S installation) in
    let payload := mkPush (Some (S installation)) false (Some message_)
                          "refs/heads/sgc-production" in
    let run := onPush getInstallationOctokit updateParentOnSGCPush
                      updateStagingOnProductionPush payload in
    let backSync := hbind (updateParentOnSGCPush octokit "production" true)
                          (fun _ => updateStagingOnProductionPush octokit) in
    let reads := [Api (GetRef "sgc-production");
                  GetVariable "DISABLE_SGC_BACK_SYNC"] in
    get_ref (api octokit) "sgc-production" = Ok tip ->
    Js.includes (toLowerCase message_) "update from shopify" = true ->
    (forall value,
       get_variable octokit "DISABLE_SGC_BACK_SYNC" = Ok value ->
       run = if String.eqb (toLowerCase value) "true" then (Ok tt, reads)
             else (fst backSync, reads ++ snd backSync)) /\
    (forall error,
       get_variable octokit "DISABLE_SGC_BACK_SYNC" = Throw error ->
       (status error = Some 404 -> run = (fst backSync, reads ++ snd backSync)) /\
       (status error <> Some 404 -> run = (Throw error, reads))).
Proof.
  intros getInst updParent updStaging installation message_ tip octokit payload run
         backSync reads Hsgc Hinc.
  assert (Htruthy : truthyString (Some message_) = true).
  { destruct message_; [discriminate Hinc | reflexivity]. }
  assert (Hrun : run =
            hbind (checkSgcProductionBranch octokit)
                  (fun _ => hbind (getRepoVariable octokit "DISABLE_SGC_BACK_SYNC")
                     (fun disableSgcBackSync =>
                        if match disableSgcBackSync with
                           | Some value => String.eqb (toLowerCase value) "true"
                           | None => false
                           end
                        then hret tt else backSync))).
  { unfold run, onPush, payload.
    cbn [push_installation_id checkInstallationId truthyNumber negb push_deleted
         push_head_commit_message push_ref orb].
    fold octokit. rewrite Htruthy, (checkSgcProductionBranch_found octokit Hsgc).
    cbn [hbind negb].
    change (String.eqb "refs/heads/sgc-production" "refs/heads/sgc-production")
      with true.
    cbn iota. unfold onSgcProductionPush. rewrite Hinc. reflexivity. }
  rewrite Hrun, (checkSgcProductionBranch_found octokit Hsgc).
  unfold getRepoVariable. split.
  - intros value Hvalue. rewrite Hvalue. cbn [hbind htryCatch hret].
    destruct (String.eqb (toLowerCase value) "true"); [reflexivity|].
    now destruct backSync.
  - intros error Herror. rewrite Herror. cbn [hbind htryCatch hret]. split.
    + intro H404. rewrite H404. cbn [hbind hret]. now destruct backSync.
    + intro H404. destruct (status error) as [n|]; [| reflexivity].
      do 404 (destruct n as [|n]; [reflexivity|]).
      destruct n; [congruence | reflexivity].
Qed.

Lemma back_sync_runs_unless_the_variable_is_true_witness :
  let getInstallationOctokit :=
    fun _ : nat => mkAppOctokit (store fullSource staleTarget) (fun _ => Ok "TRUE") in
  let octokit := getInstallationOctokit 1 in
  let payload := mkPush (Some 1) false (Some "Update from Shopify")
                        "refs/heads/sgc-production" in
  let run := onPush getInstallationOctokit (fun _ _ _ => hthrow unprocessable)
                    (fun _ => hthrow unprocessable) payload in
  let backSync := hbind (@hthrow unit unprocessable)
                        (fun _ => @hthrow unit unprocessable) in
  let reads := [Api (GetRef "sgc-production");
                GetVariable "DISABLE_SGC_BACK_SYNC"] in
  (forall value,
     get_variable octokit "DISABLE_SGC_BACK_SYNC" = Ok value ->
     run = if String.eqb (toLowerCase value) "true" then (Ok tt, reads)
           else (fst backSync, reads ++ snd backSync)) /\
  (forall error,
     get_variable octokit "DISABLE_SGC_BACK_SYNC" = Throw error ->
     (status error = Some 404 -> run = (fst backSync, reads ++ snd backSync)) /\
     (status error <> Some 404 -> run = (Throw error, reads))).
Proof.
  exact (@back_sync_runs_unless_the_variable_is_true
           (fun _ : nat =>
              mkAppOctokit (store fullSource staleTarget) (fun _ => Ok "TRUE"))
           (fun _ _ _ => hthrow unprocessable) (fun _ => hthrow unprocessable)
           0 "Update from Shopify" "c-sgc-production" eq_refl eq_refl).
Defined.

(** ** Pushes on [production] *)

(** A push on [production], with [sgc-production] present: the staging
    rebase runs exactly when the lower-cased head commit message contains
    "merge pull request" together with "/sync/horizon" or "/staging", or
    contains "sync files from sgc-production". When the rebase throws, the
    handler throws and [sgc-production-one-way] is not even looked up;
    otherwise the handler looks it up, runs the one-way sync when it exists
    and completes normally. *)
Theorem production_push_rebases_then_syncs_one_way :
  forall getInstallationOctokit updateParentOnSGCPush updateStagingOnProductionPush
         installation c rest tip,
    let octokit := getInstallationOctokit (S installation) in
    let payload := mkPush (Some (S installation)) false (Some (String c rest))
                          "refs/heads/production" in
    let run := onPush getInstallationOctokit updateParentOnSGCPush
                      updateStagingOnProductionPush payload in
    let lower := toLowerCase (String c rest) in
    let rebase :=
      if Js.includes lower "merge pull request" &&
         (Js.includes lower "/sync/horizon" || Js.includes lower "/staging") ||
         Js.includes lower "sync files from sgc-production"
      then updateStagingOnProductionPush octokit
      else hret tt in
    let lookup := Api (GetRef "sgc-production-one-way") in
    get_ref (api octokit) "sgc-production" = Ok tip ->
    (forall error,
       fst rebase = Throw error ->
       run = (Throw error, Api (GetRef "sgc-production") :: snd rebase)) /\
    (forall oneWayTip,
       fst rebase = Ok tt ->
       get_ref (api octokit) "sgc-production-one-way" = Ok oneWayTip ->
       run = (Ok tt,
              Api (GetRef "sgc-production") :: snd rebase ++ [lookup] ++
              map Api (calls (syncToOneWayBranch (api octokit) "production"
                                                 "sgc-production-one-way")))) /\
    (forall error,
       fst rebase = Ok tt ->
       get_ref (api octokit) "sgc-production-one-way" = Throw error ->
       status error = Some 404 ->
       run = (Ok tt, Api (GetRef "sgc-production") :: snd rebase ++ [lookup])).
Proof.
  intros getInst updParent updStaging installation c rest tip octokit payload run
         lower rebase lookup Hsgc.
  assert (Hrun : run =
            hbind (checkSgcProductionBranch octokit)
                  (fun _ =>
                     hbind rebase
                       (fun _ =>
                          hbind (checkBranchExists octokit "sgc-production-one-way")
                            (fun exists_ =>
                               if exists_ then
                                 lift (syncToOneWayBranch (api octokit) "production"
                                         "sgc-production-one-way")
                               else hret tt)))).
  { unfold run, onPush, payload.
    cbn [push_installation_id checkInstallationId truthyNumber negb push_deleted
         push_head_commit_message push_ref truthyString orb].
    fold octokit. rewrite (checkSgcProductionBranch_found octokit Hsgc).
    cbn [hbind negb].
    change (String.eqb "refs/heads/production" "refs/heads/sgc-production")
      with false.
    change (String.eqb "refs/heads/production" "refs/heads/sgc-staging")
      with false.
    change (String.eqb "refs/heads/production" "refs/heads/sgc-production-one-way")
      with false.
    change (String.eqb "refs/heads/production" "refs/heads/sgc-staging-one-way")
      with false.
    change (String.eqb "refs/heads/production" "refs/heads/production") with true.
    cbn [orb]. cbn iota. unfold onProductionPush. fold lower.
    assert (Hrebase :
              (if Js.includes lower "merge pull request" &&
                  Js.includes lower "/sync/horizon" ||
                  Js.includes lower "merge pull request" &&
                  Js.includes lower "/staging"
               then updStaging octokit
               else if Js.includes lower "sync files from sgc-production"
                    then updStaging octokit
                    else hret tt) = rebase).
    { unfold rebase.
      destruct (Js.includes lower "merge pull request"),
        (Js.includes lower "/sync/horizon"), (Js.includes lower "/staging"),
        (Js.includes lower "sync files from sgc-production"); reflexivity. }
    rewrite Hrebase. reflexivity. }
  rewrite Hrun, (checkSgcProductionBranch_found octokit Hsgc).
  destruct rebase as [[[] | e] cs] eqn:Hrebase; cbn [fst snd hbind].
  - split; [intros error H; discriminate H|]. split.
    + intros oneWayTip _ Hone. rewrite (checkBranchExists_found octokit _ Hone).
      rewrite lift_outcome_calls.
      rewrite (oneWay_run_outcome (api octokit) "production" "sgc-production-one-way").
      cbn [hbind hret app]. reflexivity.
    + intros error _ Hone H404.
      rewrite (checkBranchExists_missing octokit _ Hone H404).
      cbn [hbind hret app]. now rewrite ?app_nil_r.
  - split; [| split].
    + intros error [= <-]. reflexivity.
    + intros oneWayTip H; discriminate H.
    + intros error H; discriminate H.
Qed.

Lemma production_push_rebases_then_syncs_one_way_witness :
  let getInstallationOctokit :=
    fun _ : nat => mkAppOctokit (storeOfAllBranches fullSource staleTarget)
                                (fun _ => Ok "false") in
  let octokit := getInstallationOctokit 1 in
  let payload := mkPush (Some 1) false (Some "Merge pull request #7 from acme/staging")
                        "refs/heads/production" in
  let run := onPush getInstallationOctokit (fun _ _ _ => hthrow unprocessable)
                    (fun _ => hthrow unprocessable) payload in
  let rebase := @hthrow unit unprocessable in
  let lookup := Api (GetRef "sgc-production-one-way") in
  (forall error,
     fst rebase = Throw error ->
     run = (Throw error, Api (GetRef "sgc-production") :: snd rebase)) /\
  (forall oneWayTip,
     fst rebase = Ok tt ->
     get_ref (api octokit) "sgc-production-one-way" = Ok oneWayTip ->
     run = (Ok tt,
            Api (GetRef "sgc-production") :: snd rebase ++ [lookup] ++
            map Api (calls (syncToOneWayBranch (api octokit) "production"
                                               "sgc-production-one-way")))) /\
  (forall error,
     fst rebase = Ok tt ->
     get_ref (api octokit) "sgc-production-one-way" = Throw error ->
     status error = Some 404 ->
     run = (Ok tt, Api (GetRef "sgc-production") :: snd rebase ++ [lookup])).
Proof.
  exact (@production_push_rebases_then_syncs_one_way
           (fun _ : nat =>
              mkAppOctokit (storeOfAllBranches fullSource staleTarget) (fun _ => Ok "false"))
           (fun _ _ _ => hthrow unprocessable) (fun _ => hthrow unprocessable)
           0 "M"%char "erge pull request #7 from acme/staging" "c-sgc-production" eq_refl).
Defined.

(** ** The pull request webhook *)

Lemma written_tree_is_a_plan octokit includeJsonFiles parent base tree :
  In (PostTree base tree)
     (calls (updateSGCOnParentPush octokit includeJsonFiles parent)) ->
  exists parentTree sgcTree,
    tree = syncPlan (shouldIncludeJsonOf includeJsonFiles parent) parentTree sgcTree
                    (copiedSha octokit).
Proof.
  intro Hin.
  destruct (run_reads_all_or_only_reads octokit includeJsonFiles parent)
    as [(parentSha & sgcSha & parentTree & sgcTree & Hp & Hs & Hpt & Hst) | Honly].
  2: { apply Honly in Hin. simpl in Hin. intuition discriminate. }
  apply (run_call_cases octokit includeJsonFiles parent Hp Hs Hpt Hst) in Hin.
  destruct Hin as [H | [H | [[H _] | [[m [t H]] | [[commit H] | H]]]]];
    try discriminate H.
  - simpl in H. intuition discriminate.
  - destruct H as (k & f & _ & [H | (blob & _ & H)]); discriminate H.
  - injection H as _ ->. now exists parentTree, sgcTree.
Qed.

Lemma checkSgcProductionBranch_calls octokit :
  snd (checkSgcProductionBranch octokit) = [Api (GetRef "sgc-production")].
Proof.
  unfold checkSgcProductionBranch.
  destruct (get_ref (api octokit) "sgc-production") as [tip | e];
    cbn [hbind htryCatch hret]; [reflexivity|].
  destruct (status e) as [n|]; [| reflexivity].
  do 404 (destruct n as [|n]; [reflexivity|]).
  destruct n; reflexivity.
Qed.

Lemma in_map_Api c cs : In (Api c) (map Api cs) -> In c cs.
Proof.
  intro H. apply in_map_iff in H. destruct H as (c' & [= ->] & Hc). exact Hc.
Qed.

(** A closed pull request without the labels [preview] and [sync-settings]
    (in any letter case) and whose head branch, lower-cased, does not
    contain "sync/horizon-": whatever tree the handler writes has no entry,
    put or delete, for a [.json] file of the eight folders other than
    [config/settings_schema.json]. *)
Theorem plain_pull_request_leaves_json_files_alone :
  forall getInstallationOctokit handlePreviewTheme deletePreviewTheme payload
         base tree u,
    pr_action payload = "closed" ->
    hasLabel "preview" (pr_labels payload) = false ->
    hasLabel "sync-settings" (pr_labels payload) = false ->
    Js.includes (lowerOrEmpty (pr_head_ref payload)) "sync/horizon-" = false ->
    In (Api (PostTree base tree))
       (snd (onPullRequest getInstallationOctokit handlePreviewTheme
                           deletePreviewTheme payload)) ->
    In u tree ->
    isInShopifyFolder (u_path u) = true ->
    Js.endsWith (u_path u) ".json" = true ->
    u_path u = "config/settings_schema.json".
Proof.
  intros getInst handlePreview deletePreview payload base tree u Haction Hpreview
         Hlabel Hhead Hin Hu Hfolder Hjson.
  unfold onPullRequest in Hin. rewrite Haction in Hin.
  change (String.eqb "closed" "labeled") with false in Hin.
  change (String.eqb "closed" "synchronize") with false in Hin.
  change (String.eqb "closed" "closed") with true in Hin.
  cbn iota in Hin.
  destruct (pr_installation_id payload) as [installationId|];
    [| contradiction].
  destruct (negb (truthyNumber (Some installationId))); [contradiction|].
  unfold onPullRequestClosed, shouldIncludeJsonOfPullRequest in Hin.
  rewrite Hpreview, Hlabel, Hhead in Hin. cbn [orb] in Hin.
  destruct (pr_merged payload); cbn [hbind hret negb orb] in Hin;
    [| contradiction].
  destruct (String.eqb (pr_base_ref payload) "production");
    cbn [negb] in Hin; [| contradiction].
  pose proof (checkSgcProductionBranch_calls (getInst installationId)) as Hcs.
  destruct (checkSgcProductionBranch (getInst installationId))
    as [[[|] | e] cs]; cbn [hbind hret negb snd app] in Hin, Hcs; subst cs.
  - rewrite lift_outcome_calls in Hin. cbn [snd app] in Hin.
    destruct Hin as [Hin | Hin]; [discriminate Hin|].
    apply in_map_Api in Hin. apply written_tree_is_a_plan in Hin.
    destruct Hin as (parentTree & sgcTree & ->).
    destruct (String.eqb_spec (u_path u) "config/settings_schema.json")
      as [Heq | Hne]; [exact Heq|].
    exfalso.
    apply (@excluded_path_not_in_plan false parentTree sgcTree
             (copiedSha (api (getInst installationId))) (u_path u) Hfolder).
    + unfold shouldExcludeJson, isSettingsSchema. rewrite Hjson.
      apply String.eqb_neq in Hne. now rewrite Hne.
    + now apply in_map.
  - simpl in Hin. intuition discriminate.
  - simpl in Hin. intuition discriminate.
Qed.

Lemma plain_pull_request_leaves_json_files_alone_witness :
  u_path (putEntry "config/settings_schema.json" "100644" "s1") =
  "config/settings_schema.json".
Proof.
  apply (@plain_pull_request_leaves_json_files_alone
           (fun _ : nat =>
              mkAppOctokit
                (storeOfAllBranches [file "config/settings_schema.json" "s1"] [])
                (fun _ => Ok "false"))
           (fun _ _ => hthrow unprocessable) (fun _ _ => hthrow unprocessable)
           (mkPullRequest (Some 1) "closed" None [Some "Bug"] true "production"
                          (Some "feature/Cart"))
           "c-sgc-production"
           [putEntry "config/settings_schema.json" "100644" "s1"]
           (putEntry "config/settings_schema.json" "100644" "s1")).
  - reflexivity.
  - reflexivity.
  - reflexivity.
  - reflexivity.
  - vm_compute. tauto.
  - now left.
  - reflexivity.
  - reflexivity.
Defined.

(** A closed pull request. Closed without a merge, it makes the handler do
    nothing at all: the preview theme is not deleted whatever the labels
    are, and nothing is read. Merged with the label [preview], a deletion of
    the preview theme that throws ends the handler with that error:
    [sgc-production] is neither looked up nor synced, also when the pull
    request was merged into [production]. *)
Theorem closed_pull_request_without_merge_or_with_failed_cleanup :
  forall getInstallationOctokit handlePreviewTheme deletePreviewTheme payload
         installation,
    let octokit := getInstallationOctokit (S installation) in
    let run := onPullRequest getInstallationOctokit handlePreviewTheme
                             deletePreviewTheme payload in
    pr_installation_id payload = Some (S installation) ->
    pr_action payload = "closed" ->
    (pr_merged payload = false -> run = hret tt) /\
    (forall error cs,
       pr_merged payload = true ->
       hasLabel "preview" (pr_labels payload) = true ->
       deletePreviewTheme octokit payload = (Throw error, cs) ->
       run = (Throw error, cs)).
Proof.
  intros getInst handlePreview deletePreview payload installation octokit run
         Hid Haction.
  assert (Hrun : run = onPullRequestClosed deletePreview octokit payload).
  { unfold run, onPullRequest. rewrite Hid, Haction. reflexivity. }
  rewrite Hrun. unfold onPullRequestClosed. split.
  - intros ->. reflexivity.
  - intros error cs -> -> ->. reflexivity.
Qed.

Lemma closed_pull_request_without_merge_or_with_failed_cleanup_witness :
  let getInstallationOctokit :=
    fun _ : nat => mkAppOctokit (storeOfAllBranches fullSource staleTarget)
                                (fun _ => Ok "false") in
  let deletePreviewTheme :=
    fun (_ : AppOctokit) (_ : PullRequestPayload) => @hthrow unit unprocessable in
  let payload := mkPullRequest (Some 1) "closed" None [Some "Preview"] true
                               "production" (Some "feature/cart") in
  let run := onPullRequest getInstallationOctokit (fun _ _ => hret tt)
                           deletePreviewTheme payload in
  (pr_merged payload = false -> run = hret tt) /\
  (forall error cs,
     pr_merged payload = true ->
     hasLabel "preview" (pr_labels payload) = true ->
     deletePreviewTheme (getInstallationOctokit 1) payload = (Throw error, cs) ->
     run = (Throw error, cs)).
Proof.
  exact (@closed_pull_request_without_merge_or_with_failed_cleanup
           (fun _ : nat =>
              mkAppOctokit (storeOfAllBranches fullSource staleTarget)
                           (fun _ => Ok "false"))
           (fun _ _ => hret tt)
           (fun (_ : AppOctokit) (_ : PullRequestPayload) =>
              @hthrow unit unprocessable)
           (mkPullRequest (Some 1) "closed" None [Some "Preview"] true
                          "production" (Some "feature/cart"))
           0 eq_refl eq_refl).
Defined.
